(** * OrA governance kernel: a shallow embedding and its checked properties

    The development follows the Python sources of the repository:
    - [ora/core/authority.py]      (module [Authority])
    - [ora/audit/immutable_log.py] (module [ImmutableAuditLog])
    - [ora/audit/incidents.py]     (module [IncidentTracker])
    - [ora/security/gates.py]      (module [Gates])
    - [ora/core/constitution.py]   (module [Constitution])
    - [ora/core/kernel.py]         (module [OraKernel])
    - [ora/security/authority_kernel.py] (module [AuthorityKernel])
    on models of what they take from Python: strings ([Py]), [hashlib] and
    [hmac] ([SHA256], [HMAC]) and [json.dumps] ([Json]).  The properties
    follow the definitions.

    Python [str] values are modelled as [string]; every character stands for
    one code point in the range 0..255.  Python [bytes] are [list byte].
    Clock readings, uuids, the machine id, the outcome of database inserts
    and of file writes, and what [json.loads] makes of a line of the
    incident file are inputs of the functions that consult them. *)

From Stdlib Require Import ZArith List Bool Lia.
From Stdlib Require Import Ascii String.
From Stdlib.Strings Require Import Byte.
From Stdlib Require Import DecimalString.
From stdpp Require Import gmap strings list fin_maps.

Import ListNotations.

(* ===================================================================== *)
(** ** Python string and bytes primitives *)
(* ===================================================================== *)

Module Py.

Local Open Scope Z_scope.

(** [ord c] *)
Definition ord (c : ascii) : Z := Z.of_N (N_of_ascii c).

(** [chr n], for [0 <= n < 256] *)
Definition chr (n : Z) : ascii := ascii_of_N (Z.to_N (n mod 256)).

(** The double quote character. *)
Definition dquote : ascii := Eval compute in ascii_of_nat 34.

Definition chars (s : string) : list ascii := list_ascii_of_string s.
Definition of_chars (l : list ascii) : string := string_of_list_ascii l.

(** [c.lower()] on the code points 0..255: A-Z, and the Latin-1 capitals
    U+00C0..U+00DE without the multiplication sign U+00D7. *)
Definition lower_char (c : ascii) : ascii :=
  let n := ord c in
  if ((65 <=? n) && (n <=? 90)) || ((192 <=? n) && (n <=? 222) && negb (n =? 215))
  then chr (n + 32) else c.

(** [s.lower()] *)
Definition lower (s : string) : string := of_chars (List.map lower_char (chars s)).

(** [s.startswith(p)] *)
Fixpoint startswith (p s : string) : bool :=
  match p, s with
  | EmptyString, _ => true
  | String a p', String b s' => if Ascii.eqb a b then startswith p' s' else false
  | String _ _, EmptyString => false
  end.

(** [p in s] for strings: some suffix of [s] starts with [p]. *)
Fixpoint contains (p s : string) : bool :=
  startswith p s ||
  match s with
  | EmptyString => false
  | String _ s' => contains p s'
  end.

(** Characters removed by [str.strip()] and separating the fields of
    [str.split()], within 0..255. *)
Definition isspace (c : ascii) : bool :=
  let n := ord c in
  ((9 <=? n) && (n <=? 13)) || ((28 <=? n) && (n <=? 32)) || (n =? 133) || (n =? 160).

Fixpoint lstrip_chars (l : list ascii) : list ascii :=
  match l with
  | c :: l' => if isspace c then lstrip_chars l' else l
  | [] => []
  end.

(** [s.strip()] *)
Definition strip (s : string) : string :=
  of_chars (List.rev (lstrip_chars (List.rev (lstrip_chars (chars s))))).

(** [s.split()[0]] of a string that is not all white space: the first
    white-space separated field. *)
Fixpoint first_field (l : list ascii) : list ascii :=
  match l with
  | c :: l' => if isspace c then [] else c :: first_field l'
  | [] => []
  end.

Definition split_ws_first (s : string) : string :=
  of_chars (first_field (lstrip_chars (chars s))).

Fixpoint drop_string (n : nat) (s : string) : string :=
  match n, s with
  | O, _ => s
  | S n', String _ s' => drop_string n' s'
  | S _, EmptyString => EmptyString
  end.

(** [s.split(sep)[-1]] for a non-empty separator: what follows the last
    occurrence of [sep] found by the left-to-right, non-overlapping scan. *)
Fixpoint split_last_from (fuel : nat) (sep s : string) (cur : string) : string :=
  match fuel with
  | O => cur
  | S fuel' =>
      match s with
      | EmptyString => cur
      | String _ s' =>
          if startswith sep s
          then let rest := drop_string (String.length sep) s in
               split_last_from fuel' sep rest rest
          else split_last_from fuel' sep s' cur
      end
  end.

Definition split_last (sep s : string) : string :=
  split_last_from (S (String.length s)) sep s s.

(** [s.split(sep)[0]]: what precedes the first occurrence of [sep]. *)
Fixpoint split_first (sep s : string) : string :=
  match s with
  | EmptyString => EmptyString
  | String c s' => if startswith sep s then EmptyString else String c (split_first sep s')
  end.

(** [s[:n]] *)
Fixpoint take_string (n : nat) (s : string) : string :=
  match n, s with
  | S n', String c s' => String c (take_string n' s')
  | _, _ => EmptyString
  end.

(** [s.upper()] restricted to the hexadecimal digits of a uuid *)
Definition upper_char (c : ascii) : ascii :=
  let n := ord c in
  if (97 <=? n) && (n <=? 122) then chr (n - 32) else c.

Definition upper (s : string) : string := of_chars (List.map upper_char (chars s)).

(** [str(n)] for an integer *)
Definition str_of_Z (z : Z) : string := NilZero.string_of_int (Z.to_int z).

(** [s.encode()]: UTF-8 of the code points 0..255 *)
Definition encode_char (c : ascii) : list byte :=
  let n := ord c in
  if n <? 128 then [byte_of_ascii c]
  else match Byte.of_N (Z.to_N (192 + n / 64)), Byte.of_N (Z.to_N (128 + n mod 64)) with
       | Some b1, Some b2 => [b1; b2]
       | _, _ => []
       end.

Definition encode (s : string) : list byte := List.concat (List.map encode_char (chars s)).

Definition hex_digit (n : Z) : ascii :=
  if n <? 10 then chr (48 + n) else chr (87 + n).

(** [bytes.hex()] *)
Definition hex_of_byte (b : byte) : list ascii :=
  let n := Z.of_N (Byte.to_N b) in [hex_digit (n / 16); hex_digit (n mod 16)].

Definition hex (bs : list byte) : string := of_chars (List.concat (List.map hex_of_byte bs)).

(** [sep.join(l)] *)
Fixpoint join (sep : string) (l : list string) : string :=
  match l with
  | [] => EmptyString
  | [x] => x
  | x :: l' => x +:+ sep +:+ join sep l'
  end.

End Py.

(* ===================================================================== *)
(** ** SHA-256 and HMAC-SHA256 ([hashlib.sha256], [hmac.new]) *)
(* ===================================================================== *)

Module SHA256.

Local Open Scope Z_scope.

Definition wrap32 (x : Z) : Z := Z.land x (Z.ones 32).
Definition add32 (x y : Z) : Z := wrap32 (x + y).
Definition rotr (n x : Z) : Z := Z.lor (Z.shiftr x n) (wrap32 (Z.shiftl x (32 - n))).

Definition ch (x y z : Z) : Z := Z.lxor (Z.land x y) (Z.land (Z.lxor x (Z.ones 32)) z).
Definition maj (x y z : Z) : Z := Z.lxor (Z.lxor (Z.land x y) (Z.land x z)) (Z.land y z).
Definition big_sigma0 (x : Z) : Z := Z.lxor (Z.lxor (rotr 2 x) (rotr 13 x)) (rotr 22 x).
Definition big_sigma1 (x : Z) : Z := Z.lxor (Z.lxor (rotr 6 x) (rotr 11 x)) (rotr 25 x).
Definition small_sigma0 (x : Z) : Z := Z.lxor (Z.lxor (rotr 7 x) (rotr 18 x)) (Z.shiftr x 3).
Definition small_sigma1 (x : Z) : Z := Z.lxor (Z.lxor (rotr 17 x) (rotr 19 x)) (Z.shiftr x 10).

(** The round constants are the first 32 bits of the fractional parts of the
    cube roots of the first 64 primes, the initial state those of the square
    roots of the first 8 primes. *)
Fixpoint is_prime_from (fuel : nat) (d n : Z) : bool :=
  match fuel with
  | O => true
  | S fuel' =>
      if n <? d * d then true
      else if n mod d =? 0 then false
      else is_prime_from fuel' (d + 1) n
  end.

Definition is_prime (n : Z) : bool := (2 <=? n) && is_prime_from (Z.to_nat n) 2 n.

Fixpoint primes_from (fuel : nat) (count : nat) (n : Z) : list Z :=
  match fuel, count with
  | _, O => []
  | O, _ => []
  | S fuel', S count' =>
      if is_prime n then n :: primes_from fuel' count' (n + 1)
      else primes_from fuel' count (n + 1)
  end.

Definition first_primes (count : nat) : list Z := primes_from 400 count 2.

(** Integer cube root by bisection on [lo, hi). *)
Fixpoint cbrt_bisect (fuel : nat) (lo hi n : Z) : Z :=
  match fuel with
  | O => lo
  | S fuel' =>
      if hi - lo <=? 1 then lo
      else let mid := (lo + hi) / 2 in
           if mid * mid * mid <=? n then cbrt_bisect fuel' mid hi n
           else cbrt_bisect fuel' lo mid n
  end.

Definition cbrt (n : Z) : Z := cbrt_bisect 200 0 (2 ^ 40) n.

Definition K : list Z :=
  Eval vm_compute in List.map (fun p => wrap32 (cbrt (p * 2 ^ 96))) (first_primes 64).

Definition H0 : list Z :=
  Eval vm_compute in List.map (fun p => wrap32 (Z.sqrt (p * 2 ^ 64))) (first_primes 8).

Definition byteZ (b : byte) : Z := Z.of_N (Byte.to_N b).

Definition Zbyte (z : Z) : byte :=
  match Byte.of_N (Z.to_N (Z.land z 255)) with
  | Some b => b
  | None => x00
  end.

(** Big-endian encoding of [z] on [n] bytes. *)
Fixpoint be_bytes (n : nat) (z : Z) : list byte :=
  match n with
  | O => []
  | S n' => Zbyte (Z.shiftr z (8 * Z.of_nat n')) :: be_bytes n' z
  end.

(** Padding: one bit, zeros up to 56 mod 64, the bit length on 8 bytes. *)
Definition pad (msg : list byte) : list byte :=
  let len := Z.of_nat (List.length msg) in
  let zeros := Z.to_nat ((55 - len) mod 64) in
  msg ++ [x80] ++ List.repeat x00 zeros ++ be_bytes 8 (8 * len).

Fixpoint words_of_bytes (bs : list byte) : list Z :=
  match bs with
  | a :: b :: c :: d :: rest =>
      (byteZ a * 16777216 + byteZ b * 65536 + byteZ c * 256 + byteZ d) :: words_of_bytes rest
  | _ => []
  end.

Fixpoint blocks (fuel : nat) (ws : list Z) : list (list Z) :=
  match fuel with
  | O => []
  | S fuel' =>
      match ws with
      | [] => []
      | _ => List.firstn 16 ws :: blocks fuel' (List.skipn 16 ws)
      end
  end.

(** The message schedule, newest word first; [rw] holds at least 16 words. *)
Fixpoint extend (n : nat) (rw : list Z) : list Z :=
  match n with
  | O => rw
  | S n' =>
      let w := add32 (add32 (small_sigma1 (List.nth 1 rw 0)) (List.nth 6 rw 0))
                     (add32 (small_sigma0 (List.nth 14 rw 0)) (List.nth 15 rw 0)) in
      extend n' (w :: rw)
  end.

Definition schedule (block : list Z) : list Z := List.rev (extend 48 (List.rev block)).

Record regs := Regs { ra : Z; rb : Z; rc : Z; rd : Z; re : Z; rf : Z; rg : Z; rh : Z }.

Definition round (s : regs) (kw : Z * Z) : regs :=
  let t1 := add32 (add32 (add32 (rh s) (big_sigma1 (re s)))
                         (add32 (ch (re s) (rf s) (rg s)) (fst kw))) (snd kw) in
  let t2 := add32 (big_sigma0 (ra s)) (maj (ra s) (rb s) (rc s)) in
  Regs (add32 t1 t2) (ra s) (rb s) (rc s) (add32 (rd s) t1) (re s) (rf s) (rg s).

Definition compress (h : regs) (block : list Z) : regs :=
  let s := List.fold_left round (List.combine K (schedule block)) h in
  Regs (add32 (ra h) (ra s)) (add32 (rb h) (rb s)) (add32 (rc h) (rc s)) (add32 (rd h) (rd s))
       (add32 (re h) (re s)) (add32 (rf h) (rf s)) (add32 (rg h) (rg s)) (add32 (rh h) (rh s)).

Definition init : regs :=
  Regs (List.nth 0 H0 0) (List.nth 1 H0 0) (List.nth 2 H0 0) (List.nth 3 H0 0)
       (List.nth 4 H0 0) (List.nth 5 H0 0) (List.nth 6 H0 0) (List.nth 7 H0 0).

(** [hashlib.sha256(msg).digest()] *)
Definition digest (msg : list byte) : list byte :=
  let ws := words_of_bytes (pad msg) in
  let s := List.fold_left compress (blocks (List.length ws) ws) init in
  List.concat (List.map (be_bytes 4) [ra s; rb s; rc s; rd s; re s; rf s; rg s; rh s]).

(** [hashlib.sha256(msg).hexdigest()] *)
Definition hexdigest (msg : list byte) : string := Py.hex (digest msg).

End SHA256.

Module HMAC.

Definition xor_byte (c : Z) (b : byte) : byte :=
  SHA256.Zbyte (Z.lxor c (SHA256.byteZ b)).

(** The key is hashed when longer than a block, then filled with zeros to
    the block size of 64 bytes. *)
Definition block_key (key : list byte) : list byte :=
  let k := if Nat.ltb 64 (List.length key) then SHA256.digest key else key in
  k ++ List.repeat x00 (64 - List.length k).

(** [hmac.new(key, msg, hashlib.sha256).digest()] *)
Definition digest (key msg : list byte) : list byte :=
  let k := block_key key in
  SHA256.digest (List.map (xor_byte 92) k ++ SHA256.digest (List.map (xor_byte 54) k ++ msg)).

(** [hmac.new(key, msg, hashlib.sha256).hexdigest()] *)
Definition hexdigest (key msg : list byte) : string := Py.hex (digest key msg).

End HMAC.

(* ===================================================================== *)
(** ** [json.dumps] *)
(* ===================================================================== *)

Module Json.

#[local] Set Warnings "-register-all".

(** The values [json.dumps] is applied to in the modelled code: strings,
    integers, booleans, [None], lists and dicts with string keys (a dict is
    kept in insertion order). *)
Inductive json : Type :=
| JNull
| JBool (b : bool)
| JInt (z : Z)
| JStr (s : string)
| JList (l : list json)
| JDict (l : list (string * json)).

Local Open Scope Z_scope.

(** Escaping with [ensure_ascii=True]: quote and backslash, the short
    escapes, and [\u00xx] for everything outside the printable range. *)
Definition escape_char (c : ascii) : list ascii :=
  let n := Py.ord c in
  if n =? 34 then [Py.chr 92; Py.dquote]
  else if n =? 92 then Py.chars "\\"
  else if n =? 10 then Py.chars "\n"
  else if n =? 13 then Py.chars "\r"
  else if n =? 9 then Py.chars "\t"
  else if n =? 8 then Py.chars "\b"
  else if n =? 12 then Py.chars "\f"
  else if (n <? 32) || (126 <? n)
       then Py.chars "\u00" ++ [Py.hex_digit (n / 16); Py.hex_digit (n mod 16)]
  else [c].

Definition quote (s : string) : string :=
  Py.of_chars ([Py.dquote] ++ List.concat (List.map escape_char (Py.chars s)) ++ [Py.dquote]).

(** Insertion of a rendered item into a list sorted by key. *)
Fixpoint insert_item (kv : string * string) (l : list (string * string)) : list (string * string) :=
  match l with
  | [] => [kv]
  | kv' :: l' =>
      if String.leb (fst kv) (fst kv') then kv :: l else kv' :: insert_item kv l'
  end.

Definition sort_items (l : list (string * string)) : list (string * string) :=
  List.fold_right insert_item [] l.

Definition render_item (kv : string * string) : string :=
  quote (fst kv) +:+ ": " +:+ snd kv.

(** [json.dumps(j, sort_keys=sort_keys)] with the default separators. *)
Fixpoint dumps (sort_keys : bool) (j : json) : string :=
  match j with
  | JNull => "null"
  | JBool true => "true"
  | JBool false => "false"
  | JInt z => Py.str_of_Z z
  | JStr s => quote s
  | JList l => "[" +:+ Py.join ", " (List.map (dumps sort_keys) l) +:+ "]"
  | JDict l =>
      let items :=
        (fix render (l : list (string * json)) : list (string * string) :=
           match l with
           | [] => []
           | (k, v) :: l' => (k, dumps sort_keys v) :: render l'
           end) l in
      "{" +:+ Py.join ", " (List.map render_item (if sort_keys then sort_items items else items))
          +:+ "}"
  end.

(** Truth value of a JSON-shaped Python value ([x or default]). *)
Definition truthy (j : json) : bool :=
  match j with
  | JNull => false
  | JBool b => b
  | JInt z => negb (z =? 0)
  | JStr s => negb (String.eqb s EmptyString)
  | JList l => match l with [] => false | _ => true end
  | JDict l => match l with [] => false | _ => true end
  end.

(** [x or {}] for an optional argument. *)
Definition or_empty_dict (x : option json) : json :=
  match x with
  | Some j => if truthy j then j else JDict []
  | None => JDict []
  end.

End Json.

(* ===================================================================== *)
(** ** [ora/core/authority.py] *)
(* ===================================================================== *)

Module Authority.

Local Open Scope Z_scope.

(** [class AuthorityLevel(Enum)] *)
Inductive AuthorityLevel : Type :=
| READ_ONLY
| SAFE_COMPUTE
| INFO_RETRIEVAL
| FILE_READ
| FILE_WRITE
| SYSTEM_EXEC.

#[export] Instance AuthorityLevel_eq_dec : EqDecision AuthorityLevel.
Proof. solve_decision. Defined.

(** [level.value] *)
Definition value (l : AuthorityLevel) : Z :=
  match l with
  | READ_ONLY => 0
  | SAFE_COMPUTE => 1
  | INFO_RETRIEVAL => 2
  | FILE_READ => 3
  | FILE_WRITE => 4
  | SYSTEM_EXEC => 5
  end.

(** [level.name] *)
Definition name (l : AuthorityLevel) : string :=
  match l with
  | READ_ONLY => "READ_ONLY"
  | SAFE_COMPUTE => "SAFE_COMPUTE"
  | INFO_RETRIEVAL => "INFO_RETRIEVAL"
  | FILE_READ => "FILE_READ"
  | FILE_WRITE => "FILE_WRITE"
  | SYSTEM_EXEC => "SYSTEM_EXEC"
  end.

(** [str(level)] of an [Enum] member *)
Definition str (l : AuthorityLevel) : string := "AuthorityLevel." +:+ name l.

(** [list(AuthorityLevel)] *)
Definition all_levels : list AuthorityLevel :=
  [READ_ONLY; SAFE_COMPUTE; INFO_RETRIEVAL; FILE_READ; FILE_WRITE; SYSTEM_EXEC].

Definition name_display (l : AuthorityLevel) : string :=
  match l with
  | READ_ONLY => "A0: READ_ONLY"
  | SAFE_COMPUTE => "A1: SAFE_COMPUTE"
  | INFO_RETRIEVAL => "A2: INFO_RETRIEVAL"
  | FILE_READ => "A3: FILE_READ"
  | FILE_WRITE => "A4: FILE_WRITE"
  | SYSTEM_EXEC => "A5: SYSTEM_EXEC"
  end.

(** [AuthorityRequirements]; the trust threshold is kept in hundredths
    (0.95 is 95). *)
Record AuthorityRequirements : Type := {
  level : AuthorityLevel;
  approval_needed : bool;
  consensus_required : Z;
  trust_threshold : Z;
  sandbox_required : bool;
  skills_allowed : gset string;
  rate_limits : gmap string Z
}.

Definition limits (per_minute per_hour : Z) : gmap string Z :=
  <["per_minute" := per_minute]> (<["per_hour" := per_hour]> ∅).

Definition get_authority_requirements (l : AuthorityLevel) : AuthorityRequirements :=
  match l with
  | READ_ONLY =>
      {| level := READ_ONLY; approval_needed := false; consensus_required := 0;
         trust_threshold := 0; sandbox_required := false;
         skills_allowed := {["read_docs"]};
         rate_limits := limits 1000 10000 |}
  | SAFE_COMPUTE =>
      {| level := SAFE_COMPUTE; approval_needed := false; consensus_required := 0;
         trust_threshold := 80; sandbox_required := false;
         skills_allowed := {["math"; "text_analysis"; "format"]};
         rate_limits := limits 500 5000 |}
  | INFO_RETRIEVAL =>
      {| level := INFO_RETRIEVAL; approval_needed := false; consensus_required := 0;
         trust_threshold := 80; sandbox_required := false;
         skills_allowed := {["web_search"; "api_query_get"]};
         rate_limits := limits 100 1000 |}
  | FILE_READ =>
      {| level := FILE_READ; approval_needed := false; consensus_required := 0;
         trust_threshold := 80; sandbox_required := false;
         skills_allowed := {["file_read"; "dir_list"]};
         rate_limits := limits 200 2000 |}
  | FILE_WRITE =>
      {| level := FILE_WRITE; approval_needed := true; consensus_required := 4;
         trust_threshold := 90; sandbox_required := true;
         skills_allowed := {["file_write"; "file_delete"]};
         rate_limits := limits 50 500 |}
  | SYSTEM_EXEC =>
      {| level := SYSTEM_EXEC; approval_needed := true; consensus_required := 7;
         trust_threshold := 95; sandbox_required := true;
         skills_allowed := {["shell_exec"; "system_modify"; "network_write"]};
         rate_limits := limits 10 100 |}
  end.

Definition is_operation_authorized (operation_level agent_level : AuthorityLevel) : bool :=
  value operation_level <=? value agent_level.

(** The default of the parameter [fault_tolerance]. *)
Definition default_fault_tolerance : Z := 1.

Definition get_byzantine_quorum_size (authority_level : AuthorityLevel) (fault_tolerance : Z) : Z :=
  if value authority_level <? value FILE_WRITE then 0
  else 3 * fault_tolerance + 1.

End Authority.

(* ===================================================================== *)
(** ** [ora/audit/immutable_log.py] *)
(* ===================================================================== *)

Module ImmutableAuditLog.

(** A row of the table [audit_log]; rows are kept in the order of their
    autoincremented [id]. *)
Record AuditEntry : Type := {
  timestamp : string;
  level : string;
  action : string;
  tool : string;
  parameters : string;
  authority : string;
  result : string;
  signature : string;
  session_id : string;
  user_id : string
}.

(** The database file, shared by every instance of the class. *)
Definition Database : Type := list AuditEntry.

(** The instance: its chain head. *)
Record t : Type := { _last_signature : string }.

(** What one call reads from its surroundings: [datetime.now().isoformat()],
    the stripped content of [/etc/machine-id] (or [str(os.uname())]),
    [int(time.time() / 3600)], and whether the insert and commit succeed. *)
Record Env : Type := {
  now_iso : string;
  machine_id : string;
  epoch_hour : Z;
  insert_ok : bool
}.

(** ["0" * 64] *)
Definition genesis : string := Py.of_chars (List.repeat "0"%char 64).

(** The last element of a list, as [ORDER BY id DESC LIMIT 1] reads it. *)
Definition newest (db : Database) : option AuditEntry := List.last (List.map Some db) None.

(** [__init__]: the genesis hash, replaced by the signature of the newest
    row when the table is not empty. *)
Definition init (db : Database) : t :=
  match newest db with
  | Some row => {| _last_signature := signature row |}
  | None => {| _last_signature := genesis |}
  end.

Definition _derive_key (self : t) (env : Env) : list byte :=
  let material :=
    machine_id env +:+ ":" +:+ _last_signature self +:+ ":" +:+ Py.str_of_Z (epoch_hour env) in
  SHA256.digest (Py.encode material).

Definition _sign_entry (self : t) (env : Env) (entry : list (string * Json.json)) : string :=
  let key := _derive_key self env in
  let data := Json.dumps true (Json.JDict entry) in
  HMAC.hexdigest key (Py.encode data).

(** [x or default] for an optional string argument. *)
Definition str_or (x : option string) (default : string) : string :=
  match x with
  | Some s => if String.eqb s EmptyString then default else s
  | None => default
  end.

(** The dict that is signed, in the order the code builds it. *)
Definition entry_data (ts lvl act tl params auth res sid uid : string) : list (string * Json.json) :=
  [ ("timestamp", Json.JStr ts);
    ("level", Json.JStr lvl);
    ("action", Json.JStr act);
    ("tool", Json.JStr tl);
    ("parameters", Json.JStr params);
    ("authority", Json.JStr auth);
    ("result", Json.JStr res);
    ("session_id", Json.JStr sid);
    ("user_id", Json.JStr uid) ].

(** [log]: returns the signature, or [None] when the insert failed, with the
    instance and the table after the call. *)
Definition log (self : t) (db : Database) (env : Env)
    (lvl act tl : string) (params : option Json.json) (auth res : string)
    (sid uid : option string) : option string * t * Database :=
  let ts := now_iso env in
  let ps := Json.dumps false (Json.or_empty_dict params) in
  let sid' := str_or sid "default" in
  let uid' := str_or uid "anonymous" in
  let sig := _sign_entry self env (entry_data ts lvl act tl ps auth res sid' uid') in
  if insert_ok env then
    let row := {| timestamp := ts; level := lvl; action := act; tool := tl;
                  parameters := ps; authority := auth; result := res;
                  signature := sig; session_id := sid'; user_id := uid' |} in
    (Some sig, {| _last_signature := sig |}, db ++ [row])
  else (None, self, db).

(** The defaults of [log]: [authority="A0"], [result="pending"]. *)
Definition default_authority : string := "A0".
Definition default_result : string := "pending".

(** The dict returned by [verify_chain]. *)
Record VerifyResult : Type := {
  total_checked : nat;
  valid : nat;
  invalid : nat;
  errors : list string
}.

(** [ORDER BY id DESC LIMIT limit]: the newest rows first; a negative limit
    is no limit. *)
Definition select_desc (db : Database) (limit : Z) : list AuditEntry :=
  let newest_first := List.rev db in
  if (limit <? 0)%Z then newest_first else List.firstn (Z.to_nat limit) newest_first.

(** The body of the loop of [verify_chain] on one row; the local
    [prev_signature] is assigned at the end of each turn and read nowhere. *)
Definition verify_row (self : t) (env : Env) (acc : VerifyResult * option string)
    (row : AuditEntry) : VerifyResult * option string :=
  let results := fst acc in
  let data :=
    entry_data (timestamp row) (level row) (action row) (tool row) (parameters row)
               (authority row) (result row) (session_id row) (user_id row) in
  let expected_sig := _sign_entry self env data in
  let results' :=
    if String.eqb expected_sig (signature row)
    then {| total_checked := total_checked results; valid := S (valid results);
            invalid := invalid results; errors := errors results |}
    else {| total_checked := total_checked results; valid := valid results;
            invalid := S (invalid results);
            errors := errors results ++
                      ["Entry at " +:+ timestamp row +:+ " has invalid signature"] |} in
  (results', Some (signature row)).

(** [verify_chain]; the machine id and the clock are read again for every
    row, and one reading stands here for all of them. *)
Definition verify_chain (self : t) (db : Database) (env : Env) (limit : Z) : VerifyResult :=
  let rows := select_desc db limit in
  let results := {| total_checked := List.length rows; valid := 0; invalid := 0; errors := [] |} in
  fst (List.fold_left (verify_row self env) (List.rev rows) (results, None)).

(** The default of the parameter [limit]. *)
Definition default_limit : Z := 1000.

(** One call of [log] with its arguments and what it reads. *)
Record LogCall : Type := {
  log_env : Env;
  log_level : string;
  log_action : string;
  log_tool : string;
  log_parameters : option Json.json;
  log_authority : string;
  log_result : string;
  log_session_id : option string;
  log_user_id : option string
}.

Definition log_call (st : t * Database) (c : LogCall) : t * Database :=
  let r := log (fst st) (snd st) (log_env c) (log_level c) (log_action c) (log_tool c)
               (log_parameters c) (log_authority c) (log_result c)
               (log_session_id c) (log_user_id c) in
  (snd (fst r), snd r).

(** A sequence of calls of [log] on one instance, one after the other. *)
Definition log_each (st : t * Database) (calls : list LogCall) : t * Database :=
  List.fold_left log_call calls st.

(** A value bound to a placeholder of a statement. *)
Inductive SqlValue : Type :=
| SqlText (s : string)
| SqlInteger (z : Z).

(** One block [if x: query += clause; params.append(x)] of [query]: [None]
    and the empty string add nothing. *)
Definition add_filter (clause : string) (x : option string) (acc : string * list SqlValue)
  : string * list SqlValue :=
  match x with
  | Some s =>
      if String.eqb s EmptyString then acc else (fst acc +:+ clause, snd acc ++ [SqlText s])
  | None => acc
  end.

(** The statement and the parameters that [query] hands to
    [conn.execute]. *)
Definition query_statement (start_time end_time lvl tl : option string) (limit : Z)
  : string * list SqlValue :=
  let acc := ("SELECT * FROM audit_log WHERE 1=1", []) in
  let acc := add_filter " AND timestamp >= ?" start_time acc in
  let acc := add_filter " AND timestamp <= ?" end_time acc in
  let acc := add_filter " AND level = ?" lvl acc in
  let acc := add_filter " AND tool = ?" tl acc in
  (fst acc +:+ " ORDER BY timestamp DESC LIMIT ?", snd acc ++ [SqlInteger limit]).

(** The default of the parameter [limit] of [query]. *)
Definition default_query_limit : Z := 100.

End ImmutableAuditLog.

(* ===================================================================== *)
(** ** [ora/audit/incidents.py] *)
(* ===================================================================== *)

Module IncidentTracker.

Record Incident : Type := {
  id : string;
  timestamp : string;
  incident_type : string;
  description : string;
  agent : option string;
  operation : option string;
  details : Json.json;
  status : string
}.

Record IncidentResolution : Type := {
  root_cause : string;
  prevention_gate : string;
  verified_at : string;
  verified_by : string
}.

Record IncidentEntry : Type := {
  incident : Incident;
  resolution : option IncidentResolution;
  closed_at : option string
}.

Section Tracker.

(** The registered escalation callbacks are opaque callables; the tracker
    records the calls made to them, in order, with their arguments. *)
Context {Callback : Type}.

(** What [_load] builds from a stripped line that is not empty, with
    [json.loads] and the constructors of the three dataclasses: the entry,
    or [None] when one of them raises. *)
Context (parse_entry : string -> option IncidentEntry).

(** [dataclasses.asdict(entry)], the value handed to [json.dumps]. *)
Definition opt_json (o : option string) : Json.json :=
  match o with
  | Some s => Json.JStr s
  | None => Json.JNull
  end.

Definition incident_dict (i : Incident) : Json.json :=
  Json.JDict
    [ ("id", Json.JStr (id i));
      ("timestamp", Json.JStr (timestamp i));
      ("incident_type", Json.JStr (incident_type i));
      ("description", Json.JStr (description i));
      ("agent", opt_json (agent i));
      ("operation", opt_json (operation i));
      ("details", details i);
      ("status", Json.JStr (status i)) ].

Definition resolution_dict (r : IncidentResolution) : Json.json :=
  Json.JDict
    [ ("root_cause", Json.JStr (root_cause r));
      ("prevention_gate", Json.JStr (prevention_gate r));
      ("verified_at", Json.JStr (verified_at r));
      ("verified_by", Json.JStr (verified_by r)) ].

Definition entry_dict (e : IncidentEntry) : Json.json :=
  Json.JDict
    [ ("incident", incident_dict (incident e));
      ("resolution", match resolution e with
                     | Some r => resolution_dict r
                     | None => Json.JNull
                     end);
      ("closed_at", opt_json (closed_at e)) ].

(** The line feed that separates the lines. *)
Definition line_feed : string := String (Py.chr 10) EmptyString.

(** [json.dumps(asdict(e))], a line of the file and of the export. *)
Definition entry_line (e : IncidentEntry) : string := Json.dumps false (entry_dict e).

(** What the loop [for entry in self._log: f.write(json.dumps(asdict(entry)) + "\n")]
    writes. *)
Fixpoint file_text (log : list IncidentEntry) : string :=
  match log with
  | [] => EmptyString
  | e :: log' => entry_line e +:+ line_feed +:+ file_text log'
  end.

(** How a block [with open(self._path, mode) as f] that writes ends: all
    the text is in the file; or [open] raised; or an error was raised when
    the first [n] characters of the text had reached the file. *)
Inductive WriteOutcome : Type :=
| Completed
| OpenFailed
| Interrupted (n : nat).

(** The file after [_append]: mode ["a"] writes after what the file
    holds; every exception is caught.  The file is its text, empty when
    the file does not exist, and a line feed is written as it is. *)
Definition _append (file : string) (entry : IncidentEntry) (w : WriteOutcome) : string :=
  let text := entry_line entry +:+ line_feed in
  match w with
  | Completed => file +:+ text
  | OpenFailed => file
  | Interrupted n => file +:+ Py.take_string n text
  end.

(** The file after [_rewrite]: mode ["w"] empties the file when it is
    opened; every exception is caught. *)
Definition _rewrite (file : string) (log : list IncidentEntry) (w : WriteOutcome) : string :=
  match w with
  | Completed => file_text log
  | OpenFailed => file
  | Interrupted n => Py.take_string n (file_text log)
  end.

(** The lines that [for line in f] yields, without their ends.  The file
    is read with universal newlines: a line ends at a line feed, at a
    carriage return or at the two in a row, for which an empty line more
    stands here; [_load] skips it like every blank line. *)
Definition is_line_end (c : ascii) : bool :=
  Ascii.eqb c (Py.chr 10) || Ascii.eqb c (Py.chr 13).

Fixpoint file_lines (text : string) : list string :=
  match text with
  | EmptyString => [EmptyString]
  | String c rest =>
      if is_line_end c then EmptyString :: file_lines rest
      else match file_lines rest with
           | line :: lines => String c line :: lines
           | [] => [String c EmptyString]
           end
  end.

(** The loop of [_load]: blank lines are skipped, and the first line on
    which [json.loads] or a constructor raises ends the loop, the entries
    read before it being kept. *)
Fixpoint load_lines (lines : list string) : list IncidentEntry :=
  match lines with
  | [] => []
  | line :: rest =>
      let line := Py.strip line in
      if String.eqb line EmptyString then load_lines rest
      else match parse_entry line with
           | Some entry => entry :: load_lines rest
           | None => []
           end
  end.

(** [_load]: no file reads like an empty one, and a file that [open]
    cannot read like one none of whose lines can be parsed. *)
Definition _load (file : string) : list IncidentEntry := load_lines (file_lines file).

(** The tracker, with the text of the file at [self._path] and the calls
    made to the callbacks. *)
Record t : Type := {
  _session_counts : gmap string nat;
  two_strike_triggered : bool;
  _escalation_callbacks : list Callback;
  _log : list IncidentEntry;
  jsonl : string;
  called : list (Callback * string * string)
}.

(** [__init__], on the text of the file at [path]. *)
Definition init (file : string) : t :=
  {| _session_counts := ∅; two_strike_triggered := false; _escalation_callbacks := [];
     _log := _load file; jsonl := file; called := [] |}.

(** What [record] reads: [strftime('%Y%m%d')] of the current day,
    [uuid.uuid4().hex], [_utcnow()], and how the write to the file ends. *)
Record RecordEnv : Type := {
  today : string;
  uuid_hex : string;
  utcnow : string;
  append_ends : WriteOutcome
}.

Definition record (self : t) (env : RecordEnv) (incident_type0 description0 : string)
    (agent0 operation0 : option string) (details0 : option Json.json) : string * t :=
  let inc_id := "INC-" +:+ today env +:+ "-" +:+ Py.upper (Py.take_string 6 (uuid_hex env)) in
  let incident0 :=
    {| id := inc_id; timestamp := utcnow env; incident_type := incident_type0;
       description := description0; agent := agent0; operation := operation0;
       details := Json.or_empty_dict details0; status := "open" |} in
  let entry := {| incident := incident0; resolution := None; closed_at := None |} in
  let log' := _log self ++ [entry] in
  let jsonl' := _append (jsonl self) entry (append_ends env) in
  let count := default 0 (_session_counts self !! incident_type0) + 1 in
  let counts' := <[incident_type0 := count]> (_session_counts self) in
  if (2 <=? count) && negb (two_strike_triggered self) then
    (inc_id,
     {| _session_counts := counts'; two_strike_triggered := true;
        _escalation_callbacks := _escalation_callbacks self;
        _log := log'; jsonl := jsonl';
        called := called self ++
                  List.map (fun cb => (cb, incident_type0, inc_id)) (_escalation_callbacks self) |})
  else
    (inc_id,
     {| _session_counts := counts'; two_strike_triggered := two_strike_triggered self;
        _escalation_callbacks := _escalation_callbacks self;
        _log := log'; jsonl := jsonl'; called := called self |}).

(** [next((e for e in self._log if e.incident.id == incident_id), None)] *)
Definition find_entry (log : list IncidentEntry) (incident_id : string) : option IncidentEntry :=
  List.find (fun e => String.eqb (id (incident e)) incident_id) log.

(** The assignments to the attributes of the entry found. *)
Definition resolved_entry (e : IncidentEntry) (res : IncidentResolution) (closed : string)
  : IncidentEntry :=
  {| incident :=
       {| id := id (incident e); timestamp := timestamp (incident e);
          incident_type := incident_type (incident e);
          description := description (incident e); agent := agent (incident e);
          operation := operation (incident e); details := details (incident e);
          status := "resolved" |};
     resolution := Some res;
     closed_at := Some closed |}.

(** The list after the object found by [find_entry], the first one with
    that id, has been mutated in place. *)
Fixpoint update_first (log : list IncidentEntry) (incident_id : string)
    (f : IncidentEntry -> IncidentEntry) : list IncidentEntry :=
  match log with
  | [] => []
  | e :: log' =>
      if String.eqb (id (incident e)) incident_id then f e :: log'
      else e :: update_first log' incident_id f
  end.

Definition is_open_of_type (ty : string) (e : IncidentEntry) : bool :=
  String.eqb (incident_type (incident e)) ty && negb (String.eqb (status (incident e)) "resolved").

(** [any(v >= 2 for v in self._session_counts.values())] *)
Definition still_triggered (counts : gmap string nat) : bool :=
  List.existsb (fun kv => 2 <=? snd kv) (map_to_list counts).

(** What [resolve] reads: two calls of [_utcnow()], and how the write to
    the file ends. *)
Record ResolveEnv : Type := {
  utcnow_verified : string;
  utcnow_closed : string;
  rewrite_ends : WriteOutcome
}.


Definition resolve (self : t) (env : ResolveEnv) (incident_id root_cause0 prevention_gate0 : string)
    (verified_by0 : string) : bool * t :=
  match find_entry (_log self) incident_id with
  | None => (false, self)
  | Some entry =>
      let res := {| root_cause := root_cause0; prevention_gate := prevention_gate0;
                    verified_at := utcnow_verified env; verified_by := verified_by0 |} in
      let log' := update_first (_log self) incident_id
                    (fun e => resolved_entry e res (utcnow_closed env)) in
      let jsonl' := _rewrite (jsonl self) log' (rewrite_ends env) in
      let ty := incident_type (incident entry) in
      let open_of_type := List.filter (is_open_of_type ty) log' in
      match open_of_type with
      | [] =>
          let counts' := <[ty := 0]> (_session_counts self) in
          let flag' :=
            if two_strike_triggered self
            then (if still_triggered counts' then true else false)
            else two_strike_triggered self in
          (true,
           {| _session_counts := counts'; two_strike_triggered := flag';
              _escalation_callbacks := _escalation_callbacks self;
              _log := log'; jsonl := jsonl'; called := called self |})
      | _ :: _ =>
          (true,
           {| _session_counts := _session_counts self;
              two_strike_triggered := two_strike_triggered self;
              _escalation_callbacks := _escalation_callbacks self;
              _log := log'; jsonl := jsonl'; called := called self |})
      end
  end.

Definition on_escalation (self : t) (callback : Callback) : t :=
  {| _session_counts := _session_counts self; two_strike_triggered := two_strike_triggered self;
     _escalation_callbacks := _escalation_callbacks self ++ [callback];
     _log := _log self; jsonl := jsonl self; called := called self |}.

Definition get_open (self : t) : list IncidentEntry :=
  List.filter (fun e => negb (String.eqb (status (incident e)) "resolved")) (_log self).

(** One call of [resolve] with its arguments and what it reads. *)
Record ResolveCall : Type := {
  call_id : string;
  call_root_cause : string;
  call_prevention_gate : string;
  call_verified_by : string;
  call_env : ResolveEnv
}.

Definition resolve_call (self : t) (c : ResolveCall) : t :=
  snd (resolve self (call_env c) (call_id c) (call_root_cause c) (call_prevention_gate c)
         (call_verified_by c)).



Definition get_all (self : t) : list IncidentEntry := _log self.

Definition get_by_id (self : t) (incident_id : string) : option IncidentEntry :=
  find_entry (_log self) incident_id.

Definition export_jsonl (self : t) : string :=
  Py.join line_feed (List.map entry_line (_log self)).

(** One call of a method that changes the tracker, with its arguments and
    what it reads. *)
Inductive Call : Type :=
| CallRecord (env : RecordEnv) (incident_type0 description0 : string)
             (agent0 operation0 : option string) (details0 : option Json.json)
| CallResolve (c : ResolveCall)
| CallOnEscalation (callback : Callback).

Definition call (self : t) (c : Call) : t :=
  match c with
  | CallRecord env ty d a o x => snd (record self env ty d a o x)
  | CallResolve c => resolve_call self c
  | CallOnEscalation cb => on_escalation self cb
  end.

(** A sequence of calls, one after the other. *)
Definition call_each (self : t) (calls : list Call) : t := List.fold_left call calls self.

End Tracker.

Arguments t : clear implicits.
Arguments Call : clear implicits.

End IncidentTracker.

(* ===================================================================== *)
(** ** [ora/security/gates.py] *)
(* ===================================================================== *)

Module Gates.

(** The result of a library call that may raise. *)
Inductive Exc (A : Type) : Type :=
| Ok (a : A)
| Raise (kind message : string).

Arguments Ok {A} a.
Arguments Raise {A} kind message.

(** The library functions the gates call.  [re_search p i t]: the pattern
    [p], compiled with [re.IGNORECASE] when [i], is found in the text [t];
    [re_type_error v]: the text of the [TypeError] of [findall] on a value
    that is not a string.  [urlparse_domain u]: the domain that lines
    237-238 extract from the URL [u], or the exception raised;
    [urlparse_other v]: the same for a value that is not a string, the
    domain then being the text an f-string shows for it.
    [path_resolve p]: the components of [Path(p).resolve()], or the
    exception raised; [path_other v]: the text of the [TypeError] of [Path]
    on a value that is not a string.  Their results are not fixed here;
    every statement below holds for all of them. *)
Record Lib : Type := {
  re_search : string -> bool -> string -> bool;
  re_type_error : Json.json -> string;
  urlparse_domain : string -> Exc string;
  urlparse_other : Json.json -> Exc string;
  path_resolve : string -> Exc (list string);
  path_other : Json.json -> string
}.

(** [type(v).__name__] *)
Definition type_name (v : Json.json) : string :=
  match v with
  | Json.JNull => "NoneType"
  | Json.JBool _ => "bool"
  | Json.JInt _ => "int"
  | Json.JStr _ => "str"
  | Json.JList _ => "list"
  | Json.JDict _ => "dict"
  end.

(** [repr] of a string: single quotes unless the string holds one and no
    double quote; backslash, the quote and the control characters escaped. *)
Definition repr_char (q : ascii) (c : ascii) : list ascii :=
  let n := Py.ord c in
  if Ascii.eqb c q || (n =? 92)%Z then [Py.chr 92; c]
  else if (n =? 10)%Z then Py.chars "\n"
  else if (n =? 13)%Z then Py.chars "\r"
  else if (n =? 9)%Z then Py.chars "\t"
  else if (n <? 32)%Z || ((127 <=? n)%Z && (n <=? 160)%Z) || (n =? 173)%Z
       then Py.chars "\x" ++ [Py.hex_digit (n / 16); Py.hex_digit (n mod 16)]
  else [c].

Definition repr_str (s : string) : string :=
  let has_single := Py.contains "'" s in
  let has_double := Py.contains (String Py.dquote EmptyString) s in
  let q := if has_single && negb has_double then Py.dquote else "'"%char in
  Py.of_chars ([q] ++ List.concat (List.map (repr_char q) (Py.chars s)) ++ [q]).

(** [repr] of a list of strings, as an f-string formats it. *)
Definition repr_list (l : list string) : string :=
  "[" +:+ Py.join ", " (List.map repr_str l) +:+ "]".

(** *** Gate 1: prompt injection scanner *)

Module PromptInjectionScanner.

Definition INJECTION_PATTERNS : list string :=
  [ "ignore.*previous.*instructions";
    "disregard.*above";
    "forget.*everything";
    "new.*instructions";
    "system\s*prompt";
    "reveal.*prompt";
    "show.*instructions";
    "you.*are.*now.*";
    "pretend.*you.*are";
    "act.*as.*if";
    "imagine.*you.*are";
    "roleplay.*as";
    "base64.*decode";
    "rot13";
    "unicode.*escape";
    "hex.*decode";
    "<\s*system\s*>";
    "<\s*assistant\s*>";
    "<\s*user\s*>";
    "\[INST\]";
    "\[/INST\]";
    "bypass.*gate";
    "disable.*security";
    "override.*protection";
    "skip.*approval" ].

Record t : Type := {
  strict_mode : bool;
  threat_count : nat
}.

Definition threat (self : t) : t :=
  {| strict_mode := strict_mode self; threat_count := S (threat_count self) |}.

(** [scan]: a false value passes at [if not text]; on any other value that
    is not a string [pattern.findall] raises. *)
Definition scan (lib : Lib) (self : t) (text : Json.json) : Exc (bool * list string) * t :=
  match text with
  | Json.JStr t0 =>
      if String.eqb t0 EmptyString then (Ok (true, []), self)
      else
        let detected := List.filter (fun p => re_search lib p true t0) INJECTION_PATTERNS in
        match detected with
        | [] => (Ok (true, []), self)
        | _ => (Ok (false, detected), threat self)
        end
  | _ =>
      if Json.truthy text then (Raise "TypeError" (re_type_error lib text), self)
      else (Ok (true, []), self)
  end.

End PromptInjectionScanner.

(** *** Gate 2: shell command sanitizer *)

Module ShellCommandSanitizer.

Definition DANGEROUS_COMMANDS : list string :=
  [ "rm\s+-rf\s+/";
    "mkfs";
    "dd\s+.*of=/dev";
    ":\(\)\{.*\}";
    "chmod\s+-R\s+777";
    "chown\s+-R\s+root";
    "curl.*\|\s*bash";
    "wget.*\|\s*sh";
    ":(){ :|:& };:" ].

Definition SAFE_COMMANDS : list string :=
  [ "ls"; "cat"; "grep"; "find"; "echo"; "pwd"; "cd";
    "mkdir"; "touch"; "cp"; "mv"; "chmod"; "chown";
    "git"; "python"; "pip"; "npm"; "node";
    "docker"; "kubectl"; "terraform";
    "curl"; "wget"; "ssh"; "scp" ].

Record t : Type := {
  mode : string;
  threat_count : nat
}.

Definition threat (self : t) : t :=
  {| mode := mode self; threat_count := S (threat_count self) |}.

(** [validate]: a false value passes at [if not command]; any other value
    that is not a string has no method [strip].  The counter is
    incremented for a dangerous pattern, not for a command outside the
    allowlist. *)
Definition validate (lib : Lib) (self : t) (command : Json.json)
  : Exc (bool * option string) * t :=
  match command with
  | Json.JStr c =>
      if String.eqb c EmptyString || String.eqb (Py.strip c) EmptyString
      then (Ok (true, None), self)
      else
        match List.find (fun p => re_search lib p false c) DANGEROUS_COMMANDS with
        | Some p => (Ok (false, Some ("Blocked: Dangerous pattern detected: " +:+ p)), threat self)
        | None =>
            if String.eqb (mode self) "allowlist" then
              let base_cmd := Py.split_ws_first (Py.strip c) in
              if List.existsb (String.eqb base_cmd) SAFE_COMMANDS then (Ok (true, None), self)
              else (Ok (false, Some ("Blocked: Command '" +:+ base_cmd +:+ "' not in allowlist")),
                    self)
            else (Ok (true, None), self)
        end
  | _ =>
      if Json.truthy command
      then (Raise "AttributeError"
                  ("'" +:+ type_name command +:+ "' object has no attribute 'strip'"), self)
      else (Ok (true, None), self)
  end.

End ShellCommandSanitizer.

(** *** Gate 3: sandbox enforcer *)

Module SandboxEnforcer.

Definition high_risk_ops : list string :=
  [ "terminal.execute"; "filesystem.delete"; "docker.run"; "code_analyzer.execute" ].

Record t : Type := {
  sandbox_enabled : bool;
  threat_count : nat
}.

(** [requires_sandbox]; a value that is not a string is equal to none of
    the operation names. *)
Definition requires_sandbox (self : t) (operation tool : Json.json) : bool * option string :=
  if negb (sandbox_enabled self) then (false, None)
  else
    match operation with
    | Json.JStr op =>
        if List.existsb (String.eqb op) high_risk_ops
        then (true, Some ("Operation '" +:+ op +:+ "' requires sandbox"))
        else (false, None)
    | _ => (false, None)
    end.

End SandboxEnforcer.

(** *** Gate 4: credential guard.  The double quote of the character
    classes is spliced in. *)

Module CredentialGuard.

Definition quote_class : string := "['\" +:+ String Py.dquote "]?".

Definition CREDENTIAL_PATTERNS : list string :=
  [ "api[_-]?key\s*[:=]\s*" +:+ quote_class +:+ "[a-zA-Z0-9_\-]{20,}" +:+ quote_class;
    "password\s*[:=]\s*" +:+ quote_class +:+ "[^\s]{6,}" +:+ quote_class;
    "secret\s*[:=]\s*" +:+ quote_class +:+ "[a-zA-Z0-9_\-]{10,}" +:+ quote_class;
    "token\s*[:=]\s*" +:+ quote_class +:+ "[a-zA-Z0-9_\-]{20,}" +:+ quote_class;
    "bearer\s+[a-zA-Z0-9_\-]{20,}";
    "sk-[a-zA-Z0-9_\-]{20,}";
    "gh[pousr]_[a-zA-Z0-9_\-]{20,}" ].

Record t : Type := {
  threat_count : nat
}.

Definition threat (self : t) : t := {| threat_count := S (threat_count self) |}.

(** [scan], which the coordinator calls on strings only. *)
Definition scan (lib : Lib) (self : t) (text : string) : (bool * option string) * t :=
  if String.eqb text EmptyString then ((true, None), self)
  else
    match List.find (fun p => re_search lib p true text) CREDENTIAL_PATTERNS with
    | Some p => ((false, Some ("Potential credential exposure detected: " +:+ p)), threat self)
    | None => ((true, None), self)
    end.

End CredentialGuard.

(** *** Gate 5: network allowlist *)

Module NetworkAllowlist.

Definition DEFAULT_ALLOWLIST : list string :=
  [ "api.openai.com"; "api.anthropic.com"; "api.deepseek.com"; "api.moonshot.cn";
    "api.nvidia.com"; "localhost"; "127.0.0.1"; "0.0.0.0" ].

Record t : Type := {
  allowlist : gset string;
  threat_count : nat
}.

(** [NetworkAllowlist(custom_allowlist)] *)
Definition make (custom_allowlist : list string) : t :=
  {| allowlist := list_to_set (DEFAULT_ALLOWLIST ++ custom_allowlist); threat_count := 0 |}.

Definition threat (self : t) : t :=
  {| allowlist := allowlist self; threat_count := S (threat_count self) |}.

Definition refused (self : t) (domain : string) : (bool * option string) * t :=
  ((false, Some ("Domain '" +:+ domain +:+ "' not in network allowlist")), threat self).

(** [is_allowed]; every exception is caught, and what a value that is not
    a string parses to is in no set of host names. *)
Definition is_allowed (lib : Lib) (self : t) (url : Json.json) : (bool * option string) * t :=
  match url with
  | Json.JStr u =>
      match urlparse_domain lib u with
      | Ok domain =>
          if bool_decide (domain ∈ allowlist self) then ((true, None), self)
          else refused self domain
      | Raise _ m => ((false, Some ("Invalid URL: " +:+ m)), self)
      end
  | _ =>
      match urlparse_other lib url with
      | Ok domain => refused self domain
      | Raise _ m => ((false, Some ("Invalid URL: " +:+ m)), self)
      end
  end.

End NetworkAllowlist.

(** *** Gate 6: workspace boundary enforcer *)

Module WorkspaceBoundaryEnforcer.

(** [str(path)] of a resolved POSIX path *)
Definition path_str (p : list string) : string :=
  match p with
  | [] => "/"
  | _ => List.fold_left (fun acc c => acc +:+ "/" +:+ c) p EmptyString
  end.

(** [a in b.parents]: [a] is a proper prefix of [b]. *)
Fixpoint is_parent (a b : list string) : bool :=
  match a, b with
  | [], [] => false
  | [], _ :: _ => true
  | _ :: _, [] => false
  | x :: a', y :: b' => String.eqb x y && is_parent a' b'
  end.

Record t : Type := {
  workspace_root : list string;
  threat_count : nat
}.

Definition threat (self : t) : t :=
  {| workspace_root := workspace_root self; threat_count := S (threat_count self) |}.

(** [is_within_workspace]; every exception is caught, and [Path] of a value
    that is not a string raises. *)
Definition is_within_workspace (lib : Lib) (self : t) (file_path : Json.json)
  : (bool * option string) * t :=
  match file_path with
  | Json.JStr p =>
      match path_resolve lib p with
      | Ok target =>
          if is_parent (workspace_root self) target || bool_decide (target = workspace_root self)
          then ((true, None), self)
          else ((false, Some ("Path '" +:+ p +:+ "' is outside workspace '"
                              +:+ path_str (workspace_root self) +:+ "'")), threat self)
      | Raise _ m => ((false, Some ("Invalid path: " +:+ m)), self)
      end
  | _ => ((false, Some ("Invalid path: " +:+ path_other lib file_path)), self)
  end.

End WorkspaceBoundaryEnforcer.

(** *** The coordinator *)

Record SecurityCheckResult : Type := {
  passed : bool;
  gate_name : string;
  threat_detected : bool;
  reason : option string;
  sanitized_value : option string
}.

Record SecurityGateCoordinator : Type := {
  prompt_scanner : PromptInjectionScanner.t;
  shell_sanitizer : ShellCommandSanitizer.t;
  sandbox_enforcer : SandboxEnforcer.t;
  credential_guard : CredentialGuard.t;
  network_allowlist : NetworkAllowlist.t;
  workspace_boundary : WorkspaceBoundaryEnforcer.t
}.

(** One entry of ["gate_results"]. *)
Record GateReport : Type := {
  report_passed : bool;
  report_reason : option string;
  report_threat_detected : bool
}.

(** The dict returned by [run_all_gates]. *)
Record RunResult : Type := {
  overall_passed : bool;
  run_threat_detected : bool;
  gate_results : gmap string GateReport
}.

Section WithLib.

Context (lib : Lib).

(** [SecurityGateCoordinator(workspace_root, config)] with the entries of
    [config] given (defaults: [True], ["allowlist"], [True], [None]). *)
Definition make (root : string) (strict : bool) (mode : string) (sandbox : bool)
    (custom_allowlist : list string) : Exc SecurityGateCoordinator :=
  match path_resolve lib root with
  | Ok p =>
      Ok {| prompt_scanner :=
              {| PromptInjectionScanner.strict_mode := strict;
                 PromptInjectionScanner.threat_count := 0 |};
            shell_sanitizer :=
              {| ShellCommandSanitizer.mode := mode; ShellCommandSanitizer.threat_count := 0 |};
            sandbox_enforcer :=
              {| SandboxEnforcer.sandbox_enabled := sandbox; SandboxEnforcer.threat_count := 0 |};
            credential_guard := {| CredentialGuard.threat_count := 0 |};
            network_allowlist := NetworkAllowlist.make custom_allowlist;
            workspace_boundary :=
              {| WorkspaceBoundaryEnforcer.workspace_root := p;
                 WorkspaceBoundaryEnforcer.threat_count := 0 |} |}
  | Raise k m => Raise k m
  end.

Definition with_prompt_scanner (self : SecurityGateCoordinator) (g : PromptInjectionScanner.t)
  : SecurityGateCoordinator :=
  {| prompt_scanner := g; shell_sanitizer := shell_sanitizer self;
     sandbox_enforcer := sandbox_enforcer self; credential_guard := credential_guard self;
     network_allowlist := network_allowlist self; workspace_boundary := workspace_boundary self |}.

Definition with_shell_sanitizer (self : SecurityGateCoordinator) (g : ShellCommandSanitizer.t)
  : SecurityGateCoordinator :=
  {| prompt_scanner := prompt_scanner self; shell_sanitizer := g;
     sandbox_enforcer := sandbox_enforcer self; credential_guard := credential_guard self;
     network_allowlist := network_allowlist self; workspace_boundary := workspace_boundary self |}.

Definition with_credential_guard (self : SecurityGateCoordinator) (g : CredentialGuard.t)
  : SecurityGateCoordinator :=
  {| prompt_scanner := prompt_scanner self; shell_sanitizer := shell_sanitizer self;
     sandbox_enforcer := sandbox_enforcer self; credential_guard := g;
     network_allowlist := network_allowlist self; workspace_boundary := workspace_boundary self |}.

Definition with_network_allowlist (self : SecurityGateCoordinator) (g : NetworkAllowlist.t)
  : SecurityGateCoordinator :=
  {| prompt_scanner := prompt_scanner self; shell_sanitizer := shell_sanitizer self;
     sandbox_enforcer := sandbox_enforcer self; credential_guard := credential_guard self;
     network_allowlist := g; workspace_boundary := workspace_boundary self |}.

Definition with_workspace_boundary (self : SecurityGateCoordinator)
    (g : WorkspaceBoundaryEnforcer.t) : SecurityGateCoordinator :=
  {| prompt_scanner := prompt_scanner self; shell_sanitizer := shell_sanitizer self;
     sandbox_enforcer := sandbox_enforcer self; credential_guard := credential_guard self;
     network_allowlist := network_allowlist self; workspace_boundary := g |}.

Definition check_prompt (self : SecurityGateCoordinator) (text : Json.json)
  : Exc SecurityCheckResult * SecurityGateCoordinator :=
  match PromptInjectionScanner.scan lib (prompt_scanner self) text with
  | (Ok (is_safe, patterns), g) =>
      (Ok {| passed := is_safe; gate_name := "prompt_injection";
             threat_detected := negb is_safe;
             reason := if is_safe then None
                       else Some ("Detected patterns: " +:+ repr_list patterns);
             sanitized_value := None |},
       with_prompt_scanner self g)
  | (Raise k m, g) => (Raise k m, with_prompt_scanner self g)
  end.

Definition check_shell_command (self : SecurityGateCoordinator) (command : Json.json)
  : Exc SecurityCheckResult * SecurityGateCoordinator :=
  match ShellCommandSanitizer.validate lib (shell_sanitizer self) command with
  | (Ok (is_safe, reason0), g) =>
      (Ok {| passed := is_safe; gate_name := "shell_sanitizer";
             threat_detected := negb is_safe; reason := reason0; sanitized_value := None |},
       with_shell_sanitizer self g)
  | (Raise k m, g) => (Raise k m, with_shell_sanitizer self g)
  end.

Definition check_sandbox_requirement (self : SecurityGateCoordinator)
    (operation tool : Json.json) : SecurityCheckResult :=
  let '(requires, reason0) :=
    SandboxEnforcer.requires_sandbox (sandbox_enforcer self) operation tool in
  {| passed := negb requires; gate_name := "sandbox_enforcer";
     threat_detected := requires; reason := reason0; sanitized_value := None |}.

Definition check_credential_exposure (self : SecurityGateCoordinator) (text : string)
  : SecurityCheckResult * SecurityGateCoordinator :=
  let '((is_safe, reason0), g) := CredentialGuard.scan lib (credential_guard self) text in
  ({| passed := is_safe; gate_name := "credential_guard";
      threat_detected := negb is_safe; reason := reason0; sanitized_value := None |},
   with_credential_guard self g).

Definition check_network_access (self : SecurityGateCoordinator) (url : Json.json)
  : SecurityCheckResult * SecurityGateCoordinator :=
  let '((allowed, reason0), g) := NetworkAllowlist.is_allowed lib (network_allowlist self) url in
  ({| passed := allowed; gate_name := "network_allowlist";
      threat_detected := negb allowed; reason := reason0; sanitized_value := None |},
   with_network_allowlist self g).

Definition check_workspace_boundary (self : SecurityGateCoordinator) (file_path : Json.json)
  : SecurityCheckResult * SecurityGateCoordinator :=
  let '((is_safe, reason0), g) :=
    WorkspaceBoundaryEnforcer.is_within_workspace lib (workspace_boundary self) file_path in
  ({| passed := is_safe; gate_name := "workspace_boundary";
      threat_detected := negb is_safe; reason := reason0; sanitized_value := None |},
   with_workspace_boundary self g).

(** One turn of the loop over [request.items()]. *)
Definition credential_step (acc : gmap string SecurityCheckResult * SecurityGateCoordinator)
    (kv : string * Json.json) : gmap string SecurityCheckResult * SecurityGateCoordinator :=
  match snd kv with
  | Json.JStr value =>
      let checked := check_credential_exposure (snd acc) value in
      if passed (fst checked) then (fst acc, snd checked)
      else (<["credential_" +:+ fst kv := fst checked]> (fst acc), snd checked)
  | _ => acc
  end.

(** The blocks of [run_all_gates], in order: each takes the dict [results]
    and the coordinator, and gives them back as it leaves them. *)
Definition prompt_step (self : SecurityGateCoordinator) (request : gmap string Json.json)
    (results : gmap string SecurityCheckResult)
  : Exc (gmap string SecurityCheckResult) * SecurityGateCoordinator :=
  match request !! "prompt" with
  | Some v =>
      match check_prompt self v with
      | (Ok r, self') => (Ok (<["prompt" := r]> results), self')
      | (Raise k m, self') => (Raise k m, self')
      end
  | None => (Ok results, self)
  end.

Definition shell_step (self : SecurityGateCoordinator) (request : gmap string Json.json)
    (results : gmap string SecurityCheckResult)
  : Exc (gmap string SecurityCheckResult) * SecurityGateCoordinator :=
  match request !! "shell_command" with
  | Some v =>
      match check_shell_command self v with
      | (Ok r, self') => (Ok (<["shell" := r]> results), self')
      | (Raise k m, self') => (Raise k m, self')
      end
  | None => (Ok results, self)
  end.

Definition sandbox_step (self : SecurityGateCoordinator) (request : gmap string Json.json)
    (results : gmap string SecurityCheckResult) : gmap string SecurityCheckResult :=
  match request !! "operation" with
  | Some v =>
      <["sandbox" := check_sandbox_requirement self v
                       (default (Json.JStr "unknown") (request !! "tool"))]> results
  | None => results
  end.

Definition network_step (request : gmap string Json.json)
    (acc : gmap string SecurityCheckResult * SecurityGateCoordinator)
  : gmap string SecurityCheckResult * SecurityGateCoordinator :=
  match request !! "url" with
  | Some v =>
      let checked := check_network_access (snd acc) v in
      (<["network" := fst checked]> (fst acc), snd checked)
  | None => acc
  end.

Definition workspace_step (request : gmap string Json.json)
    (acc : gmap string SecurityCheckResult * SecurityGateCoordinator)
  : gmap string SecurityCheckResult * SecurityGateCoordinator :=
  match request !! "file_path" with
  | Some v =>
      let checked := check_workspace_boundary (snd acc) v in
      (<["workspace" := fst checked]> (fst acc), snd checked)
  | None => acc
  end.

(** The checks of [run_all_gates] up to the dict [results]; an exception
    of the prompt or of the shell check ends them. *)
Definition collect_results (self : SecurityGateCoordinator) (request : gmap string Json.json)
  : Exc (gmap string SecurityCheckResult) * SecurityGateCoordinator :=
  match prompt_step self request ∅ with
  | (Raise k m, self1) => (Raise k m, self1)
  | (Ok results1, self1) =>
      match shell_step self1 request results1 with
      | (Raise k m, self2) => (Raise k m, self2)
      | (Ok results2, self2) =>
          let results3 := sandbox_step self2 request results2 in
          let acc := List.fold_left credential_step (map_to_list request) (results3, self2) in
          let acc := network_step request acc in
          let acc := workspace_step request acc in
          (Ok (fst acc), snd acc)
      end
  end.

(** [r.values()] *)
Definition values {A : Type} (m : gmap string A) : list A := List.map snd (map_to_list m).

Definition report (r : SecurityCheckResult) : GateReport :=
  {| report_passed := passed r; report_reason := reason r;
     report_threat_detected := threat_detected r |}.

Definition run_all_gates (self : SecurityGateCoordinator) (request : gmap string Json.json)
  : Exc RunResult * SecurityGateCoordinator :=
  match collect_results self request with
  | (Raise k m, self) => (Raise k m, self)
  | (Ok results, self) =>
      let all_passed := List.forallb passed (values results) in
      let threat := List.existsb threat_detected (values results) in
      (Ok {| overall_passed := all_passed; run_threat_detected := threat;
             gate_results := report <$> results |}, self)
  end.

End WithLib.

End Gates.

(* ===================================================================== *)
(** ** [ora/core/constitution.py] *)
(* ===================================================================== *)

Module Constitution.

Import Authority.

Record ConstitutionalConstraint : Type := {
  article : string;
  title : string;
  constraint_description : string;
  authority_levels : list AuthorityLevel;
  enforcement : string
}.

Record Operation : Type := {
  operation_id : string;
  agent_id : string;
  skill_name : string;
  parameters : Json.json;
  authority_level : AuthorityLevel;
  description : string
}.

(** The property [Operation.hash]. *)
Definition hash (op : Operation) : string :=
  SHA256.hexdigest (Py.encode (Json.dumps true (Json.JDict
    [ ("operation_id", Json.JStr (operation_id op));
      ("agent_id", Json.JStr (agent_id op));
      ("skill_name", Json.JStr (skill_name op));
      ("parameters", parameters op);
      ("authority_level", Json.JInt (value (authority_level op)));
      ("description", Json.JStr (description op)) ]))).

(** The exceptions derived from [ConstitutionalViolation], with their text. *)
Inductive Violation : Type :=
| ConstitutionalViolation (message : string)
| PrimeDirectiveViolation (message : string)
| InsufficientAuthorityViolation (message : string)
| ProhibitedOperationViolation (message : string).

(** [str(e)] *)
Definition message_of (v : Violation) : string :=
  match v with
  | ConstitutionalViolation m => m
  | PrimeDirectiveViolation m => m
  | InsufficientAuthorityViolation m => m
  | ProhibitedOperationViolation m => m
  end.

Definition VERSION : string := "2.0.0".

Definition PRIME_DIRECTIVE : string :=
  "No agent shall cause harm to humans, human systems, or human data through action or inaction.".

(** The arrows (U+2192) of the source text are outside the code points
    0..255; they are written [->] here, which changes the value of the
    hash of the Constitution and nothing else. *)
Definition AUTHORITY_HIERARCHY : list string :=
  [ "L0: CONSTITUTIONAL AUTHORITY (This Document)";
    "L1: HUMAN OPERATORS (Ultimate Authority)";
    "L2: KERNEL AUTHORITY (System Governance)";
    "L3: AGENT HIERARCHY (Planner -> Researcher -> Builder -> Tester -> Integrator)";
    "L4: SKILL EXECUTION (Sandboxed Operations)";
    "L5: EXTERNAL SYSTEMS (APIs, File System, Network)" ].

Definition PROHIBITED_self_replication : string :=
  "Self-replication without explicit authorization gate approval".
Definition PROHIBITED_modifying_kernel : string :=
  "Modifying agent's own code or the kernel".

Record t : Type := {
  version : string;
  prime_directive : string;
  authority_hierarchy : list string;
  constraints : list ConstitutionalConstraint;
  _immutable_hash : string
}.

Definition _load_default_constraints : list ConstitutionalConstraint :=
  [ {| article := "ARTICLE_I_SECTION_1"; title := "Prime Directive";
       constraint_description := PRIME_DIRECTIVE;
       authority_levels := all_levels; enforcement := "strict" |};
    {| article := "ARTICLE_II_SECTION_3"; title := "Prohibited Actions";
       constraint_description := "Agents are absolutely forbidden from prohibited operations";
       authority_levels := all_levels; enforcement := "strict" |};
    {| article := "ARTICLE_IV_SECTION_1"; title := "Triple-Lock Verification";
       constraint_description :=
         "All A4+ operations must pass Vericoding, GraphRAG, and RLM verification";
       authority_levels := [FILE_WRITE; SYSTEM_EXEC]; enforcement := "strict" |};
    {| article := "ARTICLE_V_SECTION_1"; title := "Post-Quantum Cryptography";
       constraint_description :=
         "All cryptographic operations must use NIST-approved PQC algorithms";
       authority_levels := all_levels; enforcement := "strict" |};
    {| article := "ARTICLE_VI_SECTION_1"; title := "Immutable Audit Trail";
       constraint_description :=
         "All agent actions must be logged with cryptographic signatures";
       authority_levels := all_levels; enforcement := "strict" |} ].

Definition constraint_json (c : ConstitutionalConstraint) : Json.json :=
  Json.JDict
    [ ("article", Json.JStr (article c));
      ("title", Json.JStr (title c));
      ("description", Json.JStr (constraint_description c));
      ("authority_levels", Json.JList (List.map (fun a => Json.JInt (value a)) (authority_levels c))) ].

Definition hash_of (ver pd : string) (hier : list string) (cs : list ConstitutionalConstraint)
  : string :=
  SHA256.hexdigest (Py.encode (Json.dumps true (Json.JDict
    [ ("version", Json.JStr ver);
      ("prime_directive", Json.JStr pd);
      ("authority_hierarchy", Json.JList (List.map Json.JStr hier));
      ("constraints", Json.JList (List.map constraint_json cs)) ]))).

Definition _compute_hash (self : t) : string :=
  hash_of (version self) (prime_directive self) (authority_hierarchy self) (constraints self).

(** [Constitution(constraints)]; [None] and the empty list load the
    default constraints. *)
Definition make (cs : option (list ConstitutionalConstraint)) : t :=
  let cs' := match cs with
             | Some (c :: l) => c :: l
             | _ => _load_default_constraints
             end in
  {| version := VERSION; prime_directive := PRIME_DIRECTIVE;
     authority_hierarchy := AUTHORITY_HIERARCHY; constraints := cs';
     _immutable_hash := hash_of VERSION PRIME_DIRECTIVE AUTHORITY_HIERARCHY cs' |}.

Definition verify_immutability (self : t) : bool :=
  String.eqb (_compute_hash self) (_immutable_hash self).

Definition harmful_keywords : list string :=
  [ "destruct"; "delete"; "remove"; "format"; "erase"; "wipe";
    "malware"; "virus"; "attack"; "exploit"; "bypass" ].

Definition operation_text (op : Operation) : string :=
  skill_name op +:+ " " +:+ description op +:+ " " +:+ Json.dumps false (parameters op).

Definition _violates_prime_directive (op : Operation) : bool :=
  let operation_text_lower := Py.lower (operation_text op) in
  List.existsb (fun keyword => Py.contains keyword operation_text_lower) harmful_keywords.

(** [_enforce_constraint]: [None] when it returns, the exception raised
    otherwise.  The branch for ARTICLE_IV_SECTION_1 only writes to the
    logger. *)
Definition _enforce_constraint (c : ConstitutionalConstraint) (op : Operation) : option Violation :=
  if String.eqb (enforcement c) "advisory" then None
  else if String.eqb (enforcement c) "logging" then None
  else if String.eqb (article c) "ARTICLE_I_SECTION_1" && _violates_prime_directive op
  then Some (PrimeDirectiveViolation
               ("Operation " +:+ operation_id op +:+ " violates Prime Directive: "
                +:+ constraint_description c))
  else None.

Definition _check_prohibited_operations (op : Operation) : option Violation :=
  let skill := Py.lower (skill_name op) in
  if Py.contains "self_replicate" skill
  then Some (ProhibitedOperationViolation
               ("Operation " +:+ operation_id op +:+ " is prohibited: "
                +:+ PROHIBITED_self_replication))
  else if Py.contains "kernel" skill && Py.contains "modify" skill
  then Some (ProhibitedOperationViolation
               ("Operation " +:+ operation_id op +:+ " is prohibited: "
                +:+ PROHIBITED_modifying_kernel))
  else None.

(** The loop over the constraints: the first exception raised, if any. *)
Fixpoint enforce_all (cs : list ConstitutionalConstraint) (op : Operation) : option Violation :=
  match cs with
  | [] => None
  | c :: cs' =>
      if bool_decide (authority_level op ∈ authority_levels c)
      then match _enforce_constraint c op with
           | Some v => Some v
           | None => enforce_all cs' op
           end
      else enforce_all cs' op
  end.

(** [validate_operation]: [inl true] when it returns, [inr] the exception
    raised. *)
Definition validate_operation (self : t) (op : Operation) : bool + Violation :=
  if negb (verify_immutability self)
  then inr (ConstitutionalViolation
              "Constitution integrity check failed - possible modification")
  else match enforce_all (constraints self) op with
       | Some v => inr v
       | None =>
           match _check_prohibited_operations op with
           | Some v => inr v
           | None => inl true
           end
       end.

Definition get_constraints_for_level (self : t) (l : AuthorityLevel)
  : list ConstitutionalConstraint :=
  List.filter (fun c => bool_decide (l ∈ authority_levels c)) (constraints self).

End Constitution.

(* ===================================================================== *)
(** ** [ora/core/kernel.py] *)
(* ===================================================================== *)

Module OraKernel.

Import Authority.
Import Constitution.

Record Alert : Type := {
  severity : string;
  alert_message : string;
  alert_timestamp : string;
  source : string
}.

Record KernelResult : Type := {
  status : string;
  output : string;
  result_operation_id : string;
  authority_required : AuthorityLevel;
  requires_approval : bool;
  approval_id : option string;
  error : option string
}.

(** [AgentResult] *)
Record AgentResult : Type := {
  agent_status : string;
  agent_output : string;
  agent_error : option string
}.

(** What [run_all_gates] of an object that is not the coordinator of
    [gates.py] returns: an object with the attributes read by the kernel. *)
Record GateVerdict : Type := {
  verdict_passed : bool;
  blocked_reason : string
}.

(** The argument [security_gates]: the coordinator of [gates.py], whose
    [run_all_gates] returns a dict, or another object with a method
    [run_all_gates]. *)
Inductive SecurityGates : Type :=
| Coordinator (c : Gates.SecurityGateCoordinator)
| OtherGates (run_all_gates : gmap string Json.json -> Gates.Exc GateVerdict).

(** An interface adapter: whether it has a method [notify_alert]. *)
Record Interface : Type := {
  interface_name : string;
  has_notify_alert : bool
}.

Record Metrics : Type := {
  operations_executed : nat;
  operations_failed : nat;
  operations_rejected : nat;
  operations_blocked : nat
}.

(** The attributes of the kernel that [process_command] reads or writes. *)
Record t : Type := {
  constitution : Constitution.t;
  audit_logger : option ImmutableAuditLog.t;
  security_gates : option SecurityGates;
  active_interfaces : list Interface;
  _operation_history : gmap string Operation;
  _metrics : Metrics
}.

(** The kernel with what it acts on: the audit table and the alerts
    delivered to the interfaces. *)
Record World : Type := {
  kernel : t;
  db : ImmutableAuditLog.Database;
  delivered : list (Interface * Alert)
}.

(** What one call of [process_command] reads: three uuids (hexadecimal;
    the first gives the operation id used if [parse_command] raises, which
    it does for no command), [datetime.utcnow().isoformat()], what the
    audit logger reads, and the outcome of the call to the completion
    client: the output assembled from its answer, or the exception it
    raised. *)
Record Env : Type := {
  uuid_call : string;
  uuid_parse : string;
  uuid_approval : string;
  utcnow_iso : string;
  audit_env : ImmutableAuditLog.Env;
  completion : Gates.Exc string
}.

(** [OraKernel(constitution, audit_logger, authority_kernel, security_gates)];
    [None] stands for the [ValueError] raised. *)
Definition make (c : Constitution.t) (logger : option ImmutableAuditLog.t)
    (gates : option SecurityGates) : option t :=
  if negb (verify_immutability c) then None
  else Some {| constitution := c; audit_logger := logger; security_gates := gates;
               active_interfaces := []; _operation_history := ∅;
               _metrics := {| operations_executed := 0; operations_failed := 0;
                              operations_rejected := 0; operations_blocked := 0 |} |}.

Definition has_any (words : list string) (text : string) : bool :=
  List.existsb (fun w => Py.contains w text) words.

Definition parse_command (env : Env) (command user : string) : Operation :=
  let command_lower := Py.lower command in
  let op (skill : string) (lvl : AuthorityLevel) (key value : string) :=
    {| operation_id := "op_" +:+ Py.take_string 12 (uuid_parse env);
       agent_id := user; skill_name := skill;
       parameters := Json.JDict [(key, Json.JStr value)];
       authority_level := lvl; description := command |} in
  if has_any ["search"; "web"; "find"] command_lower
  then op "web_search" INFO_RETRIEVAL "query" command
  else if has_any ["read"; "file"] command_lower
  then op "file_read" FILE_READ "path"
          (if Py.contains "file" command_lower
           then Py.strip (Py.split_last "file" command) else EmptyString)
  else if has_any ["write"; "save"; "create"] command_lower
  then op "file_write" FILE_WRITE "content" command
  else if has_any ["execute"; "run"; "shell"] command_lower
  then op "shell_exec" SYSTEM_EXEC "command" command
  else if has_any ["calculate"; "compute"; "math"] command_lower
  then op "math" SAFE_COMPUTE "expression" command
  else if has_any ["delete"; "remove"] command_lower
  then op "file_delete" FILE_WRITE "path" command
  else if has_any ["analyze"; "review"] command_lower
  then op "code_analyzer" FILE_READ "query" command
  else op "research" INFO_RETRIEVAL "query" command.

Definition with_kernel (w : World) (k : t) : World :=
  {| kernel := k; db := db w; delivered := delivered w |}.

Definition with_metrics (k : t) (m : Metrics) : t :=
  {| constitution := constitution k; audit_logger := audit_logger k;
     security_gates := security_gates k; active_interfaces := active_interfaces k;
     _operation_history := _operation_history k; _metrics := m |}.

Definition bump_executed (w : World) : World :=
  let m := _metrics (kernel w) in
  with_kernel w (with_metrics (kernel w)
    {| operations_executed := S (operations_executed m); operations_failed := operations_failed m;
       operations_rejected := operations_rejected m; operations_blocked := operations_blocked m |}).

Definition bump_failed (w : World) : World :=
  let m := _metrics (kernel w) in
  with_kernel w (with_metrics (kernel w)
    {| operations_executed := operations_executed m; operations_failed := S (operations_failed m);
       operations_rejected := operations_rejected m; operations_blocked := operations_blocked m |}).

Definition bump_rejected (w : World) : World :=
  let m := _metrics (kernel w) in
  with_kernel w (with_metrics (kernel w)
    {| operations_executed := operations_executed m; operations_failed := operations_failed m;
       operations_rejected := S (operations_rejected m); operations_blocked := operations_blocked m |}).

Definition bump_blocked (w : World) : World :=
  let m := _metrics (kernel w) in
  with_kernel w (with_metrics (kernel w)
    {| operations_executed := operations_executed m; operations_failed := operations_failed m;
       operations_rejected := operations_rejected m; operations_blocked := S (operations_blocked m) |}).

(** [self._operation_history[operation_id] = operation] *)
Definition remember (w : World) (op : Operation) : World :=
  let k := kernel w in
  with_kernel w
    {| constitution := constitution k; audit_logger := audit_logger k;
       security_gates := security_gates k; active_interfaces := active_interfaces k;
       _operation_history := <[operation_id op := op]> (_operation_history k);
       _metrics := _metrics k |}.

(** [_broadcast_alert]: the alert is handed to every interface that has
    [notify_alert]; what an interface raises is caught. *)
Definition _broadcast_alert (w : World) (a : Alert) : World :=
  {| kernel := kernel w; db := db w;
     delivered := delivered w ++
       List.map (fun i => (i, a)) (List.filter has_notify_alert (active_interfaces (kernel w))) |}.

(** [_agent_fleet_execute]: the call to the completion client, every
    exception of which is caught. *)
Definition _agent_fleet_execute (env : Env) (op : Operation) : AgentResult :=
  match completion env with
  | Gates.Ok out => {| agent_status := "success"; agent_output := out; agent_error := None |}
  | Gates.Raise _ m =>
      {| agent_status := "error"; agent_output := "Operation failed: " +:+ m;
         agent_error := Some m |}
  end.

(** The classes that [except ConstitutionalViolation] catches: the class
    and the three that [constitution.py] derives from it, by name. *)
Definition is_constitutional_violation (kind : string) : bool :=
  List.existsb (String.eqb kind)
    [ "ConstitutionalViolation"; "PrimeDirectiveViolation";
      "InsufficientAuthorityViolation"; "ProhibitedOperationViolation" ].

(** The handler [except ConstitutionalViolation as e] at the end of
    [process_command]. *)
Definition on_violation (w : World) (env : Env) (operation_id0 message : string)
  : KernelResult * World :=
  let w := bump_rejected w in
  let w := _broadcast_alert w
             {| severity := "critical";
                alert_message := "Constitutional violation: " +:+ message;
                alert_timestamp := utcnow_iso env; source := "kernel" |} in
  ({| status := "rejected"; output := "Constitutional violation: " +:+ message;
      result_operation_id := operation_id0; authority_required := READ_ONLY;
      requires_approval := false; approval_id := None; error := Some message |}, w).

(** The handler [except Exception as e] of [process_command]. *)
Definition on_exception (w : World) (env : Env) (operation_id0 message : string)
  : KernelResult * World :=
  let w := bump_failed w in
  let w := _broadcast_alert w
             {| severity := "error"; alert_message := "Operation failed: " +:+ message;
                alert_timestamp := utcnow_iso env; source := "kernel" |} in
  ({| status := "error"; output := "Error: " +:+ message;
      result_operation_id := operation_id0; authority_required := READ_ONLY;
      requires_approval := false; approval_id := None; error := Some message |}, w).

(** The request handed to the security gates. *)
Definition gate_request (command user : string) : gmap string Json.json :=
  <["type" := Json.JStr "command"]>
    (<["content" := Json.JStr command]> (<["user" := Json.JStr user]> ∅)).

(** What the block [if self.security_gates:] does: nothing ([GatesPass]),
    the return of a blocked result, or an exception, with its class and
    its text; with the kernel, whose coordinator has counted the threats. *)
Inductive GateOutcome : Type :=
| GatesPass
| GatesBlocked (reason : string)
| GatesRaise (kind message : string).

Definition with_gates (k : t) (g : option SecurityGates) : t :=
  {| constitution := constitution k; audit_logger := audit_logger k;
     security_gates := g; active_interfaces := active_interfaces k;
     _operation_history := _operation_history k; _metrics := _metrics k |}.

Definition run_gates (lib : Gates.Lib) (k : t) (command user : string) : GateOutcome * t :=
  match security_gates k with
  | None => (GatesPass, k)
  | Some (Coordinator c) =>
      match Gates.run_all_gates lib c (gate_request command user) with
      | (Gates.Ok _, c') =>
          (GatesRaise "AttributeError" "'dict' object has no attribute 'passed'",
           with_gates k (Some (Coordinator c')))
      | (Gates.Raise kind m, c') =>
          (GatesRaise kind m, with_gates k (Some (Coordinator c')))
      end
  | Some (OtherGates run) =>
      match run (gate_request command user) with
      | Gates.Ok v =>
          (if verdict_passed v then GatesPass else GatesBlocked (blocked_reason v), k)
      | Gates.Raise kind m => (GatesRaise kind m, k)
      end
  end.

(** The call [self.audit_logger.log(...)] of [process_command]. *)
Definition audit_pending (w : World) (env : Env) (op : Operation) (command user : string)
  : World :=
  match audit_logger (kernel w) with
  | None => w
  | Some logger =>
      let '(_, logger', db') :=
        ImmutableAuditLog.log logger (db w) (audit_env env)
          "OPERATION" (skill_name op) (Py.split_first "_" (skill_name op))
          (Some (Json.JDict [("command", Json.JStr command); ("user", Json.JStr user)]))
          (Authority.str (authority_level op)) "pending" (Some user) None in
      let k := kernel w in
      {| kernel := {| constitution := constitution k; audit_logger := Some logger';
                      security_gates := security_gates k;
                      active_interfaces := active_interfaces k;
                      _operation_history := _operation_history k; _metrics := _metrics k |};
         db := db'; delivered := delivered w |}
  end.

(** [process_command] from the operation parsed on: the history, the
    security gates, the Constitution, the audit entry, then the approval
    or the execution.  What the security gates raise goes to the two
    handlers at the end, by its class. *)
Definition process_operation (lib : Gates.Lib) (w : World) (env : Env)
    (operation : Operation) (command user : string) : KernelResult * World :=
  let operation_id0 := operation_id operation in
  let blocked (out : string) (err : string) :=
    {| status := "blocked"; output := out; result_operation_id := operation_id0;
       authority_required := authority_level operation;
       requires_approval := false; approval_id := None; error := Some err |} in
  let w := remember w operation in
  let gated := run_gates lib (kernel w) command user in
  let w := with_kernel w (snd gated) in
  match fst gated with
  | GatesRaise kind m =>
      if is_constitutional_violation kind then on_violation w env operation_id0 m
      else on_exception w env operation_id0 m
  | GatesBlocked reason0 =>
      (blocked ("Security gate blocked: " +:+ reason0) reason0, bump_blocked w)
  | GatesPass =>
      match validate_operation (constitution (kernel w)) operation with
      | inr (PrimeDirectiveViolation m) =>
          let w := bump_blocked w in
          let w := _broadcast_alert w
                     {| severity := "critical";
                        alert_message := "Prime Directive violation: " +:+ m;
                        alert_timestamp := utcnow_iso env; source := "kernel" |} in
          (blocked "Operation blocked: Violates Prime Directive" m, w)
      | inr (ProhibitedOperationViolation m) =>
          let w := bump_blocked w in
          let w := _broadcast_alert w
                     {| severity := "critical";
                        alert_message := "Prohibited operation: " +:+ m;
                        alert_timestamp := utcnow_iso env; source := "kernel" |} in
          (blocked "Operation blocked: Prohibited by Constitution" m, w)
      | inr v =>
          let m := message_of v in
          ({| status := "rejected"; output := "Constitutional violation: " +:+ m;
              result_operation_id := operation_id0;
              authority_required := authority_level operation;
              requires_approval := false; approval_id := None; error := Some m |},
           bump_rejected w)
      | inl _ =>
          let requirements := get_authority_requirements (authority_level operation) in
          let w := audit_pending w env operation command user in
          if approval_needed requirements then
            ({| status := "pending_approval";
                output := "Operation requires approval at "
                          +:+ name_display (authority_level operation);
                result_operation_id := operation_id0;
                authority_required := authority_level operation;
                requires_approval := true;
                approval_id := Some ("apr_" +:+ Py.take_string 12 (uuid_approval env));
                error := None |}, w)
          else
            let result := _agent_fleet_execute env operation in
            let w := if String.eqb (agent_status result) "success"
                     then bump_executed w else bump_failed w in
            ({| status := agent_status result; output := agent_output result;
                result_operation_id := operation_id0;
                authority_required := authority_level operation;
                requires_approval := false; approval_id := None;
                error := agent_error result |}, w)
      end
  end.

Definition process_command (lib : Gates.Lib) (w : World) (env : Env) (command user : string)
  : KernelResult * World :=
  process_operation lib w env (parse_command env command user) command user.

(** The default of the parameter [user]. *)
Definition default_user : string := "Randall".

(** The attributes of a [KernelResult] as Python values
    ([dataclasses.asdict]); the authority level is the enum member. *)
Inductive FieldValue : Type :=
| FStr (s : string)
| FBool (b : bool)
| FInt (z : Z)
| FNone
| FLevel (l : AuthorityLevel).

Definition opt_str (o : option string) : FieldValue :=
  match o with
  | Some s => FStr s
  | None => FNone
  end.

Definition asdict (r : KernelResult) : list (string * FieldValue) :=
  [ ("status", FStr (status r));
    ("output", FStr (output r));
    ("operation_id", FStr (result_operation_id r));
    ("authority_required", FLevel (authority_required r));
    ("requires_approval", FBool (requires_approval r));
    ("approval_id", opt_str (approval_id r));
    ("error", opt_str (error r)) ].

(** [register_interface] *)
Definition register_interface (k : t) (interface : Interface) : t :=
  {| constitution := constitution k; audit_logger := audit_logger k;
     security_gates := security_gates k;
     active_interfaces := active_interfaces k ++ [interface];
     _operation_history := _operation_history k; _metrics := _metrics k |}.

(** An entry of the list returned by [get_operation_history]. *)
Record HistoryItem : Type := {
  item_operation_id : string;
  item_skill_name : string;
  item_authority_level : string;
  item_description : string
}.

Definition history_item (op : Operation) : HistoryItem :=
  {| item_operation_id := operation_id op; item_skill_name := skill_name op;
     item_authority_level := Authority.name (authority_level op);
     item_description := description op |}.

(** [l[start:]]: a negative [start] counts from the end, and both ends are
    clipped to the list. *)
Definition slice_from {A : Type} (start : Z) (l : list A) : list A :=
  let n := Z.of_nat (List.length l) in
  let first := if (start <? 0)%Z then Z.max 0 (n + start) else Z.min n start in
  List.skipn (Z.to_nat first) l.

(** [get_operation_history], on [self._operation_history.values()]: the
    operations in the order of their first insertion. *)
Definition get_operation_history (values : list Operation) (limit : Z) : list HistoryItem :=
  slice_from (- limit)%Z (List.map history_item values).

(** The default of the parameter [limit]. *)
Definition default_history_limit : Z := 100.

End OraKernel.


(* ===================================================================== *)
(** ** [ora/security/authority_kernel.py] *)
(* ===================================================================== *)

(** A Python dict whose order is read: the items in the order of their
    first insertion. *)
Module PyDict.

Section Dict.

Context {A : Type}.

(** [d.get(k)] *)
Fixpoint getitem (k : string) (d : list (string * A)) : option A :=
  match d with
  | [] => None
  | (k', v) :: d' => if String.eqb k' k then Some v else getitem k d'
  end.

(** [d[k] = v]: the value is replaced where the key is, or the item is
    added at the end. *)
Fixpoint setitem (k : string) (v : A) (d : list (string * A)) : list (string * A) :=
  match d with
  | [] => [(k, v)]
  | (k', v') :: d' => if String.eqb k' k then (k, v) :: d' else (k', v') :: setitem k v d'
  end.

End Dict.

End PyDict.

Module AuthorityKernel.

Local Open Scope Z_scope.

(** [class AuthorityLevel(IntEnum)] of this module. *)
Inductive AuthorityLevel : Type :=
| GUEST
| USER
| DEVELOPER
| SENIOR
| ADMIN
| ROOT.

#[export] Instance AuthorityLevel_eq_dec : EqDecision AuthorityLevel.
Proof. solve_decision. Defined.

Definition value (l : AuthorityLevel) : Z :=
  match l with
  | GUEST => 0
  | USER => 1
  | DEVELOPER => 2
  | SENIOR => 3
  | ADMIN => 4
  | ROOT => 5
  end.

(** [__str__], which an f-string uses as well. *)
Definition str (l : AuthorityLevel) : string :=
  match l with
  | GUEST => "A0-Guest"
  | USER => "A1-User"
  | DEVELOPER => "A2-Developer"
  | SENIOR => "A3-Senior"
  | ADMIN => "A4-Admin"
  | ROOT => "A5-Root"
  end.

Definition can_access (self required : AuthorityLevel) : bool :=
  value required <=? value self.

Definition AUTHORITY_REQUIREMENTS : list (string * AuthorityLevel) :=
  [ ("filesystem.read", GUEST);
    ("filesystem.list", GUEST);
    ("filesystem.write", USER);
    ("filesystem.delete", USER);
    ("terminal.execute", DEVELOPER);
    ("terminal.sudo", SENIOR);
    ("terminal.rm", SENIOR);
    ("web_search.search", USER);
    ("browser.navigate", USER);
    ("browser.download", DEVELOPER);
    ("code_analyzer.analyze", GUEST);
    ("code_analyzer.modify", DEVELOPER);
    ("vault.unlock", ADMIN);
    ("vault.destroy", ROOT);
    ("authority.escalate", ADMIN) ].

(** A stored escalation request. *)
Record Escalation : Type := {
  requested_level : AuthorityLevel;
  current_level : AuthorityLevel;
  reason : string;
  timestamp : string;
  status : string;
  auth_code : option string
}.

Definition with_status (e : Escalation) (s : string) : Escalation :=
  {| requested_level := requested_level e; current_level := current_level e;
     reason := reason e; timestamp := timestamp e; status := s; auth_code := auth_code e |}.

(** The attributes of the kernel that the escalation methods read or
    write; the audit log is an instance of its own on the shared table. *)
Record t : Type := {
  current_authority : AuthorityLevel;
  audit_log : ImmutableAuditLog.t;
  _session_escalations : list (string * Escalation)
}.

(** [AuthorityKernel()] *)
Definition init (db : ImmutableAuditLog.Database) : t :=
  {| current_authority := USER; audit_log := ImmutableAuditLog.init db;
     _session_escalations := [] |}.

Definition get_current_authority (self : t) : AuthorityLevel := current_authority self.

Definition with_current (self : t) (l : AuthorityLevel) : t :=
  {| current_authority := l; audit_log := audit_log self;
     _session_escalations := _session_escalations self |}.

Definition with_audit_log (self : t) (logger : ImmutableAuditLog.t) : t :=
  {| current_authority := current_authority self; audit_log := logger;
     _session_escalations := _session_escalations self |}.

Definition with_escalations (self : t) (d : list (string * Escalation)) : t :=
  {| current_authority := current_authority self; audit_log := audit_log self;
     _session_escalations := d |}.

(** A dict returned by a method. *)
Definition Dict : Type := list (string * Json.json).

(** A call [self.audit_log.log(level="SECURITY", ..., tool="authority_kernel")]. *)
Definition security_log (self : t) (db : ImmutableAuditLog.Database)
    (env : ImmutableAuditLog.Env) (act : string) (params : Json.json) (auth res : string)
    (sid : option string) : t * ImmutableAuditLog.Database :=
  let r := ImmutableAuditLog.log (audit_log self) db env "SECURITY" act "authority_kernel"
             (Some params) auth res sid None in
  (with_audit_log self (snd (fst r)), snd r).

(** What [escalate] reads: what its two calls of the audit log read, the
    text an f-string shows for [time.time()], and
    [datetime.now().isoformat()]. *)
Record EscalateEnv : Type := {
  attempt_env : ImmutableAuditLog.Env;
  granted_env : ImmutableAuditLog.Env;
  time_text : string;
  escalation_now : string
}.

(** The text an f-string shows for an optional string. *)
Definition none_text (o : option string) : string :=
  match o with
  | Some s => s
  | None => "None"
  end.

Definition opt_json (o : option string) : Json.json :=
  match o with
  | Some s => Json.JStr s
  | None => Json.JNull
  end.

Definition escalate (self : t) (db : ImmutableAuditLog.Database) (env : EscalateEnv)
    (new_level : AuthorityLevel) (reason0 : string) (auth_code0 session_id : option string)
  : Dict * t * ImmutableAuditLog.Database :=
  let current := current_authority self in
  if value new_level <=? value current then
    ([ ("success", Json.JBool true);
       ("message", Json.JStr ("Already at " +:+ str new_level +:+ " or higher")) ],
     self, db)
  else
    let logged :=
      security_log self db (attempt_env env) "escalation_attempt"
        (Json.JDict [ ("from_level", Json.JStr (str current));
                      ("to_level", Json.JStr (str new_level));
                      ("reason", Json.JStr reason0) ])
        (str current) "pending" session_id in
    if value SENIOR <=? value new_level then
      let escalation_id :=
        Py.take_string 16
          (SHA256.hexdigest (Py.encode (none_text session_id +:+ ":" +:+ time_text env))) in
      let request :=
        {| requested_level := new_level; current_level := current; reason := reason0;
           timestamp := escalation_now env; status := "pending"; auth_code := auth_code0 |} in
      ([ ("success", Json.JBool false);
         ("requires_approval", Json.JBool true);
         ("escalation_id", Json.JStr escalation_id);
         ("message", Json.JStr ("Escalation to " +:+ str new_level +:+ " requires approval")) ],
       with_escalations (fst logged)
         (PyDict.setitem escalation_id request (_session_escalations (fst logged))),
       snd logged)
    else
      let raised := with_current (fst logged) new_level in
      let logged2 :=
        security_log raised (snd logged) (granted_env env) "escalation_granted"
          (Json.JDict [ ("from_level", Json.JStr (str current));
                        ("to_level", Json.JStr (str new_level));
                        ("reason", Json.JStr reason0) ])
          (str new_level) "success" session_id in
      ([ ("success", Json.JBool true);
         ("new_level", Json.JStr (str new_level));
         ("message", Json.JStr ("Escalated to " +:+ str new_level)) ],
       fst logged2, snd logged2).

Definition approve_escalation (self : t) (db : ImmutableAuditLog.Database)
    (env : ImmutableAuditLog.Env) (escalation_id : string) (approved : bool)
    (approver_id : option string) : Dict * t * ImmutableAuditLog.Database :=
  match PyDict.getitem escalation_id (_session_escalations self) with
  | None =>
      ([ ("success", Json.JBool false); ("error", Json.JStr "Escalation not found") ], self, db)
  | Some escalation =>
      if approved then
        let raised := with_current self (requested_level escalation) in
        let marked :=
          with_escalations raised
            (PyDict.setitem escalation_id (with_status escalation "approved")
               (_session_escalations raised)) in
        let logged :=
          security_log marked db env "escalation_approved"
            (Json.JDict [ ("escalation_id", Json.JStr escalation_id);
                          ("to_level", Json.JStr (str (requested_level escalation)));
                          ("approver", opt_json approver_id) ])
            (str (current_authority marked)) "approved" None in
        ([ ("success", Json.JBool true);
           ("new_level", Json.JStr (str (requested_level escalation))) ],
         fst logged, snd logged)
      else
        let marked :=
          with_escalations self
            (PyDict.setitem escalation_id (with_status escalation "denied")
               (_session_escalations self)) in
        let logged :=
          security_log marked db env "escalation_denied"
            (Json.JDict [ ("escalation_id", Json.JStr escalation_id);
                          ("requested_level", Json.JStr (str (requested_level escalation)));
                          ("denied_by", opt_json approver_id) ])
            (str (current_authority marked)) "denied" None in
        ([ ("success", Json.JBool false); ("error", Json.JStr "Escalation denied") ],
         fst logged, snd logged)
  end.

(** [AUTHORITY_REQUIREMENTS.get(operation, AuthorityLevel.USER)] *)
Definition required_level (operation : string) : AuthorityLevel :=
  default USER (PyDict.getitem operation AUTHORITY_REQUIREMENTS).

Definition check_authority (self : t) (operation : string) : Dict :=
  let required := required_level operation in
  let current := current_authority self in
  if can_access current required then
    [ ("allowed", Json.JBool true);
      ("required", Json.JStr (str required));
      ("current", Json.JStr (str current)) ]
  else
    [ ("allowed", Json.JBool false);
      ("required", Json.JStr (str required));
      ("current", Json.JStr (str current));
      ("message", Json.JStr ("Operation '" +:+ operation +:+ "' requires " +:+ str required
                             +:+ ", current is " +:+ str current)) ].

(** [get_escalation_requests]: the requests with that status, each with
    its id, in the order of the dict. *)
Definition get_escalation_requests (self : t) (status0 : string) : list (string * Escalation) :=
  List.filter (fun kv => String.eqb (status (snd kv)) status0) (_session_escalations self).

(** The default of the parameter [status]. *)
Definition default_status : string := "pending".

(** One call of [escalate] with its arguments and what it reads. *)
Record EscalateCall : Type := {
  call_env : EscalateEnv;
  call_new_level : AuthorityLevel;
  call_reason : string;
  call_auth_code : option string;
  call_session_id : option string
}.

Definition escalate_call (st : t * ImmutableAuditLog.Database) (c : EscalateCall)
  : t * ImmutableAuditLog.Database :=
  let r := escalate (fst st) (snd st) (call_env c) (call_new_level c) (call_reason c)
             (call_auth_code c) (call_session_id c) in
  (snd (fst r), snd r).

(** A sequence of calls of [escalate], one after the other. *)
Definition escalate_each (st : t * ImmutableAuditLog.Database) (calls : list EscalateCall)
  : t * ImmutableAuditLog.Database :=
  List.fold_left escalate_call calls st.

End AuthorityKernel.
(* ===================================================================== *)
(** * Properties *)
(* ===================================================================== *)

(** ** The library models on known values *)

(** SHA-256 of "abc" and of the empty message (FIPS 180-4 examples). *)
Example sha256_abc :
  SHA256.hexdigest (Py.encode "abc")
  = "ba7816bf8f01cfea414140de5dae2223b00361a396177a9cb410ff61f20015ad".
Proof. vm_compute. reflexivity. Qed.

Example sha256_empty :
  SHA256.hexdigest []
  = "e3b0c44298fc1c149afbf4c8996fb92427ae41e4649b934ca495991b7852b855".
Proof. vm_compute. reflexivity. Qed.

(** The first and the last round constant and the first word of the
    initial state. *)
Example sha256_constants :
  List.nth 0 SHA256.K 0%Z = 0x428a2f98%Z /\
  List.nth 63 SHA256.K 0%Z = 0xc67178f2%Z /\
  List.length SHA256.K = 64 /\
  List.nth 0 SHA256.H0 0%Z = 0x6a09e667%Z.
Proof. vm_compute. repeat split. Qed.

(** HMAC-SHA256 with a short key, and with a key longer than a block. *)
Example hmac_sha256_short_key :
  HMAC.hexdigest (Py.encode "key") (Py.encode "The quick brown fox jumps over the lazy dog")
  = "f7bc83f430538424b13298e6aa6fb143ef4d59a14946175997479dbc2d1a3cd8".
Proof. vm_compute. reflexivity. Qed.

Example hmac_sha256_long_key :
  HMAC.hexdigest (List.repeat "k"%byte 100) (Py.encode "msg")
  = "bd56a1782c2830e8abc6ed866a57a1230661e650b84c62f7ee3accc5fa5af491".
Proof. vm_compute. reflexivity. Qed.

(** [json.dumps] with sorted keys: nesting, integers, and the escapes of a
    quote, a backslash, a line feed, DEL and U+00E9. *)
Example json_dumps_sorted :
  Json.dumps true
    (Json.JDict
       [ ("b", Json.JStr (String "x" (String Py.dquote
                  ("y\z" +:+ String (Py.chr 10) (String (Py.chr 127)
                                       (String (Py.chr 233) EmptyString))))));
         ("a", Json.JList [Json.JInt 1; Json.JInt (-2); Json.JBool true; Json.JNull;
                           Json.JDict [("k", Json.JStr "v")]]) ])
  = "{" +:+ Json.quote "a" +:+ ": [1, -2, true, null, {" +:+ Json.quote "k" +:+ ": "
        +:+ Json.quote "v" +:+ "}], " +:+ Json.quote "b" +:+ ": "
        +:+ String Py.dquote ("x\" +:+ String Py.dquote ("y\\z\n\u007f\u00e9"
        +:+ String Py.dquote "}")).
Proof. vm_compute. reflexivity. Qed.

(** [str.split(sep)[-1]], [str.strip()] and [str.lower()]. *)
Example py_strings :
  Py.split_last "file" "read file a file b" = " b" /\
  Py.split_last "file" "no separator" = "no separator" /\
  Py.strip "  /tmp/x  " = "/tmp/x" /\
  Py.lower "Format DISK" = "format disk" /\
  Py.contains "format" "please format disk" = true /\
  Py.contains "delete" "please format disk" = false.
Proof. vm_compute. repeat split. Qed.

(** ** Authority model *)

Section AuthorityFacts.

Import Authority.

Local Open Scope Z_scope.

Lemma value_range (l : AuthorityLevel) : 0 <= value l <= 5.
Proof. destruct l; simpl; lia. Qed.

Lemma value_inj (a b : AuthorityLevel) : value a = value b -> a = b.
Proof. destruct a, b; simpl; intros H; first [reflexivity | lia]. Qed.

(** C9.  [is_operation_authorized operation_level agent_level] is true
    exactly when the agent's level is at or above the operation's level in
    the order of the six levels given by their values 0..5, and false
    exactly when the operation's level is above the agent's; the order is
    total and antisymmetric. *)
Theorem C9_authorized_iff_level_order :
  forall operation_level agent_level : AuthorityLevel,
    (is_operation_authorized operation_level agent_level = true
       <-> value agent_level >= value operation_level) /\
    (is_operation_authorized operation_level agent_level = false
       <-> value operation_level > value agent_level) /\
    (is_operation_authorized operation_level agent_level = true
       \/ is_operation_authorized agent_level operation_level = true) /\
    (is_operation_authorized operation_level agent_level = true
       /\ is_operation_authorized agent_level operation_level = true
       <-> operation_level = agent_level).
Proof.
  intros o a. unfold is_operation_authorized.
  repeat split.
  - intros H. apply Z.leb_le in H. lia.
  - intros H. apply Z.leb_le. lia.
  - intros H. apply Z.leb_gt in H. lia.
  - intros H. apply Z.leb_gt. lia.
  - destruct (Z.leb_spec (value o) (value a)) as [H | H].
    + now left.
    + right. apply Z.leb_le. lia.
  - intros [H1 H2]. apply Z.leb_le in H1, H2. apply value_inj. lia.
  - subst. apply Z.leb_le. lia.
  - subst. apply Z.leb_le. lia.
Qed.

(** The property asked of a quorum size that depends on the level alone:
    0 below FILE_WRITE, 4 at FILE_WRITE, 7 at SYSTEM_EXEC. *)
Definition quorum_0_4_7 (quorum : AuthorityLevel -> Z) : Prop :=
  (forall l, value l < value FILE_WRITE -> quorum l = 0) /\
  quorum FILE_WRITE = 4 /\
  quorum SYSTEM_EXEC = 7.

(** C4, as stated, fails for [get_byzantine_quorum_size]: called at
    SYSTEM_EXEC with the default fault tolerance it returns 4, and with
    whatever fault tolerance it returns the same size at FILE_WRITE and at
    SYSTEM_EXEC. *)
Lemma C4_quorum_size_system_exec_default :
  get_byzantine_quorum_size SYSTEM_EXEC default_fault_tolerance = 4 /\
  ~ quorum_0_4_7 (fun l => get_byzantine_quorum_size l default_fault_tolerance) /\
  ~ (exists f, quorum_0_4_7 (fun l => get_byzantine_quorum_size l f)).
Proof.
  split; [reflexivity |]. split.
  - intros (_ & _ & H). vm_compute in H. discriminate H.
  - intros (f & _ & H4 & H7). unfold get_byzantine_quorum_size in H4, H7.
    simpl in H4, H7. lia.
Qed.

(** C4, amended.  The quorum size recorded in the requirements of a level
    ([consensus_required]) is 0 below FILE_WRITE, 4 at FILE_WRITE and 7 at
    SYSTEM_EXEC.  [get_byzantine_quorum_size] is 0 below FILE_WRITE and
    [3 * fault_tolerance + 1] at FILE_WRITE and at SYSTEM_EXEC alike: 4 at
    both for the default fault tolerance 1, and 7 at both for 2. *)
Theorem C4_quorum_sizes :
  quorum_0_4_7 (fun l => consensus_required (get_authority_requirements l)) /\
  (forall l f, value l < value FILE_WRITE -> get_byzantine_quorum_size l f = 0) /\
  (forall l f, value FILE_WRITE <= value l -> get_byzantine_quorum_size l f = 3 * f + 1) /\
  get_byzantine_quorum_size FILE_WRITE default_fault_tolerance = 4 /\
  get_byzantine_quorum_size SYSTEM_EXEC default_fault_tolerance = 4 /\
  get_byzantine_quorum_size FILE_WRITE 2 = 7 /\
  get_byzantine_quorum_size SYSTEM_EXEC 2 = 7.
Proof.
  split; [| split; [| split]].
  - split; [| split]; [| reflexivity | reflexivity].
    intros l H. destruct l; simpl in *; first [reflexivity | lia].
  - intros l f H. unfold get_byzantine_quorum_size.
    destruct (Z.ltb_spec (value l) (value FILE_WRITE)); [reflexivity | lia].
  - intros l f H. unfold get_byzantine_quorum_size.
    destruct (Z.ltb_spec (value l) (value FILE_WRITE)); [lia | reflexivity].
  - repeat split.
Qed.

End AuthorityFacts.

(** ** Audit chain *)

Section AuditFacts.

Import ImmutableAuditLog.

#[local] Arguments _sign_entry : simpl never.
#[local] Arguments String.eqb : simpl never.

(** The data signed for a stored row. *)
Definition row_data (row : AuditEntry) : list (string * Json.json) :=
  entry_data (timestamp row) (level row) (action row) (tool row) (parameters row)
             (authority row) (result row) (session_id row) (user_id row).

(** The verdict of [verify_chain] on a row: the signature recomputed under
    the key derived from the chain head of the instance equals the stored
    one. *)
Definition row_accepted (self : t) (env : Env) (row : AuditEntry) : bool :=
  String.eqb (_sign_entry self env (row_data row)) (signature row).

Lemma verify_row_counts (self : t) (env : Env) (rows : list AuditEntry)
    (acc : VerifyResult * option string) :
  let r := fst (List.fold_left (verify_row self env) rows acc) in
  total_checked r = total_checked (fst acc) /\
  valid r = valid (fst acc) + List.length (List.filter (row_accepted self env) rows) /\
  invalid r = invalid (fst acc)
              + List.length (List.filter (fun row => negb (row_accepted self env row)) rows).
Proof.
  revert acc. induction rows as [| row rows IH]; intros acc.
  - cbn [List.fold_left List.filter List.length]. repeat split; lia.
  - cbn [List.fold_left List.filter].
    specialize (IH (verify_row self env acc row)). cbv zeta in IH.
    destruct IH as (Ht & Hv & Hi). cbv zeta. rewrite Ht, Hv, Hi. clear Ht Hv Hi.
    unfold verify_row, row_accepted, row_data.
    destruct (String.eqb _ (signature row));
      cbn [fst snd total_checked valid invalid negb List.length]; repeat split; lia.
Qed.

(** What [verify_chain] counts: a row is valid when its signature is the
    one computed under the present chain head, whatever row precedes it. *)
Lemma verify_chain_counts (self : t) (db : Database) (env : Env) (limit : Z) :
  let rows := List.rev (select_desc db limit) in
  let r := verify_chain self db env limit in
  total_checked r = List.length rows /\
  valid r = List.length (List.filter (row_accepted self env) rows) /\
  invalid r = List.length (List.filter (fun row => negb (row_accepted self env row)) rows).
Proof.
  unfold verify_chain.
  pose proof (verify_row_counts self env (List.rev (select_desc db limit))
                ({| total_checked := List.length (select_desc db limit);
                    valid := 0; invalid := 0; errors := [] |}, None)) as H.
  cbv zeta in H. cbn [fst total_checked valid invalid] in H.
  destruct H as (Ht & Hv & Hi). cbv zeta.
  rewrite Ht, Hv, Hi. rewrite List.length_rev. repeat split.
Qed.

(** C10.  When the insert fails, [log] returns [None], the chain head and
    the table are as before the call, and every later call of [log] returns
    what it would have returned had the failed call not been made: the
    failed entry contributes to no later signature. *)
Theorem C10_failed_insert_keeps_chain_head :
  forall (self : t) (db : Database) (env : Env) (lvl act tl : string)
         (params : option Json.json) (auth res : string) (sid uid : option string),
    insert_ok env = false ->
    let after := log self db env lvl act tl params auth res sid uid in
    fst (fst after) = None /\
    _last_signature (snd (fst after)) = _last_signature self /\
    snd after = db /\
    forall (env' : Env) (lvl' act' tl' : string) (params' : option Json.json)
           (auth' res' : string) (sid' uid' : option string),
      log (snd (fst after)) (snd after) env' lvl' act' tl' params' auth' res' sid' uid'
      = log self db env' lvl' act' tl' params' auth' res' sid' uid'.
Proof.
  intros self db env lvl act tl params auth res sid uid Hfail.
  unfold log. rewrite Hfail. cbn [fst snd]. repeat split.
Qed.

(** A reading of the surroundings used in the examples: the machine id,
    the hour since the epoch, the time of the call, the insert succeeding
    or not. *)
Definition sample_env (ts : string) (ok : bool) : Env :=
  {| now_iso := ts; machine_id := "0123456789abcdef0123456789abcdef";
     epoch_hour := 490930; insert_ok := ok |}.

Definition sample_params (command : string) : option Json.json :=
  Some (Json.JDict [("command", Json.JStr command); ("user", Json.JStr "Randall")]).

(** One call of [log] on an instance and a table. *)
Definition sample_log (st : t * Database) (ts act command : string) : t * Database :=
  let r := log (fst st) (snd st) (sample_env ts true) "OPERATION" act "web"
               (sample_params command) "AuthorityLevel.INFO_RETRIEVAL" default_result
               (Some "Randall") None in
  (snd (fst r), snd r).

Definition one_entry : t * Database :=
  sample_log (init [], []) "2026-01-05T10:00:00.000001" "web_search" "search x".

Definition two_entries : t * Database :=
  sample_log one_entry "2026-01-05T10:00:01.000002" "web_search" "search y".

Definition three_entries : t * Database :=
  sample_log two_entries "2026-01-05T10:00:02.000003" "research" "look up z".

(** The signature of the first entry, and the key it was signed with:
    SHA-256 of the machine id, the genesis hash and the hour. *)
Example first_entry_signature :
  _last_signature (fst one_entry)
  = "2d03b8f25f54502c9b0f9c406a48eae465a27a19ccf9118cf7b008df3467fb03" /\
  List.map signature (snd one_entry)
  = ["2d03b8f25f54502c9b0f9c406a48eae465a27a19ccf9118cf7b008df3467fb03"] /\
  List.map parameters (snd one_entry)
  = ["{" +:+ Json.quote "command" +:+ ": " +:+ Json.quote "search x" +:+ ", "
         +:+ Json.quote "user" +:+ ": " +:+ Json.quote "Randall" +:+ "}"].
Proof. vm_compute. repeat split. Qed.

(** C10 on an input: a second call of [log] whose insert fails, after one
    entry has been appended. *)
Lemma C10_failed_insert_witness :
  let env := sample_env "2026-01-05T10:00:01.000002" false in
  let after := log (fst one_entry) (snd one_entry) env
                   "OPERATION" "web_search" "web" (sample_params "search y")
                   "AuthorityLevel.INFO_RETRIEVAL" default_result (Some "Randall") None in
  insert_ok env = false /\
  fst (fst after) = None /\
  _last_signature (snd (fst after)) = _last_signature (fst one_entry) /\
  snd after = snd one_entry.
Proof.
  cbv zeta. split; [reflexivity |].
  pose proof (C10_failed_insert_keeps_chain_head (fst one_entry) (snd one_entry)
                (sample_env "2026-01-05T10:00:01.000002" false)
                "OPERATION" "web_search" "web" (sample_params "search y")
                "AuthorityLevel.INFO_RETRIEVAL" default_result (Some "Randall") None
                eq_refl) as (H1 & H2 & H3 & _).
  exact (conj H1 (conj H2 H3)).
Defined.

(** C1 on the code: after one, two or three entries appended by [log] to an
    empty table, in the same hour and with no other write, [verify_chain]
    with the default limit reports every entry invalid and none valid. *)
Theorem C1_verify_chain_after_appends :
  verify_chain (fst one_entry) (snd one_entry)
               (sample_env "2026-01-05T10:05:00.000000" true) default_limit
  = {| total_checked := 1; valid := 0; invalid := 1;
       errors := ["Entry at 2026-01-05T10:00:00.000001 has invalid signature"] |}
  /\
  verify_chain (fst two_entries) (snd two_entries)
               (sample_env "2026-01-05T10:05:00.000000" true) default_limit
  = {| total_checked := 2; valid := 0; invalid := 2;
       errors := ["Entry at 2026-01-05T10:00:00.000001 has invalid signature";
                  "Entry at 2026-01-05T10:00:01.000002 has invalid signature"] |}
  /\
  verify_chain (fst three_entries) (snd three_entries)
               (sample_env "2026-01-05T10:05:00.000000" true) default_limit
  = {| total_checked := 3; valid := 0; invalid := 3;
       errors := ["Entry at 2026-01-05T10:00:00.000001 has invalid signature";
                  "Entry at 2026-01-05T10:00:01.000002 has invalid signature";
                  "Entry at 2026-01-05T10:00:02.000003 has invalid signature"] |}.
Proof. vm_compute. repeat split. Qed.

(** The row with its field [result] replaced. *)
Definition set_result (row : AuditEntry) (res : string) : AuditEntry :=
  {| timestamp := timestamp row; level := level row; action := action row;
     tool := tool row; parameters := parameters row; authority := authority row;
     result := res; signature := signature row; session_id := session_id row;
     user_id := user_id row |}.

(** The row with its field [signature] replaced. *)
Definition set_signature (row : AuditEntry) (sig : string) : AuditEntry :=
  {| timestamp := timestamp row; level := level row; action := action row;
     tool := tool row; parameters := parameters row; authority := authority row;
     result := result row; signature := sig; session_id := session_id row;
     user_id := user_id row |}.

(** The table after the row of index [i] (from 0, oldest first) has been
    rewritten in the database file. *)
Definition mutate (db : list AuditEntry) (i : nat) (f : AuditEntry -> AuditEntry)
  : list AuditEntry :=
  alter f i db.

(** The verdict on a row depends on that row and on the instance alone:
    rewriting a row leaves every other row, and so its verdict, as it was. *)
Lemma verdict_elsewhere_unchanged (self : t) (env : Env) (db : list AuditEntry) (i j : nat)
    (f : AuditEntry -> AuditEntry) :
  i <> j ->
  row_accepted self env <$> (mutate db i f !! j) = row_accepted self env <$> (db !! j).
Proof.
  intros Hne. unfold mutate. rewrite list_lookup_alter_ne by exact Hne. reflexivity.
Qed.

(** C2 on the code: of three appended entries, the field [result] of the
    second is rewritten; [verify_chain] reports the first, earlier entry
    invalid as well (and reported it invalid before the rewrite).  And a
    rewrite of the field [signature] of the second entry to the value
    computed under the present chain head makes [verify_chain] report that
    entry valid. *)
Theorem C2_verify_chain_after_mutation :
  let env := sample_env "2026-01-05T10:05:00.000000" true in
  verify_chain (fst three_entries)
               (mutate (snd three_entries) 1 (fun row => set_result row "success"))
               env default_limit
  = {| total_checked := 3; valid := 0; invalid := 3;
       errors := ["Entry at 2026-01-05T10:00:00.000001 has invalid signature";
                  "Entry at 2026-01-05T10:00:01.000002 has invalid signature";
                  "Entry at 2026-01-05T10:00:02.000003 has invalid signature"] |}
  /\
  verify_chain (fst three_entries)
               (mutate (snd three_entries) 1
                  (fun row => set_signature row (_sign_entry (fst three_entries) env (row_data row))))
               env default_limit
  = {| total_checked := 3; valid := 1; invalid := 2;
       errors := ["Entry at 2026-01-05T10:00:00.000001 has invalid signature";
                  "Entry at 2026-01-05T10:00:02.000003 has invalid signature"] |}.
Proof. vm_compute. repeat split. Qed.

End AuditFacts.

(** ** Incident tracker *)

Section IncidentFacts.

Import IncidentTracker.

Context {Callback : Type}.

Abbreviation tracker := (IncidentTracker.t Callback).

#[local] Arguments String.eqb : simpl never.

(** The ids of the incidents of the log, in order. *)
Definition ids (self : tracker) : list string :=
  List.map (fun e => id (incident e)) (_log self).

Lemma still_triggered_spec (counts : gmap string nat) :
  still_triggered counts = true <-> exists ty n, counts !! ty = Some n /\ 2 <= n.
Proof.
  unfold still_triggered. rewrite List.existsb_exists. split.
  - intros ([ty n] & Hin & Hle). exists ty, n. split.
    + apply elem_of_map_to_list. apply list_elem_of_In. exact Hin.
    + apply Nat.leb_le in Hle. exact Hle.
  - intros (ty & n & Hlook & Hle). exists (ty, n). split.
    + apply list_elem_of_In. apply elem_of_map_to_list. exact Hlook.
    + apply Nat.leb_le. exact Hle.
Qed.








(** The session counts and the flag after a call of [record]. *)
Lemma record_counts (self : tracker) (env : RecordEnv) (ty d : string)
    (a o : option string) (x : option Json.json) :
  _session_counts (snd (record self env ty d a o x))
  = <[ty := default 0 (_session_counts self !! ty) + 1]> (_session_counts self).
Proof.
  unfold record.
  destruct ((2 <=? default 0 (_session_counts self !! ty) + 1) && negb (two_strike_triggered self));
    reflexivity.
Qed.

Lemma record_flag (self : tracker) (env : RecordEnv) (ty d : string)
    (a o : option string) (x : option Json.json) :
  two_strike_triggered (snd (record self env ty d a o x))
  = two_strike_triggered self || (2 <=? default 0 (_session_counts self !! ty) + 1).
Proof.
  unfold record.
  destruct (2 <=? default 0 (_session_counts self !! ty) + 1);
    destruct (two_strike_triggered self) eqn:Hflag; cbn [andb negb orb snd two_strike_triggered];
    try reflexivity; exact Hflag.
Qed.



End IncidentFacts.

(** A reading of the file on which no line can be parsed. *)
Definition no_entry (line : string) : option IncidentTracker.IncidentEntry := None.

(** The tracker constructed when there is no file. *)
Definition new_tracker : IncidentTracker.t unit := IncidentTracker.init no_entry EmptyString.

(** A run of the protocol: two deployment failures and one agent error are
    recorded in an empty tracker, then both deployment failures are
    resolved. *)
Definition sample_record_env (uuid : string) : IncidentTracker.RecordEnv :=
  {| IncidentTracker.today := "20260105"; IncidentTracker.uuid_hex := uuid;
     IncidentTracker.utcnow := "2026-01-05T10:00:00.000000+00:00";
     IncidentTracker.append_ends := IncidentTracker.Completed |}.








(** ** Security gate pipeline *)

Section GateFacts.

Import Gates.

Context (lib : Lib).

#[local] Arguments String.eqb : simpl never.

(** Every result built by a gate flags a threat exactly when it fails. *)
Definition flag_is_failure (r : SecurityCheckResult) : Prop :=
  threat_detected r = negb (passed r).

Lemma check_prompt_flag (self self' : SecurityGateCoordinator) (text : Json.json)
    (r : SecurityCheckResult) :
  check_prompt lib self text = (Ok r, self') -> flag_is_failure r.
Proof.
  unfold check_prompt, flag_is_failure.
  destruct (PromptInjectionScanner.scan lib (prompt_scanner self) text)
    as [[[is_safe patterns] | k m] g]; intros H; [| discriminate H].
  injection H as <- _. reflexivity.
Qed.

Lemma check_shell_command_flag (self self' : SecurityGateCoordinator) (command : Json.json)
    (r : SecurityCheckResult) :
  check_shell_command lib self command = (Ok r, self') -> flag_is_failure r.
Proof.
  unfold check_shell_command, flag_is_failure.
  destruct (ShellCommandSanitizer.validate lib (shell_sanitizer self) command)
    as [[[is_safe reason0] | k m] g]; intros H; [| discriminate H].
  injection H as <- _. reflexivity.
Qed.

Lemma check_sandbox_requirement_flag (self : SecurityGateCoordinator)
    (operation tool : Json.json) :
  flag_is_failure (check_sandbox_requirement self operation tool).
Proof.
  unfold check_sandbox_requirement, flag_is_failure.
  destruct (SandboxEnforcer.requires_sandbox (sandbox_enforcer self) operation tool)
    as [requires reason0].
  cbn [threat_detected passed]. symmetry. apply Bool.negb_involutive.
Qed.

Lemma check_credential_exposure_flag (self : SecurityGateCoordinator) (text : string) :
  flag_is_failure (fst (check_credential_exposure lib self text)).
Proof.
  unfold check_credential_exposure, flag_is_failure.
  destruct (CredentialGuard.scan lib (credential_guard self) text) as [[is_safe reason0] g].
  reflexivity.
Qed.

Lemma check_network_access_flag (self : SecurityGateCoordinator) (url : Json.json) :
  flag_is_failure (fst (check_network_access lib self url)).
Proof.
  unfold check_network_access, flag_is_failure.
  destruct (NetworkAllowlist.is_allowed lib (network_allowlist self) url)
    as [[allowed reason0] g].
  reflexivity.
Qed.

Lemma check_workspace_boundary_flag (self : SecurityGateCoordinator) (file_path : Json.json) :
  flag_is_failure (fst (check_workspace_boundary lib self file_path)).
Proof.
  unfold check_workspace_boundary, flag_is_failure.
  destruct (WorkspaceBoundaryEnforcer.is_within_workspace lib (workspace_boundary self) file_path)
    as [[is_safe reason0] g].
  reflexivity.
Qed.

Abbreviation flagged_results :=
  (map_Forall (fun (_ : string) (r : SecurityCheckResult) => flag_is_failure r)).

Lemma credential_step_flag (acc : gmap string SecurityCheckResult * SecurityGateCoordinator)
    (kv : string * Json.json) :
  flagged_results (fst acc) -> flagged_results (fst (credential_step lib acc kv)).
Proof.
  intros Hall. unfold credential_step. destruct (snd kv) as [| | | value | |]; try exact Hall.
  pose proof (check_credential_exposure_flag (snd acc) value) as Hflag.
  destruct (passed (fst (check_credential_exposure lib (snd acc) value))); cbn [fst];
    [exact Hall |].
  apply map_Forall_insert_2; [exact Hflag | exact Hall].
Qed.

Lemma credential_loop_flag (items : list (string * Json.json))
    (acc : gmap string SecurityCheckResult * SecurityGateCoordinator) :
  flagged_results (fst acc) ->
  flagged_results (fst (List.fold_left (credential_step lib) items acc)).
Proof.
  revert acc. induction items as [| kv items IH]; intros acc Hall.
  - exact Hall.
  - cbn [List.fold_left]. apply IH. apply credential_step_flag. exact Hall.
Qed.

Lemma prompt_step_flag (self self' : SecurityGateCoordinator) (request : gmap string Json.json)
    (results results' : gmap string SecurityCheckResult) :
  flagged_results results ->
  prompt_step lib self request results = (Ok results', self') ->
  flagged_results results'.
Proof.
  intros Hall. unfold prompt_step. destruct (request !! "prompt") as [v |].
  - destruct (check_prompt lib self v) as [[r | k m] self0] eqn:Hr; intros H; [| discriminate H].
    injection H as <- _. apply map_Forall_insert_2; [| exact Hall].
    apply (check_prompt_flag self self0 v r Hr).
  - intros H. injection H as <- _. exact Hall.
Qed.

Lemma shell_step_flag (self self' : SecurityGateCoordinator) (request : gmap string Json.json)
    (results results' : gmap string SecurityCheckResult) :
  flagged_results results ->
  shell_step lib self request results = (Ok results', self') ->
  flagged_results results'.
Proof.
  intros Hall. unfold shell_step. destruct (request !! "shell_command") as [v |].
  - destruct (check_shell_command lib self v) as [[r | k m] self0] eqn:Hr; intros H;
      [| discriminate H].
    injection H as <- _. apply map_Forall_insert_2; [| exact Hall].
    apply (check_shell_command_flag self self0 v r Hr).
  - intros H. injection H as <- _. exact Hall.
Qed.

Lemma sandbox_step_flag (self : SecurityGateCoordinator) (request : gmap string Json.json)
    (results : gmap string SecurityCheckResult) :
  flagged_results results -> flagged_results (sandbox_step self request results).
Proof.
  intros Hall. unfold sandbox_step. destruct (request !! "operation"); [| exact Hall].
  apply map_Forall_insert_2; [apply check_sandbox_requirement_flag | exact Hall].
Qed.

Lemma network_step_flag (request : gmap string Json.json)
    (acc : gmap string SecurityCheckResult * SecurityGateCoordinator) :
  flagged_results (fst acc) -> flagged_results (fst (network_step lib request acc)).
Proof.
  intros Hall. unfold network_step. destruct (request !! "url"); [| exact Hall].
  cbn [fst]. apply map_Forall_insert_2; [apply check_network_access_flag | exact Hall].
Qed.

Lemma workspace_step_flag (request : gmap string Json.json)
    (acc : gmap string SecurityCheckResult * SecurityGateCoordinator) :
  flagged_results (fst acc) -> flagged_results (fst (workspace_step lib request acc)).
Proof.
  intros Hall. unfold workspace_step. destruct (request !! "file_path"); [| exact Hall].
  cbn [fst]. apply map_Forall_insert_2; [apply check_workspace_boundary_flag | exact Hall].
Qed.

Lemma collect_results_flag (self : SecurityGateCoordinator) (request : gmap string Json.json)
    (results : gmap string SecurityCheckResult) :
  fst (collect_results lib self request) = Ok results -> flagged_results results.
Proof.
  unfold collect_results.
  destruct (prompt_step lib self request ∅) as [[results1 | k m] self1] eqn:H1;
    [| discriminate].
  apply prompt_step_flag in H1; [| apply map_Forall_empty].
  destruct (shell_step lib self1 request results1) as [[results2 | k m] self2] eqn:H2;
    [| discriminate].
  apply shell_step_flag in H2; [| exact H1].
  cbn [fst]. intros H. injection H as <-.
  apply workspace_step_flag, network_step_flag, credential_loop_flag.
  cbn [fst]. apply sandbox_step_flag. exact H2.
Qed.

Lemma flags_of_list (l : list SecurityCheckResult) :
  List.Forall flag_is_failure l ->
  List.existsb threat_detected l = negb (List.forallb passed l).
Proof.
  induction 1 as [| r l Hr _ IH]; [reflexivity |].
  cbn [List.existsb List.forallb]. rewrite IH, Hr. rewrite Bool.negb_andb. reflexivity.
Qed.

Lemma forallb_Permutation {A : Type} (f : A -> bool) (l l' : list A) :
  l ≡ₚ l' -> List.forallb f l = List.forallb f l'.
Proof.
  induction 1 as [| x l l' _ IH | x y l | l l' l'' _ IH1 _ IH2]; cbn [List.forallb].
  - reflexivity.
  - rewrite IH. reflexivity.
  - destruct (f x), (f y); reflexivity.
  - rewrite IH1. exact IH2.
Qed.

Lemma existsb_Permutation {A : Type} (f : A -> bool) (l l' : list A) :
  l ≡ₚ l' -> List.existsb f l = List.existsb f l'.
Proof.
  induction 1 as [| x l l' _ IH | x y l | l l' l'' _ IH1 _ IH2]; cbn [List.existsb].
  - reflexivity.
  - rewrite IH. reflexivity.
  - destruct (f x), (f y); reflexivity.
  - rewrite IH1. exact IH2.
Qed.

Lemma forallb_of_map {A B : Type} (g : A -> B) (f : B -> bool) (l : list A) :
  List.forallb f (List.map g l) = List.forallb (fun x => f (g x)) l.
Proof. induction l as [| x l IH]; [reflexivity |]. cbn [List.map List.forallb]. rewrite IH. reflexivity. Qed.

Lemma existsb_of_map {A B : Type} (g : A -> B) (f : B -> bool) (l : list A) :
  List.existsb f (List.map g l) = List.existsb (fun x => f (g x)) l.
Proof. induction l as [| x l IH]; [reflexivity |]. cbn [List.map List.existsb]. rewrite IH. reflexivity. Qed.

(** The values of the reported dict are the reports of the values. *)
Lemma values_report (results : gmap string SecurityCheckResult) :
  values (report <$> results) ≡ₚ List.map report (values results).
Proof.
  unfold values. rewrite map_to_list_fmap.
  rewrite <- !list_fmap_compose. reflexivity.
Qed.

(** The flags of a returned result, over the reports it carries. *)
Lemma run_all_gates_flags (self : SecurityGateCoordinator) (request : gmap string Json.json)
    (r : RunResult) :
  fst (run_all_gates lib self request) = Ok r ->
  overall_passed r = List.forallb report_passed (values (gate_results r)) /\
  run_threat_detected r = List.existsb report_threat_detected (values (gate_results r)) /\
  run_threat_detected r = negb (overall_passed r).
Proof.
  unfold run_all_gates.
  pose proof (collect_results_flag self request) as Hflag.
  destruct (collect_results lib self request) as [[results | k m] self']; [| discriminate].
  specialize (Hflag results eq_refl).
  cbn [fst]. intros H. injection H as <-. cbn [overall_passed run_threat_detected gate_results].
  rewrite (forallb_Permutation _ _ _ (values_report results)).
  rewrite (existsb_Permutation _ _ _ (values_report results)).
  rewrite forallb_of_map, existsb_of_map. cbn [report report_passed report_threat_detected].
  split; [reflexivity |]. split; [reflexivity |].
  apply flags_of_list.
  apply map_Forall_to_list in Hflag. unfold values.
  apply List.Forall_forall. intros x Hin. apply List.in_map_iff in Hin as ([k v] & <- & Hin).
  rewrite Forall_forall in Hflag. apply (Hflag (k, v)). apply list_elem_of_In. exact Hin.
Qed.

(** A field handed to a scanner as a text is absent, a string, or a value
    that is false. *)
Definition text_or_false (field : option Json.json) : bool :=
  match field with
  | None => true
  | Some (Json.JStr _) => true
  | Some v => negb (Json.truthy v)
  end.

(** Whether a call returns, rather than raises. *)
Definition returns {A : Type} (e : Exc A) : bool :=
  match e with
  | Ok _ => true
  | Raise _ _ => false
  end.

Lemma check_prompt_returns (self : SecurityGateCoordinator) (text : Json.json) :
  returns (fst (check_prompt lib self text)) = text_or_false (Some text).
Proof.
  unfold check_prompt, PromptInjectionScanner.scan, text_or_false.
  destruct text as [| b | z | t0 | l | l]; cbn [Json.truthy].
  - reflexivity.
  - destruct b; reflexivity.
  - destruct (negb _); reflexivity.
  - destruct (String.eqb t0 EmptyString); [reflexivity |].
    destruct (List.filter _ _); reflexivity.
  - destruct l; reflexivity.
  - destruct l; reflexivity.
Qed.

Lemma check_shell_command_returns (self : SecurityGateCoordinator) (command : Json.json) :
  returns (fst (check_shell_command lib self command)) = text_or_false (Some command).
Proof.
  unfold check_shell_command, ShellCommandSanitizer.validate, text_or_false.
  destruct command as [| b | z | c | l | l]; cbn [Json.truthy].
  - reflexivity.
  - destruct b; reflexivity.
  - destruct (negb _); reflexivity.
  - destruct (_ || _); [reflexivity |].
    destruct (List.find _ _); [reflexivity |].
    destruct (String.eqb _ "allowlist"); [| reflexivity].
    destruct (List.existsb _ _); reflexivity.
  - destruct l; reflexivity.
  - destruct l; reflexivity.
Qed.

Lemma prompt_step_returns (self : SecurityGateCoordinator) (request : gmap string Json.json)
    (results : gmap string SecurityCheckResult) :
  returns (fst (prompt_step lib self request results)) = text_or_false (request !! "prompt").
Proof.
  unfold prompt_step. destruct (request !! "prompt") as [p |]; [| reflexivity].
  rewrite <- (check_prompt_returns self p).
  destruct (check_prompt lib self p) as [[r | k m] self0]; reflexivity.
Qed.

Lemma shell_step_returns (self : SecurityGateCoordinator) (request : gmap string Json.json)
    (results : gmap string SecurityCheckResult) :
  returns (fst (shell_step lib self request results))
  = text_or_false (request !! "shell_command").
Proof.
  unfold shell_step. destruct (request !! "shell_command") as [c |]; [| reflexivity].
  rewrite <- (check_shell_command_returns self c).
  destruct (check_shell_command lib self c) as [[r | k m] self0]; reflexivity.
Qed.

(** [run_all_gates] returns exactly when the fields [prompt] and
    [shell_command] of the request are absent, strings, or false values. *)
Lemma run_all_gates_returns (self : SecurityGateCoordinator) (request : gmap string Json.json) :
  returns (fst (run_all_gates lib self request))
  = text_or_false (request !! "prompt") && text_or_false (request !! "shell_command").
Proof.
  unfold run_all_gates, collect_results.
  rewrite <- (prompt_step_returns self request ∅).
  destruct (prompt_step lib self request ∅) as [[results1 | k m] self1]; [| reflexivity].
  rewrite <- (shell_step_returns self1 request results1).
  destruct (shell_step lib self1 request results1) as [[results2 | k m] self2]; reflexivity.
Qed.

(** C6, amended.  Whenever [run_all_gates] returns, [overall_passed] is the
    conjunction of the [passed] flags of the gate results it reports,
    [threat_detected] is the disjunction of their [threat_detected] flags,
    and [threat_detected] is the negation of [overall_passed]; it returns
    when the fields [prompt] and [shell_command] of the request are absent,
    strings, or false values. *)
Theorem C6_run_all_gates_aggregates :
  forall (self : SecurityGateCoordinator) (request : gmap string Json.json),
    text_or_false (request !! "prompt") && text_or_false (request !! "shell_command") = true ->
    exists r : RunResult,
      fst (run_all_gates lib self request) = Ok r /\
      overall_passed r = List.forallb report_passed (values (gate_results r)) /\
      run_threat_detected r = List.existsb report_threat_detected (values (gate_results r)) /\
      run_threat_detected r = negb (overall_passed r).
Proof.
  intros self request Hfields. rewrite <- (run_all_gates_returns self request) in Hfields.
  destruct (fst (run_all_gates lib self request)) as [r | k m] eqn:Hrun; [| discriminate Hfields].
  exists r. split; [reflexivity |]. apply (run_all_gates_flags self request r Hrun).
Qed.

End GateFacts.

(** A stand-in for the libraries, used where a statement is run on an
    input: a pattern is searched as a literal text (what [re] does for a
    pattern without special characters, such as [rot13] or [mkfs]), the
    domain of a URL is the URL itself, and a path resolves to its
    components between slashes. *)
Fixpoint split_slash (cur : string) (s : string) : list string :=
  match s with
  | EmptyString => if String.eqb cur EmptyString then [] else [cur]
  | String c s' =>
      if Ascii.eqb c "/"%char
      then (if String.eqb cur EmptyString then [] else [cur]) ++ split_slash EmptyString s'
      else split_slash (cur +:+ String c EmptyString) s'
  end.

Definition literal_lib : Gates.Lib :=
  {| Gates.re_search := fun pattern ignorecase text =>
       if ignorecase then Py.contains (Py.lower pattern) (Py.lower text)
       else Py.contains pattern text;
     Gates.re_type_error := fun _ => "expected string or bytes-like object";
     Gates.urlparse_domain := fun url => Gates.Ok url;
     Gates.urlparse_other := fun _ => Gates.Raise "AttributeError" "object has no attribute 'decode'";
     Gates.path_resolve := fun p => Gates.Ok (split_slash EmptyString p);
     Gates.path_other := fun _ => "Invalid path" |}.

Definition sample_coordinator : Gates.SecurityGateCoordinator :=
  {| Gates.prompt_scanner :=
       {| Gates.PromptInjectionScanner.strict_mode := true;
          Gates.PromptInjectionScanner.threat_count := 0 |};
     Gates.shell_sanitizer :=
       {| Gates.ShellCommandSanitizer.mode := "allowlist";
          Gates.ShellCommandSanitizer.threat_count := 0 |};
     Gates.sandbox_enforcer :=
       {| Gates.SandboxEnforcer.sandbox_enabled := true;
          Gates.SandboxEnforcer.threat_count := 0 |};
     Gates.credential_guard := {| Gates.CredentialGuard.threat_count := 0 |};
     Gates.network_allowlist := Gates.NetworkAllowlist.make [];
     Gates.workspace_boundary :=
       {| Gates.WorkspaceBoundaryEnforcer.workspace_root := ["workspace"];
          Gates.WorkspaceBoundaryEnforcer.threat_count := 0 |} |}.

(** A request for a sandboxed operation with a prompt that holds [rot13]. *)
Definition sample_request : gmap string Json.json :=
  <["prompt" := Json.JStr "apply rot13 to this"]>
    (<["operation" := Json.JStr "terminal.execute"]> ∅).

(** C6 on that request: its prompt is a string and it has no shell command,
    and the flags of the result returned are the conjunction, the
    disjunction, and each other's negation. *)
Lemma C6_run_all_gates_witness :
  text_or_false (sample_request !! "prompt")
  && text_or_false (sample_request !! "shell_command") = true /\
  exists r : Gates.RunResult,
    fst (Gates.run_all_gates literal_lib sample_coordinator sample_request) = Gates.Ok r /\
    Gates.overall_passed r = List.forallb Gates.report_passed (Gates.values (Gates.gate_results r)) /\
    Gates.run_threat_detected r
    = List.existsb Gates.report_threat_detected (Gates.values (Gates.gate_results r)) /\
    Gates.run_threat_detected r = negb (Gates.overall_passed r).
Proof.
  split; [vm_compute; reflexivity |].
  apply (C6_run_all_gates_aggregates literal_lib sample_coordinator sample_request).
  vm_compute. reflexivity.
Defined.

(** C6 as stated: the flags are the conjunction and the disjunction for
    every request, and some request yields a result that passes overall
    and is flagged. *)
Definition C6_as_stated : Prop :=
  (forall (lib : Gates.Lib) (self : Gates.SecurityGateCoordinator)
          (request : gmap string Json.json),
      exists r : Gates.RunResult,
        fst (Gates.run_all_gates lib self request) = Gates.Ok r /\
        Gates.overall_passed r
        = List.forallb Gates.report_passed (Gates.values (Gates.gate_results r)) /\
        Gates.run_threat_detected r
        = List.existsb Gates.report_threat_detected (Gates.values (Gates.gate_results r))) /\
  (exists (lib : Gates.Lib) (self : Gates.SecurityGateCoordinator)
          (request : gmap string Json.json) (r : Gates.RunResult),
      fst (Gates.run_all_gates lib self request) = Gates.Ok r /\
      Gates.overall_passed r = true /\ Gates.run_threat_detected r = true).

(** C6, as stated, fails: no request yields a result with
    [overall_passed] and [threat_detected] both true, under whatever the
    libraries answer; and for the request whose prompt is the number 5
    [run_all_gates] raises a TypeError and returns no result. *)
Lemma C6_flagged_pass_impossible :
  ~ C6_as_stated /\
  ~ (exists (lib : Gates.Lib) (self : Gates.SecurityGateCoordinator)
            (request : gmap string Json.json) (r : Gates.RunResult),
        fst (Gates.run_all_gates lib self request) = Gates.Ok r /\
        Gates.overall_passed r = true /\ Gates.run_threat_detected r = true) /\
  fst (Gates.run_all_gates literal_lib sample_coordinator (<["prompt" := Json.JInt 5]> ∅))
  = Gates.Raise "TypeError" "expected string or bytes-like object".
Proof.
  assert (Hnone : ~ (exists (lib : Gates.Lib) (self : Gates.SecurityGateCoordinator)
                            (request : gmap string Json.json) (r : Gates.RunResult),
                        fst (Gates.run_all_gates lib self request) = Gates.Ok r /\
                        Gates.overall_passed r = true /\ Gates.run_threat_detected r = true)).
  { intros (lib & self & request & r & Hrun & Hpass & Hthreat).
    destruct (run_all_gates_flags lib self request r Hrun) as (_ & _ & Hneg).
    rewrite Hpass, Hthreat in Hneg. discriminate Hneg. }
  split; [| split].
  - intros [_ Hsome]. exact (Hnone Hsome).
  - exact Hnone.
  - vm_compute. reflexivity.
Qed.

(** ** Constitution engine *)

Section ConstitutionFacts.

Import Constitution.

#[local] Opaque hash_of.

Lemma chars_append (a b : string) : Py.chars (a +:+ b) = Py.chars a ++ Py.chars b.
Proof.
  unfold Py.chars. induction a as [| c a IH]; [reflexivity |].
  simpl. rewrite IH. reflexivity.
Qed.

Lemma of_chars_append (l l' : list ascii) :
  Py.of_chars (l ++ l') = Py.of_chars l +:+ Py.of_chars l'.
Proof.
  unfold Py.of_chars. induction l as [| c l IH]; [reflexivity |].
  simpl. rewrite IH. reflexivity.
Qed.

Lemma lower_append (a b : string) : Py.lower (a +:+ b) = Py.lower a +:+ Py.lower b.
Proof.
  unfold Py.lower. rewrite chars_append, List.map_app, of_chars_append. reflexivity.
Qed.

Lemma startswith_append (p a b : string) :
  Py.startswith p a = true -> Py.startswith p (a +:+ b) = true.
Proof.
  revert a. induction p as [| c p IH]; intros a H; [reflexivity |].
  destruct a as [| d a]; [discriminate H |].
  simpl in *.
  destruct (Ascii.eqb c d); [apply IH; exact H | discriminate H].
Qed.

(** A text found in a string is found in every extension of it. *)
Lemma contains_append (p a b : string) :
  Py.contains p a = true -> Py.contains p (a +:+ b) = true.
Proof.
  induction a as [| d a IH]; intros H.
  - simpl in H. rewrite Bool.orb_false_r in H.
    destruct p; [| discriminate H]. destruct b; reflexivity.
  - change (String d a +:+ b) with (String d (a +:+ b)).
    cbn [Py.contains] in *.
    apply Bool.orb_true_iff in H as [H | H].
    + change (String d (a +:+ b)) with (String d a +:+ b).
      rewrite (startswith_append _ _ _ H). reflexivity.
    + rewrite (IH H). apply Bool.orb_true_r.
Qed.

(** A Constitution just constructed passes its integrity check. *)
Lemma make_verify_immutability (cs : option (list ConstitutionalConstraint)) :
  verify_immutability (make cs) = true.
Proof.
  unfold verify_immutability, _compute_hash, make.
  cbn [version prime_directive authority_hierarchy constraints _immutable_hash].
  apply String.eqb_refl.
Qed.

(** The operation of the scenario: [shell_exec], "format disk", SYSTEM_EXEC,
    with any id, agent and parameters. *)
Definition format_disk (oid aid : string) (params : Json.json) : Operation :=
  {| operation_id := oid; agent_id := aid; skill_name := "shell_exec";
     parameters := params; authority_level := Authority.SYSTEM_EXEC;
     description := "format disk" |}.

Lemma format_disk_matches (oid aid : string) (params : Json.json) :
  Py.contains "format" (Py.lower (operation_text (format_disk oid aid params))) = true.
Proof.
  unfold operation_text, format_disk. cbn [skill_name description parameters].
  change ("shell_exec" +:+ " " +:+ "format disk" +:+ " " +:+ Json.dumps false params)
    with ("shell_exec format disk " +:+ Json.dumps false params).
  rewrite lower_append. apply contains_append. vm_compute. reflexivity.
Qed.

Lemma format_disk_violates (oid aid : string) (params : Json.json) :
  _violates_prime_directive (format_disk oid aid params) = true.
Proof.
  unfold _violates_prime_directive. apply List.existsb_exists.
  exists "format". split.
  - unfold harmful_keywords. cbn [In]. tauto.
  - apply format_disk_matches.
Qed.

Lemma format_disk_validate (oid aid : string) (params : Json.json) :
  validate_operation (make None) (format_disk oid aid params)
  = inr (PrimeDirectiveViolation
           ("Operation " +:+ oid +:+ " violates Prime Directive: " +:+ PRIME_DIRECTIVE)).
Proof.
  unfold validate_operation. rewrite make_verify_immutability. cbn [negb].
  unfold make. cbn [constraints]. unfold _load_default_constraints.
  cbn [enforce_all authority_levels]. unfold format_disk at 1. cbn [authority_level].
  rewrite bool_decide_eq_true_2 by (unfold Authority.all_levels; set_solver).
  unfold _enforce_constraint. cbn [enforcement article constraint_description].
  change (String.eqb "strict" "advisory") with false.
  change (String.eqb "strict" "logging") with false.
  change (String.eqb "ARTICLE_I_SECTION_1" "ARTICLE_I_SECTION_1") with true.
  rewrite format_disk_violates. cbn [andb]. reflexivity.
Qed.

End ConstitutionFacts.

(** ** Governance kernel *)

Section KernelFacts.

Import OraKernel.

Context (lib : Gates.Lib).

#[local] Opaque Constitution.hash_of.
#[local] Arguments ImmutableAuditLog._sign_entry : simpl never.

(** The security gates change the coordinator of the kernel, and nothing
    else of it. *)
Lemma run_gates_keeps (k : t) (command user : string) :
  constitution (snd (run_gates lib k command user)) = constitution k /\
  audit_logger (snd (run_gates lib k command user)) = audit_logger k /\
  _metrics (snd (run_gates lib k command user)) = _metrics k /\
  active_interfaces (snd (run_gates lib k command user)) = active_interfaces k.
Proof.
  unfold run_gates. destruct (security_gates k) as [[c | run] |].
  - destruct (Gates.run_all_gates lib c (gate_request command user)) as [[r | kind m] c'];
      repeat split.
  - destruct (run (gate_request command user)) as [v | kind m]; repeat split.
  - repeat split.
Qed.

Lemma remember_gates (w : World) (op : Constitution.Operation) (command user : string) :
  fst (run_gates lib (kernel (remember w op)) command user)
  = fst (run_gates lib (kernel w) command user).
Proof.
  unfold run_gates, remember, with_kernel. cbn [kernel security_gates].
  destruct (security_gates (kernel w)) as [[c | run] |]; [| | reflexivity].
  - destruct (Gates.run_all_gates lib c (gate_request command user)) as [[r | kind m] c'];
      reflexivity.
  - destruct (run (gate_request command user)) as [v | kind m]; reflexivity.
Qed.

(** The world in which [process_operation] validates the operation: the
    operation is in the history and the gates have run. *)
Definition gated_world (w : World) (op : Constitution.Operation) (command user : string)
  : World :=
  with_kernel (remember w op) (snd (run_gates lib (kernel (remember w op)) command user)).

Lemma gated_world_keeps (w : World) (op : Constitution.Operation) (command user : string) :
  db (gated_world w op command user) = db w /\
  constitution (kernel (gated_world w op command user)) = constitution (kernel w) /\
  audit_logger (kernel (gated_world w op command user)) = audit_logger (kernel w) /\
  _metrics (kernel (gated_world w op command user)) = _metrics (kernel w).
Proof.
  unfold gated_world.
  destruct (run_gates_keeps (kernel (remember w op)) command user) as (Hc & Ha & Hm & _).
  cbn [with_kernel kernel db]. rewrite Hc, Ha, Hm. repeat split.
Qed.

(** The call of the audit logger appends at most one row, whose result is
    "pending". *)
Lemma audit_pending_db (w : World) (env : Env) (op : Constitution.Operation)
    (command user : string) :
  db (audit_pending w env op command user) = db w \/
  exists row,
    db (audit_pending w env op command user) = db w ++ [row] /\
    ImmutableAuditLog.result row = "pending" /\
    ImmutableAuditLog.action row = Constitution.skill_name op /\
    ImmutableAuditLog.authority row = Authority.str (Constitution.authority_level op).
Proof.
  unfold audit_pending. destruct (audit_logger (kernel w)) as [logger |]; [| left; reflexivity].
  unfold ImmutableAuditLog.log. destruct (ImmutableAuditLog.insert_ok (audit_env env)).
  - right. eexists. cbn [db]. split; [reflexivity |]. repeat split.
  - left. reflexivity.
Qed.

(** With a logger whose insert succeeds, exactly one row is appended. *)
Lemma audit_pending_appends (w : World) (env : Env) (op : Constitution.Operation)
    (command user : string) (logger : ImmutableAuditLog.t) :
  audit_logger (kernel w) = Some logger ->
  ImmutableAuditLog.insert_ok (audit_env env) = true ->
  exists row,
    db (audit_pending w env op command user) = db w ++ [row] /\
    ImmutableAuditLog.result row = "pending" /\
    ImmutableAuditLog.action row = Constitution.skill_name op /\
    ImmutableAuditLog.authority row = Authority.str (Constitution.authority_level op).
Proof.
  intros Hlogger Hok. unfold audit_pending. rewrite Hlogger.
  unfold ImmutableAuditLog.log. rewrite Hok.
  eexists. cbn [db]. split; [reflexivity |]. repeat split.
Qed.

(** On every path of [process_operation] that returns "blocked" the audit
    table and the logger are those of the start. *)
Lemma blocked_appends_nothing (w : World) (env : Env) (op : Constitution.Operation)
    (command user : string) :
  status (fst (process_operation lib w env op command user)) = "blocked" ->
  db (snd (process_operation lib w env op command user)) = db w /\
  audit_logger (kernel (snd (process_operation lib w env op command user)))
  = audit_logger (kernel w).
Proof.
  destruct (gated_world_keeps w op command user) as (Hdb & _ & Hlogger & _).
  unfold process_operation. cbv zeta. fold (gated_world w op command user).
  destruct (fst (run_gates lib (kernel (remember w op)) command user))
    as [| reason0 | kind0 m].
  - destruct (Constitution.validate_operation
                (constitution (kernel (gated_world w op command user))) op)
      as [ok | [m | m | m | m]].
    + destruct (Authority.approval_needed _).
      * cbn [fst status]. intros H. discriminate H.
      * unfold _agent_fleet_execute. destruct (completion env); cbn [fst status agent_status];
          intros H; discriminate H.
    + cbn [fst status]. intros H. discriminate H.
    + intros _. split; [exact Hdb | exact Hlogger].
    + cbn [fst status]. intros H. discriminate H.
    + intros _. split; [exact Hdb | exact Hlogger].
  - intros _. split; [exact Hdb | exact Hlogger].
  - destruct (is_constitutional_violation kind0); [unfold on_violation | unfold on_exception];
      cbn [fst status]; intros H; discriminate H.
Qed.

(** Where the audit table changes, the call has passed the gates and the
    Constitution, and goes on to the approval or the execution. *)
Lemma appended_only_after_checks (w : World) (env : Env) (op : Constitution.Operation)
    (command user : string) :
  db (snd (process_operation lib w env op command user)) = db w \/
  exists row,
    db (snd (process_operation lib w env op command user)) = db w ++ [row] /\
    ImmutableAuditLog.result row = "pending" /\
    fst (run_gates lib (kernel w) command user) = GatesPass /\
    Constitution.validate_operation (constitution (kernel w)) op = inl true.
Proof.
  destruct (gated_world_keeps w op command user) as (Hdb & Hconst & _ & _).
  unfold process_operation. cbv zeta. fold (gated_world w op command user).
  rewrite remember_gates, Hconst.
  destruct (fst (run_gates lib (kernel w) command user)) as [| reason0 | kind0 m];
    [| left; exact Hdb | destruct (is_constitutional_violation kind0); left; exact Hdb].
  destruct (Constitution.validate_operation (constitution (kernel w)) op)
    as [ok | [m | m | m | m]] eqn:Hvalid; try (left; exact Hdb).
  assert (Hok : ok = true).
  { unfold Constitution.validate_operation in Hvalid.
    destruct (negb _); [discriminate Hvalid |].
    destruct (Constitution.enforce_all _ _); [discriminate Hvalid |].
    destruct (Constitution._check_prohibited_operations _); [discriminate Hvalid |].
    injection Hvalid as <-. reflexivity. }
  subst ok.
  assert (Hlog : forall w1 : World,
             db w1 = db (audit_pending (gated_world w op command user) env op command user) ->
             db w1 = db w \/
             exists row, db w1 = db w ++ [row] /\ ImmutableAuditLog.result row = "pending" /\
                         GatesPass = GatesPass /\ @inl bool Constitution.Violation true = inl true).
  { intros w1 ->.
    destruct (audit_pending_db (gated_world w op command user) env op command user)
      as [H | (row & H & Hres & _)]; rewrite Hdb in H; [left; exact H |].
    right. exists row. repeat split; assumption. }
  destruct (Authority.approval_needed _).
  - apply Hlog. reflexivity.
  - destruct (String.eqb _ "success"); apply Hlog; reflexivity.
Qed.

(** C3, amended.  Whenever [process_command] returns "blocked", by the
    security gates or by the Constitution, it has appended no audit entry:
    the audit table and the chain head are those of the start.  The entry
    with result "pending" is appended after the gates and the Constitution
    have passed, and only then. *)
Theorem C3_blocked_appends_no_audit_entry :
  forall (w : World) (env : Env) (command user : string),
    status (fst (process_command lib w env command user)) = "blocked" ->
    db (snd (process_command lib w env command user)) = db w /\
    audit_logger (kernel (snd (process_command lib w env command user)))
    = audit_logger (kernel w) /\
    (forall (w' : World) (env' : Env) (command' user' : string),
        db (snd (process_command lib w' env' command' user')) = db w' \/
        exists row,
          db (snd (process_command lib w' env' command' user')) = db w' ++ [row] /\
          ImmutableAuditLog.result row = "pending" /\
          fst (run_gates lib (kernel w') command' user') = GatesPass /\
          Constitution.validate_operation (constitution (kernel w'))
            (parse_command env' command' user') = inl true).
Proof.
  intros w env command user Hblocked. unfold process_command in *.
  destruct (blocked_appends_nothing w env _ command user Hblocked) as [Hdb Hlogger].
  split; [exact Hdb |]. split; [exact Hlogger |].
  intros w' env' command' user'. apply appended_only_after_checks.
Qed.

(** C7, amended.  For the operation with skill "shell_exec", description
    "format disk" and level SYSTEM_EXEC, under a Constitution just
    constructed and security gates that let the command through: the
    keyword "format" is found in the text of the operation, the
    Constitution raises [PrimeDirectiveViolation], and the kernel returns
    "blocked" with the text of the violation in the field [error], without
    approval data: it has not reached the authority requirements, and it
    has appended no audit entry. *)
Theorem C7_format_disk_blocked :
  forall (w : World) (env : Env) (oid aid command user : string) (params : Json.json),
    constitution (kernel w) = Constitution.make None ->
    fst (run_gates lib (kernel w) command user) = GatesPass ->
    let op := format_disk oid aid params in
    let out := process_operation lib w env op command user in
    Py.contains "format" (Py.lower (Constitution.operation_text op)) = true /\
    Constitution.validate_operation (constitution (kernel w)) op
    = inr (Constitution.PrimeDirectiveViolation
             ("Operation " +:+ oid +:+ " violates Prime Directive: "
              +:+ Constitution.PRIME_DIRECTIVE)) /\
    status (fst out) = "blocked" /\
    output (fst out) = "Operation blocked: Violates Prime Directive" /\
    error (fst out) = Some ("Operation " +:+ oid +:+ " violates Prime Directive: "
                            +:+ Constitution.PRIME_DIRECTIVE) /\
    requires_approval (fst out) = false /\
    approval_id (fst out) = None /\
    db (snd out) = db w /\
    audit_logger (kernel (snd out)) = audit_logger (kernel w) /\
    operations_blocked (_metrics (kernel (snd out))) = S (operations_blocked (_metrics (kernel w))).
Proof.
  intros w env oid aid command user params Hconst Hgates. cbv zeta.
  split; [apply format_disk_matches |].
  rewrite Hconst. split; [apply format_disk_validate |].
  destruct (gated_world_keeps w (format_disk oid aid params) command user)
    as (Hdb & Hkept & Hlogger & Hmetrics).
  unfold process_operation. cbv zeta.
  fold (gated_world w (format_disk oid aid params) command user).
  rewrite remember_gates, Hgates, Hkept, Hconst, format_disk_validate.
  cbn [fst snd status output error requires_approval approval_id].
  cbn [_broadcast_alert bump_blocked with_kernel with_metrics kernel db audit_logger _metrics
       operations_blocked].
  rewrite Hmetrics. repeat split; assumption.
Qed.

(** Under the default constraints an operation without a harmful keyword
    and with a skill that is not prohibited is admitted. *)
Lemma enforce_strict (c : Constitution.ConstitutionalConstraint) (op : Constitution.Operation) :
  Constitution._violates_prime_directive op = false ->
  Constitution._enforce_constraint c op = None.
Proof.
  intros Hsafe. unfold Constitution._enforce_constraint. rewrite Hsafe, Bool.andb_false_r.
  destruct (String.eqb _ "advisory"); [reflexivity |].
  destruct (String.eqb _ "logging"); reflexivity.
Qed.

Lemma enforce_all_safe (cs : list Constitution.ConstitutionalConstraint)
    (op : Constitution.Operation) :
  Constitution._violates_prime_directive op = false ->
  Constitution.enforce_all cs op = None.
Proof.
  intros Hsafe. induction cs as [| c cs IH]; [reflexivity |].
  cbn [Constitution.enforce_all]. rewrite (enforce_strict c op Hsafe), IH.
  destruct (bool_decide _); reflexivity.
Qed.

Lemma validate_safe (cs : option (list Constitution.ConstitutionalConstraint))
    (op : Constitution.Operation) :
  Constitution._violates_prime_directive op = false ->
  Constitution._check_prohibited_operations op = None ->
  Constitution.validate_operation (Constitution.make cs) op = inl true.
Proof.
  intros Hsafe Hallowed. unfold Constitution.validate_operation.
  rewrite make_verify_immutability. cbn [negb].
  rewrite (enforce_all_safe _ op Hsafe), Hallowed. reflexivity.
Qed.

(** The operation of the scenario: [file_write] at FILE_WRITE on
    /workspace/app.py, with any id, agent and description. *)
Definition write_app (oid aid descr : string) : Constitution.Operation :=
  {| Constitution.operation_id := oid; Constitution.agent_id := aid;
     Constitution.skill_name := "file_write";
     Constitution.parameters :=
       Json.JDict [("path", Json.JStr "/workspace/app.py"); ("content", Json.JStr "print(1)")];
     Constitution.authority_level := Authority.FILE_WRITE;
     Constitution.description := descr |}.

(** No attribute of a [KernelResult] is an integer. *)
Lemma asdict_no_integer (r : KernelResult) (field : string) (z : Z) :
  ~ In (field, FInt z) (asdict r).
Proof.
  unfold asdict, opt_str. cbn [In].
  destruct (approval_id r), (error r);
    intros [H | [H | [H | [H | [H | [H | [H | []]]]]]]]; discriminate H.
Qed.

(** C8, amended.  The operation [file_write] at FILE_WRITE on
    /workspace/app.py, whose text holds no harmful keyword, submitted to a
    kernel with a Constitution just constructed, gates that let it through
    and an audit logger whose insert succeeds: the result has status
    "pending_approval", [requires_approval] set, a generated approval id and
    the level FILE_WRITE, the requirements of which give the quorum size 4;
    the quorum size itself is no attribute of the result; and exactly one
    row, with result "pending", has been appended to the audit table. *)
Theorem C8_file_write_pending_approval :
  forall (w : World) (env : Env) (oid aid descr command user : string)
         (logger : ImmutableAuditLog.t),
    constitution (kernel w) = Constitution.make None ->
    fst (run_gates lib (kernel w) command user) = GatesPass ->
    audit_logger (kernel w) = Some logger ->
    ImmutableAuditLog.insert_ok (audit_env env) = true ->
    Constitution._violates_prime_directive (write_app oid aid descr) = false ->
    let out := process_operation lib w env (write_app oid aid descr) command user in
    status (fst out) = "pending_approval" /\
    requires_approval (fst out) = true /\
    approval_id (fst out) = Some ("apr_" +:+ Py.take_string 12 (uuid_approval env)) /\
    authority_required (fst out) = Authority.FILE_WRITE /\
    Authority.consensus_required (Authority.get_authority_requirements (authority_required (fst out)))
    = 4%Z /\
    (forall (field : string) (z : Z), ~ In (field, FInt z) (asdict (fst out))) /\
    exists row,
      db (snd out) = db w ++ [row] /\
      ImmutableAuditLog.result row = "pending" /\
      ImmutableAuditLog.action row = "file_write" /\
      ImmutableAuditLog.authority row = "AuthorityLevel.FILE_WRITE".
Proof.
  intros w env oid aid descr command user logger Hconst Hgates Hlogger Hok Hsafe. cbv zeta.
  assert (Hvalid : Constitution.validate_operation (Constitution.make None) (write_app oid aid descr)
                   = inl true).
  { apply validate_safe; [exact Hsafe | vm_compute; reflexivity]. }
  destruct (gated_world_keeps w (write_app oid aid descr) command user)
    as (Hdb0 & Hkept & Hlogger0 & _).
  rewrite <- Hlogger0 in Hlogger.
  destruct (audit_pending_appends (gated_world w (write_app oid aid descr) command user) env
              (write_app oid aid descr) command user logger Hlogger Hok)
    as (row & Hdb & Hres & Hact & Hauth).
  rewrite Hdb0 in Hdb.
  assert (Hout : process_operation lib w env (write_app oid aid descr) command user
                 = ({| status := "pending_approval";
                       output := "Operation requires approval at "
                                 +:+ Authority.name_display Authority.FILE_WRITE;
                       result_operation_id := oid;
                       authority_required := Authority.FILE_WRITE;
                       requires_approval := true;
                       approval_id := Some ("apr_" +:+ Py.take_string 12 (uuid_approval env));
                       error := None |},
                    audit_pending (gated_world w (write_app oid aid descr) command user) env
                      (write_app oid aid descr) command user)).
  { unfold process_operation. cbv zeta.
    fold (gated_world w (write_app oid aid descr) command user).
    rewrite remember_gates, Hgates, Hkept, Hconst, Hvalid. reflexivity. }
  rewrite Hout. cbn [fst snd status requires_approval approval_id authority_required].
  repeat split.
  - intros field z. apply asdict_no_integer.
  - exists row. split; [exact Hdb |]. split; [exact Hres |]. split; [exact Hact | exact Hauth].
Qed.

End KernelFacts.

(** A kernel as [main.py] builds it, but without security gates: a
    Constitution just constructed, an audit logger on an empty table, one
    interface that takes alerts. *)
Definition sample_kernel : OraKernel.t :=
  {| OraKernel.constitution := Constitution.make None;
     OraKernel.audit_logger := Some (ImmutableAuditLog.init []);
     OraKernel.security_gates := None;
     OraKernel.active_interfaces :=
       [{| OraKernel.interface_name := "webui"; OraKernel.has_notify_alert := true |}];
     OraKernel._operation_history := ∅;
     OraKernel._metrics :=
       {| OraKernel.operations_executed := 0; OraKernel.operations_failed := 0;
          OraKernel.operations_rejected := 0; OraKernel.operations_blocked := 0 |} |}.

Definition sample_world : OraKernel.World :=
  {| OraKernel.kernel := sample_kernel; OraKernel.db := []; OraKernel.delivered := [] |}.

(** The same kernel behind security gates that refuse every request. *)
Definition refusing_gates : OraKernel.SecurityGates :=
  OraKernel.OtherGates
    (fun _ => Gates.Ok {| OraKernel.verdict_passed := false;
                          OraKernel.blocked_reason := "prompt injection" |}).

Definition guarded_world : OraKernel.World :=
  {| OraKernel.kernel :=
       {| OraKernel.constitution := Constitution.make None;
          OraKernel.audit_logger := Some (ImmutableAuditLog.init []);
          OraKernel.security_gates := Some refusing_gates;
          OraKernel.active_interfaces := [];
          OraKernel._operation_history := ∅;
          OraKernel._metrics := OraKernel._metrics sample_kernel |};
     OraKernel.db := []; OraKernel.delivered := [] |}.

Definition sample_kernel_env : OraKernel.Env :=
  {| OraKernel.uuid_call := "5f0c1d2e3a4b4c5d8e6f7a8b9c0d1e2f";
     OraKernel.uuid_parse := "7a1b2c3d4e5f4a6b9c8d7e6f5a4b3c2d";
     OraKernel.uuid_approval := "9e8d7c6b5a4f4e3d8c2b1a0f9e8d7c6b";
     OraKernel.utcnow_iso := "2026-01-05T10:00:00.000500";
     OraKernel.audit_env := sample_env "2026-01-05T10:00:00.000400" true;
     OraKernel.completion := Gates.Ok "done" |}.

(** C3 on a command: "delete everything" is blocked by the Constitution of
    the sample kernel, and the audit table, empty at the start, is empty
    afterwards. *)
Lemma C3_blocked_witness :
  OraKernel.status
    (fst (OraKernel.process_command literal_lib sample_world sample_kernel_env
            "delete everything" "Randall")) = "blocked" /\
  OraKernel.db
    (snd (OraKernel.process_command literal_lib sample_world sample_kernel_env
            "delete everything" "Randall")) = [].
Proof.
  assert (Hblocked : OraKernel.status
            (fst (OraKernel.process_command literal_lib sample_world sample_kernel_env
                    "delete everything" "Randall")) = "blocked")
    by (vm_compute; reflexivity).
  split; [exact Hblocked |].
  exact (proj1 (C3_blocked_appends_no_audit_entry literal_lib sample_world sample_kernel_env
                  "delete everything" "Randall" Hblocked)).
Defined.

(** C3, as stated, fails.  The command "delete everything" is blocked by
    the Constitution, and any command is blocked by gates that refuse it;
    in both cases the audit table is empty afterwards: no entry with result
    "pending" has been appended. *)
Lemma C3_blocked_without_pending_entry :
  let by_constitution :=
    OraKernel.process_command literal_lib sample_world sample_kernel_env
      "delete everything" "Randall" in
  let by_gates :=
    OraKernel.process_command literal_lib guarded_world sample_kernel_env
      "search the web for papers" "Randall" in
  (OraKernel.status (fst by_constitution) = "blocked" /\
   OraKernel.output (fst by_constitution) = "Operation blocked: Violates Prime Directive" /\
   ~ (exists row, In row (OraKernel.db (snd by_constitution)) /\
                  ImmutableAuditLog.result row = "pending")) /\
  (OraKernel.status (fst by_gates) = "blocked" /\
   OraKernel.output (fst by_gates) = "Security gate blocked: prompt injection" /\
   ~ (exists row, In row (OraKernel.db (snd by_gates)) /\
                  ImmutableAuditLog.result row = "pending")).
Proof.
  cbv zeta. split; (split; [vm_compute; reflexivity |]); (split; [vm_compute; reflexivity |]).
  - assert (H : OraKernel.db
                  (snd (OraKernel.process_command literal_lib sample_world sample_kernel_env
                          "delete everything" "Randall")) = []) by (vm_compute; reflexivity).
    rewrite H. intros (row & [] & _).
  - assert (H : OraKernel.db
                  (snd (OraKernel.process_command literal_lib guarded_world sample_kernel_env
                          "search the web for papers" "Randall")) = []) by (vm_compute; reflexivity).
    rewrite H. intros (row & [] & _).
Qed.

(** The operation of C7 with the parameters the kernel gives a shell
    command. *)
Definition sample_format_disk : Constitution.Operation :=
  format_disk "op_7a1b2c3d4e5f" "Randall" (Json.JDict [("command", Json.JStr "format disk")]).

(** In the text of that operation "format" is the first harmful keyword
    found. *)
Lemma sample_format_disk_keyword :
  List.find (fun keyword =>
               Py.contains keyword (Py.lower (Constitution.operation_text sample_format_disk)))
            Constitution.harmful_keywords = Some "format".
Proof. vm_compute. reflexivity. Qed.

(** Through [process_command] the description is the command, from which
    [parse_command] also takes the skill: the command "format disk" is the
    operation [research] at INFO_RETRIEVAL, and "run format disk" is the
    operation [shell_exec] at SYSTEM_EXEC; both are blocked, and the audit
    table stays empty. *)
Lemma format_disk_commands_blocked :
  let plain := OraKernel.process_command literal_lib sample_world sample_kernel_env
                 "format disk" "Randall" in
  let shell := OraKernel.process_command literal_lib sample_world sample_kernel_env
                 "run format disk" "Randall" in
  Constitution.skill_name (OraKernel.parse_command sample_kernel_env "format disk" "Randall")
  = "research" /\
  Constitution.skill_name (OraKernel.parse_command sample_kernel_env "run format disk" "Randall")
  = "shell_exec" /\
  OraKernel.status (fst plain) = "blocked" /\ OraKernel.db (snd plain) = [] /\
  OraKernel.status (fst shell) = "blocked" /\ OraKernel.db (snd shell) = [] /\
  OraKernel.authority_required (fst shell) = Authority.SYSTEM_EXEC.
Proof. vm_compute. repeat split. Qed.

(** C7 on the sample kernel, whose Constitution is just constructed and
    which has no security gates: the operation is blocked, the violation is
    in the field [error], and the audit table stays empty. *)
Lemma C7_format_disk_witness :
  let out := OraKernel.process_operation literal_lib sample_world sample_kernel_env
               sample_format_disk "format disk" "Randall" in
  OraKernel.status (fst out) = "blocked" /\
  OraKernel.error (fst out)
  = Some ("Operation op_7a1b2c3d4e5f violates Prime Directive: " +:+ Constitution.PRIME_DIRECTIVE) /\
  OraKernel.db (snd out) = [].
Proof.
  destruct (C7_format_disk_blocked literal_lib sample_world sample_kernel_env
              "op_7a1b2c3d4e5f" "Randall" "format disk" "Randall"
              (Json.JDict [("command", Json.JStr "format disk")]) eq_refl eq_refl)
    as (_ & _ & Hstatus & _ & Herror & _ & _ & Hdb & _).
  cbv zeta. split; [exact Hstatus |]. split; [exact Herror | exact Hdb].
Defined.

(** C7, as stated, fails in its last part: the kernel blocks the operation
    and the audit table stays empty, so no audit entry records the
    constitutional reason; the reason is in the result alone. *)
Lemma C7_blocked_without_audit_entry :
  let out := OraKernel.process_operation literal_lib sample_world sample_kernel_env
               sample_format_disk "format disk" "Randall" in
  OraKernel.status (fst out) = "blocked" /\
  OraKernel.db (snd out) = [] /\
  ~ (exists row, In row (OraKernel.db (snd out)))
  /\ OraKernel.audit_logger (OraKernel.kernel (snd out)) = Some (ImmutableAuditLog.init []).
Proof.
  cbv zeta.
  assert (H : OraKernel.db
                (snd (OraKernel.process_operation literal_lib sample_world sample_kernel_env
                        sample_format_disk "format disk" "Randall")) = [])
    by (vm_compute; reflexivity).
  split; [vm_compute; reflexivity |]. split; [exact H |]. split.
  - rewrite H. intros (row & []).
  - vm_compute. reflexivity.
Qed.

Definition sample_write_app : Constitution.Operation :=
  write_app "op_7a1b2c3d4e5f" "Randall" "Write the application entry point".

(** Through [process_command] a command to write a file is the operation
    [file_write] at FILE_WRITE with the command as its content: it is left
    pending, with one row appended to the audit table. *)
Lemma write_command_pending :
  let out := OraKernel.process_command literal_lib sample_world sample_kernel_env
               "write print(1) to /workspace/app.py" "Randall" in
  Constitution.skill_name
    (OraKernel.parse_command sample_kernel_env "write print(1) to /workspace/app.py" "Randall")
  = "file_write" /\
  OraKernel.status (fst out) = "pending_approval" /\
  List.map ImmutableAuditLog.result (OraKernel.db (snd out)) = ["pending"] /\
  List.map ImmutableAuditLog.action (OraKernel.db (snd out)) = ["file_write"] /\
  List.map ImmutableAuditLog.tool (OraKernel.db (snd out)) = ["file"].
Proof. vm_compute. repeat split. Qed.

(** C8 on the sample kernel, whose audit logger inserts successfully: the
    write is pending approval under a generated approval id, and one row
    with result "pending" has been appended. *)
Lemma C8_file_write_witness :
  let out := OraKernel.process_operation literal_lib sample_world sample_kernel_env
               sample_write_app "Write the application entry point" "Randall" in
  OraKernel.status (fst out) = "pending_approval" /\
  OraKernel.approval_id (fst out) = Some "apr_9e8d7c6b5a4f" /\
  exists row,
    OraKernel.db (snd out) = [row] /\ ImmutableAuditLog.result row = "pending".
Proof.
  destruct (C8_file_write_pending_approval literal_lib sample_world sample_kernel_env
              "op_7a1b2c3d4e5f" "Randall" "Write the application entry point"
              "Write the application entry point" "Randall" (ImmutableAuditLog.init [])
              eq_refl eq_refl eq_refl eq_refl ltac:(vm_compute; reflexivity))
    as (Hstatus & _ & Hid & _ & _ & _ & row & Hdb & Hres & _).
  cbv zeta. split; [exact Hstatus |]. split; [exact Hid |].
  exists row. split; [exact Hdb | exact Hres].
Defined.

(** C8, as stated, fails in one part: the result of the scenario has
    status "pending_approval", and none of its attributes is the quorum
    size 4. *)
Lemma C8_result_carries_no_quorum_size :
  let out := OraKernel.process_operation literal_lib sample_world sample_kernel_env
               sample_write_app "Write the application entry point" "Randall" in
  OraKernel.status (fst out) = "pending_approval" /\
  OraKernel.asdict (fst out)
  = [ ("status", OraKernel.FStr "pending_approval");
      ("output", OraKernel.FStr "Operation requires approval at A4: FILE_WRITE");
      ("operation_id", OraKernel.FStr "op_7a1b2c3d4e5f");
      ("authority_required", OraKernel.FLevel Authority.FILE_WRITE);
      ("requires_approval", OraKernel.FBool true);
      ("approval_id", OraKernel.FStr "apr_9e8d7c6b5a4f");
      ("error", OraKernel.FNone) ] /\
  ~ (exists field, In (field, OraKernel.FInt 4) (OraKernel.asdict (fst out))).
Proof.
  cbv zeta.
  assert (H : OraKernel.asdict
                (fst (OraKernel.process_operation literal_lib sample_world sample_kernel_env
                        sample_write_app "Write the application entry point" "Randall"))
              = [ ("status", OraKernel.FStr "pending_approval");
                  ("output", OraKernel.FStr "Operation requires approval at A4: FILE_WRITE");
                  ("operation_id", OraKernel.FStr "op_7a1b2c3d4e5f");
                  ("authority_required", OraKernel.FLevel Authority.FILE_WRITE);
                  ("requires_approval", OraKernel.FBool true);
                  ("approval_id", OraKernel.FStr "apr_9e8d7c6b5a4f");
                  ("error", OraKernel.FNone) ])
    by (vm_compute; reflexivity).
  split; [vm_compute; reflexivity |]. split; [exact H |].
  rewrite H. cbn [In].
  intros (field & [Hf | [Hf | [Hf | [Hf | [Hf | [Hf | [Hf | []]]]]]]]); discriminate Hf.
Qed.

(** ** More on the authority model *)

Section AuthorityTable.

Import Authority.

Local Open Scope Z_scope.

(** X1.  The requirements of a level name that level, and they tighten as
    the level rises: approval, the sandbox, the quorum and the trust
    threshold of a lower level are at most those of a higher one.  Approval,
    the sandbox and a quorum above zero are required together, from
    FILE_WRITE on.  The rate limits are ten times larger per hour than per
    minute at every level; they do not fall with the level throughout:
    FILE_READ is allowed twice the rate of INFO_RETRIEVAL. *)
Theorem X1_requirements_tighten_with_level :
  forall l1 l2 : AuthorityLevel,
    value l1 <= value l2 ->
    let r1 := get_authority_requirements l1 in
    let r2 := get_authority_requirements l2 in
    level r1 = l1 /\
    (approval_needed r1 = true -> approval_needed r2 = true) /\
    (sandbox_required r1 = true -> sandbox_required r2 = true) /\
    consensus_required r1 <= consensus_required r2 /\
    trust_threshold r1 <= trust_threshold r2 /\
    (approval_needed r1 = true <-> value FILE_WRITE <= value l1) /\
    sandbox_required r1 = approval_needed r1 /\
    (0 < consensus_required r1 <-> approval_needed r1 = true) /\
    (exists per_minute,
        rate_limits r1 !! "per_minute" = Some per_minute /\
        rate_limits r1 !! "per_hour" = Some (10 * per_minute)) /\
    rate_limits (get_authority_requirements INFO_RETRIEVAL) !! "per_minute" = Some 100 /\
    rate_limits (get_authority_requirements FILE_READ) !! "per_minute" = Some 200.
Proof.
  intros l1 l2 Hle. cbv zeta.
  split; [destruct l1; reflexivity |].
  split; [destruct l1, l2; cbn in *; first [reflexivity | lia | discriminate] |].
  split; [destruct l1, l2; cbn in *; first [reflexivity | lia | discriminate] |].
  split; [destruct l1, l2; cbn in *; lia |].
  split; [destruct l1, l2; cbn in *; lia |].
  split; [destruct l1; cbn; split; intros H; first [reflexivity | lia | discriminate] |].
  split; [destruct l1; reflexivity |].
  split; [destruct l1; cbn; split; intros H; first [reflexivity | lia | discriminate] |].
  split; [| split; reflexivity].
  destruct l1; eexists; split; reflexivity.
Qed.

(** No skill is allowed at two levels: the sets [skills_allowed] of
    two different levels are disjoint, so that a skill listed in the table
    determines its level. *)
Lemma skill_determines_level :
  forall l1 l2 : AuthorityLevel,
    l1 <> l2 ->
    skills_allowed (get_authority_requirements l1)
    ## skills_allowed (get_authority_requirements l2).
Proof.
  intros l1 l2 Hne. apply elem_of_disjoint. intros skill H1 H2.
  destruct l1, l2; try congruence; cbn in H1, H2; set_unfold;
    repeat match goal with
           | H : _ \/ _ |- _ => destruct H
           end; congruence.
Qed.

(** [get_byzantine_quorum_size] is zero exactly at the levels whose
    requirements ask for no approval.  At FILE_WRITE and SYSTEM_EXEC it is
    [3 * fault_tolerance + 1], which is never zero: above zero for a fault
    tolerance of zero or more, and below zero for a negative one, which
    the function does not refuse. *)
Lemma quorum_size_sign :
  forall (l : AuthorityLevel) (f : Z),
    let n := get_byzantine_quorum_size l f in
    (n = 0 <-> approval_needed (get_authority_requirements l) = false) /\
    (0 < n <-> approval_needed (get_authority_requirements l) = true /\ 0 <= f) /\
    (n < 0 <-> approval_needed (get_authority_requirements l) = true /\ f < 0) /\
    (approval_needed (get_authority_requirements l) = true -> n = 3 * f + 1).
Proof.
  intros l f. cbv zeta. unfold get_byzantine_quorum_size.
  destruct l; cbn; repeat split; intros; try discriminate; try lia;
    repeat match goal with
           | H : _ /\ _ |- _ => destruct H
           end; try discriminate; try lia.
Qed.

End AuthorityTable.


(** ** More on the audit chain *)

Section AuditLogFacts.

Import ImmutableAuditLog.

#[local] Arguments _sign_entry : simpl never.
#[local] Arguments String.eqb : simpl never.

(** A lower-case hexadecimal digit. *)
Definition is_hex (c : ascii) : bool :=
  List.existsb (Ascii.eqb c) (Py.chars "0123456789abcdef").

Lemma be_bytes_length (n : nat) (z : Z) : List.length (SHA256.be_bytes n z) = n.
Proof. induction n as [| n IH]; [reflexivity |]. cbn [SHA256.be_bytes List.length]. now rewrite IH. Qed.

Lemma sha256_digest_length (msg : list byte) : List.length (SHA256.digest msg) = 32.
Proof.
  unfold SHA256.digest. cbv zeta. cbn [List.map List.concat].
  rewrite !List.length_app, !be_bytes_length. reflexivity.
Qed.

Lemma chars_of_chars (l : list ascii) : Py.chars (Py.of_chars l) = l.
Proof. apply list_ascii_of_string_of_list_ascii. Qed.

Lemma length_of_chars (l : list ascii) : String.length (Py.of_chars l) = List.length l.
Proof.
  unfold Py.of_chars. induction l as [| c l IH]; [reflexivity |]. cbn. now rewrite IH.
Qed.

Lemma hex_of_byte_digits (b : byte) :
  List.length (Py.hex_of_byte b) = 2 /\ List.forallb is_hex (Py.hex_of_byte b) = true.
Proof. destruct b; split; reflexivity. Qed.

Lemma hex_length (bs : list byte) : String.length (Py.hex bs) = 2 * List.length bs.
Proof.
  unfold Py.hex. rewrite length_of_chars.
  induction bs as [| b bs IH]; [reflexivity |].
  cbn [List.map List.concat List.length]. rewrite List.length_app, IH.
  rewrite (proj1 (hex_of_byte_digits b)). lia.
Qed.

Lemma hex_digits (bs : list byte) : List.forallb is_hex (Py.chars (Py.hex bs)) = true.
Proof.
  unfold Py.hex. rewrite chars_of_chars.
  induction bs as [| b bs IH]; [reflexivity |].
  cbn [List.map List.concat]. rewrite List.forallb_app, IH.
  rewrite (proj2 (hex_of_byte_digits b)). reflexivity.
Qed.

(** A signature is 64 lower-case hexadecimal digits. *)
Lemma sign_entry_format (self : t) (env : Env) (entry : list (string * Json.json)) :
  String.length (_sign_entry self env entry) = 64 /\
  List.forallb is_hex (Py.chars (_sign_entry self env entry)) = true.
Proof.
  unfold _sign_entry, HMAC.hexdigest. cbv zeta. split.
  - rewrite hex_length. unfold HMAC.digest. cbv zeta. rewrite sha256_digest_length. reflexivity.
  - apply hex_digits.
Qed.

Lemma newest_app (db : Database) (row : AuditEntry) : newest (db ++ [row]) = Some row.
Proof. unfold newest. rewrite List.map_app. cbn [List.map]. apply List.last_last. Qed.

Lemma init_app (db : Database) (row : AuditEntry) :
  init (db ++ [row]) = {| _last_signature := signature row |}.
Proof. unfold init. rewrite newest_app. reflexivity. Qed.

(** X2.  When the insert succeeds, [log] appends exactly one row after the
    rows of the table, which it leaves as they are.  The row holds the
    arguments, the time read, the parameters as JSON text, "default" for a
    session id that is [None] or empty and "anonymous" for such a user id.
    Its signature, 64 lower-case hexadecimal digits like the genesis hash,
    is the value returned and the new chain head, and an instance
    constructed on the table afterwards starts from the same head. *)
Theorem X2_log_appends_signed_row :
  forall (self : t) (db : Database) (env : Env) (lvl act tl : string)
         (params : option Json.json) (auth res : string) (sid uid : option string),
    insert_ok env = true ->
    let after := log self db env lvl act tl params auth res sid uid in
    exists row,
      snd after = db ++ [row] /\
      fst (fst after) = Some (signature row) /\
      _last_signature (snd (fst after)) = signature row /\
      init (snd after) = snd (fst after) /\
      timestamp row = now_iso env /\
      level row = lvl /\ action row = act /\ tool row = tl /\
      authority row = auth /\ result row = res /\
      parameters row = Json.dumps false (Json.or_empty_dict params) /\
      session_id row = str_or sid "default" /\
      user_id row = str_or uid "anonymous" /\
      String.length (signature row) = 64 /\
      List.forallb is_hex (Py.chars (signature row)) = true /\
      String.length genesis = 64.
Proof.
  intros self db env lvl act tl params auth res sid uid Hok. cbv zeta.
  unfold log. rewrite Hok. cbv zeta. cbn [fst snd].
  eexists. split; [reflexivity |]. cbn [signature timestamp level action tool authority result
                                         parameters session_id user_id _last_signature].
  split; [reflexivity |]. split; [reflexivity |].
  split; [apply init_app |].
  do 9 (split; [reflexivity |]).
  split; [apply (proj1 (sign_entry_format _ _ _)) |].
  split; [apply (proj2 (sign_entry_format _ _ _)) | reflexivity].
Qed.

Lemma log_call_step (st : t * Database) (c : LogCall) :
  fst st = init (snd st) ->
  fst (log_call st c) = init (snd (log_call st c)) /\
  snd (log_call st c)
  = snd st ++ (if insert_ok (log_env c)
               then List.skipn (List.length (snd st)) (snd (log_call st c)) else []) /\
  List.length (snd (log_call st c))
  = List.length (snd st) + (if insert_ok (log_env c) then 1 else 0).
Proof.
  intros Hhead. unfold log_call, log. cbv zeta.
  destruct (insert_ok (log_env c)); cbn [fst snd].
  - rewrite init_app. cbn [signature]. split; [reflexivity |].
    rewrite List.skipn_app, List.skipn_all, Nat.sub_diag. cbn [List.skipn List.app].
    split; [reflexivity |]. rewrite List.length_app. reflexivity.
  - split; [exact Hhead |]. rewrite List.app_nil_r. split; [reflexivity | lia].
Qed.

Lemma log_each_invariant (calls : list LogCall) :
  forall st : t * Database,
    fst st = init (snd st) ->
    fst (log_each st calls) = init (snd (log_each st calls)) /\
    exists rows,
      snd (log_each st calls) = snd st ++ rows /\
      List.length rows = List.length (List.filter (fun c => insert_ok (log_env c)) calls).
Proof.
  induction calls as [| c calls IH]; intros st Hhead.
  - cbn [log_each List.fold_left List.filter List.length]. split; [exact Hhead |].
    exists []. rewrite List.app_nil_r. split; reflexivity.
  - destruct (log_call_step st c Hhead) as (Hhead' & Hdb & Hlen).
    destruct (IH (log_call st c) Hhead') as (Hinv & rows & Hrows & Hcount).
    unfold log_each in *. cbn [List.fold_left]. split; [exact Hinv |].
    rewrite Hrows, Hdb. cbn [List.filter].
    destruct (insert_ok (log_env c)).
    + exists (List.skipn (List.length (snd st)) (snd (log_call st c)) ++ rows).
      split; [now rewrite List.app_assoc |].
      rewrite List.length_app, Hcount. cbn [List.length].
      assert (Hone : List.length (List.skipn (List.length (snd st)) (snd (log_call st c))) = 1).
      { rewrite List.length_skipn, Hlen. lia. }
      rewrite Hone. reflexivity.
    + exists rows. rewrite List.app_nil_r. split; [reflexivity | exact Hcount].
Qed.

(** X3.  Over any sequence of calls of [log] on one instance constructed
    on the table, some of whose inserts may fail: the chain head of the
    instance is at every point the one a new instance would load from the
    table (the signature of the newest row, or the genesis hash for an empty
    table), the rows present at the start are kept in place, and the table
    has grown by one row for each call whose insert succeeded. *)
Theorem X3_chain_head_follows_table :
  forall (db : Database) (calls : list LogCall),
    let st := log_each (init db, db) calls in
    fst st = init (snd st) /\
    exists rows,
      snd st = db ++ rows /\
      List.length rows = List.length (List.filter (fun c => insert_ok (log_env c)) calls).
Proof.
  intros db calls. cbv zeta. apply (log_each_invariant calls (init db, db)). reflexivity.
Qed.

Lemma filter_split_length {A : Type} (f : A -> bool) (l : list A) :
  List.length (List.filter f l) + List.length (List.filter (fun x => negb (f x)) l)
  = List.length l.
Proof.
  induction l as [| x l IH]; [reflexivity |].
  cbn [List.filter]. destruct (f x); cbn [negb List.length]; lia.
Qed.

(** The text of the error reported for a row. *)
Definition invalid_signature (row : AuditEntry) : string :=
  "Entry at " +:+ timestamp row +:+ " has invalid signature".

Lemma verify_row_error_list (self : t) (env : Env) (rows : list AuditEntry)
    (acc : VerifyResult * option string) :
  errors (fst (List.fold_left (verify_row self env) rows acc))
  = errors (fst acc)
    ++ List.map invalid_signature
         (List.filter (fun row => negb (row_accepted self env row)) rows).
Proof.
  revert acc. induction rows as [| row rows IH]; intros acc.
  - cbn [List.fold_left List.filter List.map]. now rewrite List.app_nil_r.
  - cbn [List.fold_left List.filter]. rewrite IH.
    unfold verify_row, row_accepted, row_data.
    destruct (String.eqb _ (signature row)); cbn [fst errors negb List.map].
    + reflexivity.
    + rewrite <- List.app_assoc. reflexivity.
Qed.

(** The rows that a limit selects: the last [limit] rows of the table, in
    the order of the table; all of them for a negative limit. *)
Definition newest_rows (db : Database) (limit : Z) : list AuditEntry :=
  if (limit <? 0)%Z then db else List.skipn (List.length db - Z.to_nat limit) db.

Lemma select_desc_newest (db : Database) (limit : Z) :
  List.rev (select_desc db limit) = newest_rows db limit.
Proof.
  unfold select_desc, newest_rows. cbv zeta.
  destruct (limit <? 0)%Z; [apply List.rev_involutive |].
  rewrite List.firstn_rev. apply List.rev_involutive.
Qed.

(** X4.  [verify_chain] checks the newest [limit] rows of the table, from
    the oldest of them to the newest: all the rows when there are fewer or
    when the limit is negative, and none when the limit is 0.  Every row
    checked is counted once, as valid or as invalid, and the errors are
    the messages for the invalid rows among them, in that order, with
    their timestamps. *)
Theorem X4_verify_chain_totals :
  forall (self : t) (db : Database) (env : Env) (limit : Z),
    let r := verify_chain self db env limit in
    let checked := newest_rows db limit in
    (exists older, db = older ++ checked) /\
    total_checked r = List.length checked /\
    valid r = List.length (List.filter (row_accepted self env) checked) /\
    invalid r
    = List.length (List.filter (fun row => negb (row_accepted self env row)) checked) /\
    errors r
    = List.map invalid_signature
        (List.filter (fun row => negb (row_accepted self env row)) checked) /\
    total_checked r = valid r + invalid r /\
    List.length (errors r) = invalid r /\
    ((0 <= limit)%Z -> total_checked r = Nat.min (Z.to_nat limit) (List.length db)) /\
    ((limit < 0)%Z -> total_checked r = List.length db) /\
    (limit = 0%Z ->
     r = {| total_checked := 0; valid := 0; invalid := 0; errors := [] |}).
Proof.
  intros self db env limit. cbv zeta.
  destruct (verify_chain_counts self db env limit) as (Ht & Hv & Hi). cbv zeta in Ht, Hv, Hi.
  rewrite select_desc_newest in Ht, Hv, Hi.
  assert (He : errors (verify_chain self db env limit)
               = List.map invalid_signature
                   (List.filter (fun row => negb (row_accepted self env row))
                      (newest_rows db limit))).
  { unfold verify_chain. cbv zeta. rewrite verify_row_error_list, select_desc_newest.
    reflexivity. }
  split.
  { unfold newest_rows. destruct (limit <? 0)%Z.
    - exists []. reflexivity.
    - eexists. symmetry. apply List.firstn_skipn. }
  split; [exact Ht |]. split; [exact Hv |]. split; [exact Hi |]. split; [exact He |].
  split; [rewrite Ht, Hv, Hi; symmetry; apply filter_split_length |].
  split; [rewrite He, Hi; apply List.length_map |].
  rewrite Ht. unfold newest_rows.
  split; [| split].
  - intros Hpos. destruct (Z.ltb_spec limit 0); [lia |].
    rewrite List.length_skipn. lia.
  - intros Hneg. destruct (Z.ltb_spec limit 0); [reflexivity | lia].
  - intros ->. unfold verify_chain, select_desc. reflexivity.
Qed.

(** The rows form a chain from [head]: each is accepted under the
    signature of the row before it, the first under [head]. *)
Fixpoint chained (env : Env) (head : string) (rows : list AuditEntry) : bool :=
  match rows with
  | [] => true
  | row :: rest =>
      row_accepted {| _last_signature := head |} env row && chained env (signature row) rest
  end.

Lemma last_cons_default {A : Type} (x : A) (l : list A) (d d' : A) :
  List.last (x :: l) d = List.last (x :: l) d'.
Proof.
  revert x. induction l as [| y l IH]; intros x; [reflexivity |].
  change (List.last (y :: l) d = List.last (y :: l) d'). apply IH.
Qed.

Lemma log_call_chained (st : t * Database) (c : LogCall) (env' : Env) :
  insert_ok (log_env c) = true ->
  machine_id (log_env c) = machine_id env' ->
  epoch_hour (log_env c) = epoch_hour env' ->
  exists row,
    snd (log_call st c) = snd st ++ [row] /\
    _last_signature (fst (log_call st c)) = signature row /\
    row_accepted {| _last_signature := _last_signature (fst st) |} env' row = true.
Proof.
  intros Hok Hm Hh. unfold log_call, log. cbv zeta. rewrite Hok. cbn [fst snd].
  eexists. split; [reflexivity |]. split; [reflexivity |].
  unfold row_accepted, row_data, _sign_entry, _derive_key.
  cbn [timestamp level action tool parameters authority result signature session_id user_id
       _last_signature].
  rewrite Hm, Hh. apply String.eqb_refl.
Qed.

(** X5.  [log] builds a chain.  Over a sequence of calls on one instance
    whose inserts succeed, made on one machine within one hour: the table
    grows by one row for each call, and every new row carries the
    signature computed, for that machine and hour, under the key derived
    from the signature of the row logged before it; the first one under the
    chain head the instance started with.  The chain head at the end is
    the signature of the last row. *)
Theorem X5_log_builds_chain :
  forall (calls : list LogCall) (self : t) (db : Database) (env' : Env),
    List.Forall (fun c => insert_ok (log_env c) = true /\
                          machine_id (log_env c) = machine_id env' /\
                          epoch_hour (log_env c) = epoch_hour env') calls ->
    let st := log_each (self, db) calls in
    exists rows,
      snd st = db ++ rows /\
      List.length rows = List.length calls /\
      chained env' (_last_signature self) rows = true /\
      _last_signature (fst st) = List.last (List.map signature rows) (_last_signature self).
Proof.
  induction calls as [| c calls IH]; intros self db env' Hall; cbv zeta.
  - exists []. cbn. rewrite List.app_nil_r. repeat split.
  - apply List.Forall_cons_iff in Hall as [(Hok & Hm & Hh) Hall].
    destruct (log_call_chained (self, db) c env' Hok Hm Hh) as (row & Hdb & Hhead & Hacc).
    cbn [fst snd] in Hdb, Hhead, Hacc.
    unfold log_each. cbn [List.fold_left].
    destruct (log_call (self, db) c) as [self1 db1] eqn:Hstep. cbn [fst snd] in Hdb, Hhead.
    subst db1.
    destruct (IH self1 (db ++ [row]) env' Hall) as (rows & Hrows & Hlen & Hchain & Hlast).
    cbv zeta in Hrows, Hlen, Hchain, Hlast. unfold log_each in Hrows, Hlast.
    exists (row :: rows). rewrite Hrows.
    split; [now rewrite <- List.app_assoc |].
    split; [cbn [List.length]; now rewrite Hlen |].
    split.
    + cbn [chained]. rewrite Hacc. cbn [andb]. rewrite <- Hhead. exact Hchain.
    + rewrite Hlast, Hhead. cbn [List.map].
      destruct rows as [| row' rows']; [reflexivity |].
      cbn [List.map]. symmetry. etransitivity; [| apply last_cons_default].
      reflexivity.
Qed.

(** The number of placeholders of a statement. *)
Definition placeholders (statement : string) : nat :=
  List.length (List.filter (Ascii.eqb "?"%char) (Py.chars statement)).

(** Whether an optional argument adds a filter. *)
Definition given (x : option string) : bool :=
  match x with
  | Some s => negb (String.eqb s EmptyString)
  | None => false
  end.

(** X6.  The statement that [query] builds has as many placeholders as
    there are parameters bound to it: one for each filter argument that is
    neither [None] nor the empty string, and a last one for the limit.  The
    text of the statement depends on which arguments are given and not on
    their values, which reach the database as bound parameters only. *)
Theorem X6_query_statement_binds_its_arguments :
  forall (start_time end_time lvl tl : option string) (limit : Z),
    let q := query_statement start_time end_time lvl tl limit in
    placeholders (fst q) = List.length (snd q) /\
    List.length (snd q)
    = 1 + List.length (List.filter given [start_time; end_time; lvl; tl]) /\
    List.last (snd q) (SqlInteger 0) = SqlInteger limit /\
    (forall (start_time' end_time' lvl' tl' : option string) (limit' : Z),
        List.map given [start_time'; end_time'; lvl'; tl']
        = List.map given [start_time; end_time; lvl; tl] ->
        fst (query_statement start_time' end_time' lvl' tl' limit') = fst q).
Proof.
  intros start_time end_time lvl tl limit. cbv zeta.
  assert (Hcase : forall x : option string,
             (given x = false /\ forall clause acc, add_filter clause x acc = acc) \/
             (given x = true /\ exists s, forall clause acc,
                 add_filter clause x acc = (fst acc +:+ clause, snd acc ++ [SqlText s]))).
  { intros [s |]; [| left; split; reflexivity]. unfold given, add_filter.
    destruct (String.eqb s EmptyString); [left; split; reflexivity |].
    right. split; [reflexivity |]. exists s. reflexivity. }
  split; [| split; [| split]].
  - unfold query_statement. cbv zeta.
    destruct (Hcase start_time) as [[_ H1] | [_ [s1 H1]]];
      destruct (Hcase end_time) as [[_ H2] | [_ [s2 H2]]];
      destruct (Hcase lvl) as [[_ H3] | [_ [s3 H3]]];
      destruct (Hcase tl) as [[_ H4] | [_ [s4 H4]]];
      rewrite H1, H2, H3, H4; reflexivity.
  - unfold query_statement. cbv zeta. cbn [List.filter].
    destruct (Hcase start_time) as [[G1 H1] | [G1 [s1 H1]]];
      destruct (Hcase end_time) as [[G2 H2] | [G2 [s2 H2]]];
      destruct (Hcase lvl) as [[G3 H3] | [G3 [s3 H3]]];
      destruct (Hcase tl) as [[G4 H4] | [G4 [s4 H4]]];
      rewrite H1, H2, H3, H4, G1, G2, G3, G4; reflexivity.
  - unfold query_statement. cbv zeta. apply List.last_last.
  - intros a b c d limit' Hsame. cbn [List.map] in Hsame.
    injection Hsame as G1 G2 G3 G4. unfold query_statement. cbv zeta.
    destruct (Hcase start_time) as [[K1 H1] | [K1 [s1 H1]]];
      destruct (Hcase end_time) as [[K2 H2] | [K2 [s2 H2]]];
      destruct (Hcase lvl) as [[K3 H3] | [K3 [s3 H3]]];
      destruct (Hcase tl) as [[K4 H4] | [K4 [s4 H4]]];
      rewrite K1 in G1; rewrite K2 in G2; rewrite K3 in G3; rewrite K4 in G4;
      destruct (Hcase a) as [[L1 J1] | [L1 [t1 J1]]]; try congruence;
      destruct (Hcase b) as [[L2 J2] | [L2 [t2 J2]]]; try congruence;
      destruct (Hcase c) as [[L3 J3] | [L3 [t3 J3]]]; try congruence;
      destruct (Hcase d) as [[L4 J4] | [L4 [t4 J4]]]; try congruence;
      rewrite H1, H2, H3, H4, J1, J2, J3, J4; reflexivity.
Qed.

End AuditLogFacts.

(** ** More on the incident tracker *)

Section TrackerFacts.

Import IncidentTracker.

Context {Callback : Type}.

#[local] Arguments String.eqb : simpl never.

Lemma still_triggered_insert (counts : gmap string nat) (ty : string) (n : nat) :
  still_triggered counts = true ->
  default 0 (counts !! ty) <= n ->
  still_triggered (<[ty := n]> counts) = true.
Proof.
  rewrite !still_triggered_spec. intros (other & m & Hlook & Hle) Hn.
  destruct (decide (ty = other)) as [-> | Hne].
  - exists other, n. rewrite lookup_insert_eq. rewrite Hlook in Hn. cbn in Hn.
    split; [reflexivity | lia].
  - exists other, m. rewrite lookup_insert_ne by exact Hne. split; assumption.
Qed.

Lemma still_triggered_insert_inv (counts : gmap string nat) (ty : string) (n : nat) :
  still_triggered (<[ty := n]> counts) = true ->
  2 <= n \/ still_triggered counts = true.
Proof.
  rewrite !still_triggered_spec. intros (other & m & Hlook & Hle).
  destruct (decide (ty = other)) as [-> | Hne].
  - rewrite lookup_insert_eq in Hlook. injection Hlook as <-. left. exact Hle.
  - rewrite lookup_insert_ne in Hlook by exact Hne. right. exists other, m. split; assumption.
Qed.

Lemma record_keeps_flag_rule (self : t Callback) (env : RecordEnv) (ty d : string)
    (a o : option string) (x : option Json.json) :
  two_strike_triggered self = still_triggered (_session_counts self) ->
  two_strike_triggered (snd (record self env ty d a o x))
  = still_triggered (_session_counts (snd (record self env ty d a o x))).
Proof.
  intros Hinv. rewrite record_flag, record_counts, Hinv.
  apply Bool.eq_iff_eq_true. rewrite Bool.orb_true_iff. split.
  - intros [Hstill | Hcount].
    + apply still_triggered_insert; [exact Hstill | lia].
    + apply still_triggered_spec. exists ty, (default 0 (_session_counts self !! ty) + 1).
      rewrite lookup_insert_eq. split; [reflexivity |]. apply Nat.leb_le. exact Hcount.
  - intros Hstill. apply still_triggered_insert_inv in Hstill as [Hcount | Hstill].
    + right. apply Nat.leb_le. exact Hcount.
    + left. exact Hstill.
Qed.

Lemma resolve_keeps_flag_rule (self : t Callback) (c : ResolveCall) :
  two_strike_triggered self = still_triggered (_session_counts self) ->
  two_strike_triggered (resolve_call self c)
  = still_triggered (_session_counts (resolve_call self c)).
Proof.
  intros Hinv. unfold resolve_call, resolve.
  destruct (find_entry (_log self) (call_id c)) as [entry |]; [| exact Hinv].
  cbv zeta.
  destruct (List.filter _ _) as [| e' open']; cbn [snd two_strike_triggered _session_counts];
    [| exact Hinv].
  destruct (two_strike_triggered self) eqn:Hflag.
  - destruct (still_triggered (<[_ := 0]> _)); reflexivity.
  - destruct (still_triggered (<[_ := 0]> _)) eqn:Hstill; [| reflexivity].
    apply still_triggered_insert_inv in Hstill as [Hzero | Hstill]; [lia |].
    rewrite <- Hinv in Hstill. discriminate Hstill.
Qed.

Lemma call_each_keeps_flag_rule (calls : list (Call Callback)) :
  forall self : t Callback,
    two_strike_triggered self = still_triggered (_session_counts self) ->
    two_strike_triggered (call_each self calls)
    = still_triggered (_session_counts (call_each self calls)).
Proof.
  induction calls as [| c calls IH]; intros self Hinv; [exact Hinv |].
  unfold call_each. cbn [List.fold_left]. apply IH.
  destruct c as [env ty d a o x | c | cb]; cbn [call].
  - apply record_keeps_flag_rule. exact Hinv.
  - apply resolve_keeps_flag_rule. exact Hinv.
  - exact Hinv.
Qed.

(** X7.  Whatever calls of [record], [resolve] and [on_escalation] a
    tracker has gone through since its construction, in whatever order and
    on whatever file, [two_strike_triggered] is set exactly when some
    incident type has a session count of 2 or more. *)
Theorem X7_flag_tracks_session_counts :
  forall (parse_entry : string -> option IncidentEntry) (file : string)
         (calls : list (Call Callback)),
    let self := call_each (init parse_entry file) calls in
    two_strike_triggered self = true
    <-> exists (ty : string) (n : nat), _session_counts self !! ty = Some n /\ 2 <= n.
Proof.
  intros parse_entry file calls. cbv zeta. rewrite <- still_triggered_spec.
  rewrite (call_each_keeps_flag_rule calls (init parse_entry file)); [reflexivity |].
  reflexivity.
Qed.

Lemma find_entry_none (log : list IncidentEntry) (i : string) :
  find_entry log i = None <-> ~ In i (List.map (fun e => id (incident e)) log).
Proof.
  unfold find_entry. induction log as [| e log IH]; cbn [List.find List.map In].
  - tauto.
  - destruct (String.eqb_spec (id (incident e)) i) as [Heq | Hne].
    + split; [discriminate | intros H; exfalso; apply H; left; exact Heq].
    + rewrite IH. tauto.
Qed.




(** The methods other than [record] call no callback and keep the flag
    where [resolve] does not clear it. *)
Definition is_resolve (c : Call Callback) : bool :=
  match c with
  | CallResolve _ => true
  | _ => false
  end.

Lemma call_each_app (self : t Callback) (calls calls' : list (Call Callback)) :
  call_each self (calls ++ calls') = call_each (call_each self calls) calls'.
Proof. unfold call_each. apply List.fold_left_app. Qed.

Lemma record_called (self : t Callback) (env : RecordEnv) (ty d : string)
    (a o : option string) (x : option Json.json) :
  called (snd (record self env ty d a o x))
  = called self ++
    (if negb (two_strike_triggered self) && two_strike_triggered (snd (record self env ty d a o x))
     then List.map (fun cb => (cb, ty, fst (record self env ty d a o x)))
            (_escalation_callbacks self)
     else []) /\
  _escalation_callbacks (snd (record self env ty d a o x)) = _escalation_callbacks self.
Proof.
  unfold record. cbv zeta.
  destruct (2 <=? default 0 (_session_counts self !! ty) + 1);
    destruct (two_strike_triggered self) eqn:Hflag;
    cbn [andb negb snd fst called two_strike_triggered _escalation_callbacks];
    rewrite ?Hflag, ?List.app_nil_r; split; reflexivity.
Qed.

Lemma record_log (self : t Callback) (env : RecordEnv) (ty d : string)
    (a o : option string) (x : option Json.json) :
  _log (snd (record self env ty d a o x))
  = _log self ++
    [{| incident :=
          {| id := fst (record self env ty d a o x); timestamp := utcnow env;
             incident_type := ty; description := d; agent := a; operation := o;
             details := Json.or_empty_dict x; status := "open" |};
        resolution := None; closed_at := None |}].
Proof. unfold record. cbv zeta. destruct (_ && _); reflexivity. Qed.

(** What has been called.  Nothing while the flag is unset.  Once it is
    set: the callbacks registered when it was set, each of them once and in
    the order of their registration, with the type and the id of one
    incident of the log. *)
Definition escalated (self : t Callback) : Prop :=
  if two_strike_triggered self
  then exists (first later : list Callback) (e : IncidentEntry),
         _escalation_callbacks self = first ++ later /\
         In e (_log self) /\
         called self
         = List.map (fun cb => (cb, incident_type (incident e), id (incident e))) first
  else called self = [].

Lemma call_escalated (self : t Callback) (c : Call Callback) :
  is_resolve c = false -> escalated self -> escalated (call self c).
Proof.
  intros Hc Hesc. destruct c as [env ty d a o x | c | cb]; cbn [call is_resolve] in *;
    [| discriminate Hc |].
  - unfold escalated in *.
    destruct (record_called self env ty d a o x) as [Hcalled Hcbs].
    pose proof (record_log self env ty d a o x) as Hlog.
    rewrite Hcalled, Hcbs, Hlog, !record_flag. clear Hcalled Hcbs Hlog.
    destruct (two_strike_triggered self); cbn [orb negb andb].
    + destruct Hesc as (first & later & e & Hsplit & Hin & Hcalled).
      exists first, later, e. rewrite List.app_nil_r.
      split; [exact Hsplit |]. split; [| exact Hcalled].
      apply List.in_or_app. left. exact Hin.
    + rewrite Hesc. cbn [List.app].
      destruct (2 <=? default 0 (_session_counts self !! ty) + 1); [| reflexivity].
      eexists (_escalation_callbacks self), [], _.
      split; [symmetry; apply List.app_nil_r |].
      split; [apply List.in_or_app; right; left; reflexivity |].
      reflexivity.
  - unfold escalated in *. cbn [on_escalation two_strike_triggered called _log
                                _escalation_callbacks].
    destruct (two_strike_triggered self); [| exact Hesc].
    destruct Hesc as (first & later & e & Hsplit & Hin & Hcalled).
    exists first, (later ++ [cb]), e. rewrite Hsplit, List.app_assoc. repeat split; assumption.
Qed.

Lemma calls_without_resolve (calls : list (Call Callback)) :
  forall self : t Callback,
    List.forallb (fun c => negb (is_resolve c)) calls = true ->
    escalated self -> escalated (call_each self calls).
Proof.
  induction calls as [| c calls IH]; intros self Hnone Hesc; [exact Hesc |].
  cbn [List.forallb] in Hnone. apply Bool.andb_true_iff in Hnone as [Hc Hnone].
  unfold call_each. cbn [List.fold_left]. apply IH; [exact Hnone |].
  apply call_escalated; [| exact Hesc]. destruct (is_resolve c); [discriminate Hc | reflexivity].
Qed.

(** X9.  Between resolutions the escalation is made once.  From the
    construction of the tracker, over any sequence of calls of [record]
    and [on_escalation], with however many incidents of however many
    types: no callback has been called while the flag is unset.  The call
    of [record] that sets the flag, the second one for a type, calls every
    callback registered, once each and in the order of registration, with
    the type and the id of its incident.  From then on nothing more is
    called: what has been called is that one round, the callbacks
    registered later have not been called, and the incidents recorded
    while the flag is set call none. *)
Theorem X9_escalation_made_once :
  forall (parse_entry : string -> option IncidentEntry) (file : string)
         (calls : list (Call Callback)),
    List.forallb (fun c => negb (is_resolve c)) calls = true ->
    let self := call_each (init parse_entry file) calls in
    (two_strike_triggered self = false -> called self = []) /\
    (two_strike_triggered self = true ->
     exists (first later : list Callback) (e : IncidentEntry),
       _escalation_callbacks self = first ++ later /\
       In e (_log self) /\
       called self
       = List.map (fun cb => (cb, incident_type (incident e), id (incident e))) first) /\
    List.length (called self) <= List.length (_escalation_callbacks self) /\
    (forall (env : RecordEnv) (ty d : string) (a o : option string) (x : option Json.json),
        two_strike_triggered self = false ->
        1 <= default 0 (_session_counts self !! ty) ->
        let out := record self env ty d a o x in
        two_strike_triggered (snd out) = true /\
        called (snd out)
        = List.map (fun cb => (cb, ty, fst out)) (_escalation_callbacks self)) /\
    (forall (env : RecordEnv) (ty d : string) (a o : option string) (x : option Json.json),
        two_strike_triggered self = true ->
        called (snd (record self env ty d a o x)) = called self).
Proof.
  intros parse_entry file calls Hnone. cbv zeta.
  pose proof (calls_without_resolve calls (init parse_entry file) Hnone eq_refl) as Hesc.
  unfold escalated in Hesc.
  set (self := call_each (init parse_entry file) calls) in *.
  split; [| split; [| split; [| split]]].
  - intros Hflag. rewrite Hflag in Hesc. exact Hesc.
  - intros Hflag. rewrite Hflag in Hesc. exact Hesc.
  - destruct (two_strike_triggered self).
    + destruct Hesc as (first & later & e & Hsplit & _ & Hcalled).
      rewrite Hcalled, Hsplit, List.length_map, List.length_app. lia.
    + rewrite Hesc. cbn [List.length]. lia.
  - intros env ty d a o x Hflag Hcount.
    destruct (record_called self env ty d a o x) as [Hcalled _].
    rewrite Hflag in Hesc. rewrite Hcalled, record_flag, Hflag, Hesc. cbn [orb negb andb].
    assert (Hle : (2 <=? default 0 (_session_counts self !! ty) + 1) = true)
      by (apply Nat.leb_le; lia).
    rewrite Hle. split; reflexivity.
  - intros env ty d a o x Hflag.
    destruct (record_called self env ty d a o x) as [Hcalled _].
    rewrite Hcalled, Hflag. cbn [negb andb]. apply List.app_nil_r.
Qed.

(** The write to the file that the call makes, if it makes one, is
    completed. *)
Definition written (c : Call Callback) : bool :=
  match c with
  | CallRecord env _ _ _ _ _ =>
      match append_ends env with
      | Completed => true
      | _ => false
      end
  | CallResolve c =>
      match rewrite_ends (call_env c) with
      | Completed => true
      | _ => false
      end
  | CallOnEscalation _ => true
  end.

Lemma append_empty (s : string) : s +:+ EmptyString = s.
Proof.
  induction s as [| c s IH]; [reflexivity |].
  change (String c s +:+ EmptyString) with (String c (s +:+ EmptyString)). now rewrite IH.
Qed.

Lemma append_associative (a b c : string) : (a +:+ b) +:+ c = a +:+ b +:+ c.
Proof.
  induction a as [| x a IH]; [reflexivity |].
  change ((String x a +:+ b) +:+ c) with (String x ((a +:+ b) +:+ c)). now rewrite IH.
Qed.

Lemma file_text_app (log : list IncidentEntry) (e : IncidentEntry) :
  file_text (log ++ [e]) = file_text log +:+ entry_line e +:+ line_feed.
Proof.
  induction log as [| a log IH]; cbn [List.app file_text].
  - rewrite append_empty. reflexivity.
  - rewrite IH, !append_associative. reflexivity.
Qed.

Lemma call_keeps_file (self : t Callback) (c : Call Callback) :
  written c = true ->
  jsonl self = file_text (_log self) ->
  jsonl (call self c) = file_text (_log (call self c)).
Proof.
  intros Hok Hsync. destruct c as [env ty d a o x | c | cb]; cbn [call written] in *.
  - rewrite record_log, file_text_app, <- Hsync.
    unfold record. cbv zeta. destruct (append_ends env); try discriminate Hok.
    destruct (_ && _); reflexivity.
  - unfold resolve_call, resolve. destruct (find_entry _ _); [| exact Hsync].
    cbv zeta. destruct (rewrite_ends (call_env c)); try discriminate Hok.
    destruct (List.filter _ _); reflexivity.
  - exact Hsync.
Qed.

Lemma file_lines_some (text : string) : file_lines text <> [].
Proof.
  destruct text as [| c text]; cbn [file_lines]; [discriminate |].
  destruct (is_line_end c); [discriminate |]. destruct (file_lines text); discriminate.
Qed.

(** The lines of a text cut at the end of a line. *)
Lemma file_lines_app (a b : string) (c : ascii) :
  is_line_end c = true ->
  file_lines (a +:+ String c b) = file_lines a ++ file_lines b.
Proof.
  intros Hc. induction a as [| x a IH].
  - change (EmptyString +:+ String c b) with (String c b). cbn [file_lines]. rewrite Hc.
    reflexivity.
  - change (String x a +:+ String c b) with (String x (a +:+ String c b)).
    cbn [file_lines]. rewrite IH. destruct (is_line_end x); [reflexivity |].
    pose proof (file_lines_some a) as Hsome.
    destruct (file_lines a) as [| line lines]; [contradiction | reflexivity].
Qed.

Lemma file_lines_one (line : string) :
  List.existsb is_line_end (Py.chars line) = false -> file_lines line = [line].
Proof.
  induction line as [| c line IH]; [reflexivity |].
  change (Py.chars (String c line)) with (c :: Py.chars line). cbn [List.existsb].
  intros H. apply Bool.orb_false_iff in H as [Hc Hrest].
  cbn [file_lines]. rewrite Hc, (IH Hrest). reflexivity.
Qed.

(** The loop of [_load] ends at a line that cannot be parsed. *)
Lemma load_lines_stops (parse_entry : string -> option IncidentEntry)
    (before : list string) (bad : string) (after : list string) :
  Py.strip bad <> EmptyString ->
  parse_entry (Py.strip bad) = None ->
  load_lines parse_entry (before ++ bad :: after) = load_lines parse_entry before.
Proof.
  intros Hsome Hbad. induction before as [| line before IH]; cbn [List.app load_lines].
  - destruct (String.eqb_spec (Py.strip bad) EmptyString); [contradiction |].
    rewrite Hbad. reflexivity.
  - destruct (String.eqb (Py.strip line) EmptyString); [exact IH |].
    destruct (parse_entry (Py.strip line)); [now rewrite IH | reflexivity].
Qed.

(** X10.  The file follows the log.  On a file that holds the lines the
    tracker writes for the entries it reads from it, and nothing else (so
    when there is no file, or an empty one), and when every write is
    completed: the file is at every point the text of the log in memory,
    one line of [json.dumps] for each entry, resolutions included.  A call
    of [record] whose write cannot open the file leaves the entry in the
    log and the file as it was.  Whatever the file holds, and whether it
    has been read to the end or not, a call of [resolve] that finds its
    incident replaces it: by the text of the log when the write is
    completed, and by the first characters of that text when the write is
    interrupted.  And a file is not always read to the end: what follows a
    line that cannot be parsed is not read, so that the log is then not
    the file, and the next [resolve] drops from the file what was not
    read. *)
Theorem X10_file_follows_log :
  forall (parse_entry : string -> option IncidentEntry) (file : string)
         (calls : list (Call Callback)),
    file = file_text (_load parse_entry file) ->
    List.forallb written calls = true ->
    let self := call_each (init parse_entry file) calls in
    jsonl self = file_text (_log self) /\
    (forall (env : RecordEnv) (ty d : string) (a o : option string) (x : option Json.json),
        append_ends env = OpenFailed ->
        jsonl (snd (record self env ty d a o x)) = jsonl self /\
        List.length (_log (snd (record self env ty d a o x))) = S (List.length (_log self))) /\
    (forall (other : t Callback) (c : ResolveCall),
        In (call_id c) (ids other) ->
        (rewrite_ends (call_env c) = Completed ->
         jsonl (resolve_call other c) = file_text (_log (resolve_call other c))) /\
        (forall n, rewrite_ends (call_env c) = Interrupted n ->
                   jsonl (resolve_call other c)
                   = Py.take_string n (file_text (_log (resolve_call other c))))) /\
    (forall (before bad after : string),
        List.existsb is_line_end (Py.chars bad) = false ->
        Py.strip bad <> EmptyString ->
        parse_entry (Py.strip bad) = None ->
        _log (init (Callback := Callback) parse_entry
                (before +:+ line_feed +:+ bad +:+ line_feed +:+ after))
        = _log (init (Callback := Callback) parse_entry before)).
Proof.
  intros parse_entry file calls Hfile Hall. cbv zeta. split; [| split; [| split]].
  - revert Hall.
    assert (Hstart : jsonl (init (Callback := Callback) parse_entry file)
                     = file_text (_log (init (Callback := Callback) parse_entry file)))
      by exact Hfile.
    revert Hstart. generalize (init (Callback := Callback) parse_entry file).
    induction calls as [| c calls IH]; intros self Hsync Hall; [exact Hsync |].
    cbn [List.forallb] in Hall. apply Bool.andb_true_iff in Hall as [Hc Hall].
    unfold call_each. cbn [List.fold_left]. apply IH; [| exact Hall].
    apply call_keeps_file; assumption.
  - intros env ty d a o x Hfail. rewrite record_log, List.length_app. cbn [List.length].
    split; [| lia]. unfold record. cbv zeta. rewrite Hfail.
    destruct (_ && _); reflexivity.
  - intros other c Hin. unfold resolve_call, resolve.
    destruct (find_entry (_log other) (call_id c)) eqn:Hfind.
    + cbv zeta. split.
      * intros Hok. rewrite Hok. destruct (List.filter _ _); reflexivity.
      * intros n Hcut. rewrite Hcut. destruct (List.filter _ _); reflexivity.
    + apply find_entry_none in Hfind. contradiction.
  - intros before bad after Hline Hsome Hbad. cbn [init _log]. unfold _load.
    change (line_feed +:+ bad +:+ line_feed +:+ after)
      with (String (Py.chr 10) (bad +:+ String (Py.chr 10) after)).
    rewrite !file_lines_app by reflexivity.
    rewrite (file_lines_one bad Hline). cbn [List.app].
    apply load_lines_stops; assumption.
Qed.

Lemma find_entry_app (log : list IncidentEntry) (e : IncidentEntry) (i : string) :
  find_entry (log ++ [e]) i
  = match find_entry log i with
    | Some e' => Some e'
    | None => if String.eqb (id (incident e)) i then Some e else None
    end.
Proof.
  unfold find_entry. induction log as [| e' log IH]; [reflexivity |].
  cbn [List.app List.find]. destruct (String.eqb (id (incident e')) i); [reflexivity | exact IH].
Qed.

(** X11.  [record] adds the incident at the end of the log, open, with an
    empty dict for details that are [None] or empty, and returns its id,
    built from the day and the first six hexadecimal digits of a uuid.  The
    incident is found again under that id when the id is new.  When the id
    is the one of an older entry of the log, which nothing excludes, it is
    the older entry that [get_by_id] and [resolve] find. *)
Theorem X11_record_appends_open_incident :
  forall (self : t Callback) (env : RecordEnv) (ty d : string) (a o : option string)
         (x : option Json.json),
    let out := record self env ty d a o x in
    let entry :=
      {| incident :=
           {| id := fst out; timestamp := utcnow env; incident_type := ty; description := d;
              agent := a; operation := o; details := Json.or_empty_dict x; status := "open" |};
         resolution := None; closed_at := None |} in
    fst out = "INC-" +:+ today env +:+ "-" +:+ Py.upper (Py.take_string 6 (uuid_hex env)) /\
    get_all (snd out) = get_all self ++ [entry] /\
    get_open (snd out) = get_open self ++ [entry] /\
    (~ In (fst out) (ids self) -> get_by_id (snd out) (fst out) = Some entry) /\
    (In (fst out) (ids self) ->
     get_by_id (snd out) (fst out) = get_by_id self (fst out) /\
     exists older, get_by_id self (fst out) = Some older /\ In older (get_all self)).
Proof.
  intros self env ty d a o x. cbv zeta.
  assert (Hlog : _log (snd (record self env ty d a o x))
                 = _log self ++
                   [{| incident :=
                         {| id := fst (record self env ty d a o x); timestamp := utcnow env;
                            incident_type := ty; description := d; agent := a; operation := o;
                            details := Json.or_empty_dict x; status := "open" |};
                       resolution := None; closed_at := None |}]).
  { unfold record. cbv zeta. destruct (_ && _); reflexivity. }
  assert (Hid : fst (record self env ty d a o x)
                = "INC-" +:+ today env +:+ "-" +:+ Py.upper (Py.take_string 6 (uuid_hex env))).
  { unfold record. cbv zeta. destruct (_ && _); reflexivity. }
  unfold get_all, get_open, get_by_id, ids. rewrite Hlog.
  split; [exact Hid |]. split; [reflexivity |].
  split.
  { rewrite List.filter_app. cbn [List.filter incident status].
    change (String.eqb "open" "resolved") with false. reflexivity. }
  rewrite find_entry_app. cbn [incident id]. rewrite String.eqb_refl.
  split.
  - intros Hnew. apply find_entry_none in Hnew. rewrite Hnew. reflexivity.
  - intros Hold.
    destruct (find_entry (_log self) (fst (record self env ty d a o x))) as [older |] eqn:Hfind.
    + split; [reflexivity |]. exists older. split; [reflexivity |].
      unfold find_entry in Hfind. apply List.find_some in Hfind. tauto.
    + apply find_entry_none in Hfind. contradiction.
Qed.

End TrackerFacts.

(** ** The lines of the incident file *)

Section JsonInduction.

Variable P : Json.json -> Prop.

Hypothesis Hnull : P Json.JNull.
Hypothesis Hbool : forall b, P (Json.JBool b).
Hypothesis Hint : forall z, P (Json.JInt z).
Hypothesis Hstr : forall s, P (Json.JStr s).
Hypothesis Hlist : forall l, List.Forall P l -> P (Json.JList l).
Hypothesis Hdict : forall l, List.Forall (fun kv => P (snd kv)) l -> P (Json.JDict l).

(** Induction on a JSON value, with the property for the items of a list
    and for the values of a dict. *)
Fixpoint json_nested_ind (j : Json.json) : P j :=
  match j with
  | Json.JNull => Hnull
  | Json.JBool b => Hbool b
  | Json.JInt z => Hint z
  | Json.JStr s => Hstr s
  | Json.JList l =>
      Hlist l ((fix items (l : list Json.json) : List.Forall P l :=
                  match l with
                  | [] => @List.Forall_nil _ P
                  | x :: l' => @List.Forall_cons _ P x l' (json_nested_ind x) (items l')
                  end) l)
  | Json.JDict l =>
      Hdict l ((fix items (l : list (string * Json.json))
                  : List.Forall (fun kv => P (snd kv)) l :=
                  match l with
                  | [] => @List.Forall_nil _ (fun kv => P (snd kv))
                  | kv :: l' =>
                      @List.Forall_cons _ (fun kv => P (snd kv)) kv l'
                        (json_nested_ind (snd kv)) (items l')
                  end) l)
  end.

End JsonInduction.

Section LineFacts.

Import IncidentTracker.

(** The number of line feeds of a text. *)
Definition line_feeds (s : string) : nat :=
  List.length (List.filter (Ascii.eqb (Py.chr 10)) (Py.chars s)).

Lemma line_feeds_app (a b : string) : line_feeds (a +:+ b) = line_feeds a + line_feeds b.
Proof.
  unfold line_feeds. rewrite chars_append, List.filter_app, List.length_app. reflexivity.
Qed.

Lemma line_feeds_of_chars (l : list ascii) :
  line_feeds (Py.of_chars l) = List.length (List.filter (Ascii.eqb (Py.chr 10)) l).
Proof. unfold line_feeds. now rewrite chars_of_chars. Qed.

Lemma escape_char_line (c : ascii) :
  List.filter (Ascii.eqb (Py.chr 10)) (Json.escape_char c) = [].
Proof. destruct c as [[] [] [] [] [] [] [] []]; reflexivity. Qed.

Lemma quote_line (s : string) : line_feeds (Json.quote s) = 0.
Proof.
  unfold Json.quote. rewrite line_feeds_of_chars, !List.filter_app.
  assert (H : List.filter (Ascii.eqb (Py.chr 10))
                (List.concat (List.map Json.escape_char (Py.chars s))) = []).
  { induction (Py.chars s) as [| c l IH]; [reflexivity |].
    cbn [List.map List.concat]. now rewrite List.filter_app, escape_char_line, IH. }
  rewrite H. reflexivity.
Qed.

Lemma string_of_uint_line (d : Decimal.uint) : line_feeds (NilEmpty.string_of_uint d) = 0.
Proof. induction d; cbn [NilEmpty.string_of_uint]; first [reflexivity | exact IHd]. Qed.

Lemma str_of_Z_line (z : Z) : line_feeds (Py.str_of_Z z) = 0.
Proof.
  unfold Py.str_of_Z, NilZero.string_of_int, NilZero.string_of_uint.
  destruct (Z.to_int z) as [d | d]; destruct d; cbn [NilEmpty.string_of_uint];
    first [reflexivity | apply string_of_uint_line
          | change (line_feeds ("-" +:+ NilEmpty.string_of_uint d) = 0);
            rewrite line_feeds_app; apply string_of_uint_line
          | idtac].
  all: try (change (line_feeds (String "-" (NilEmpty.string_of_uint d)) = 0);
            apply string_of_uint_line).
Qed.

Lemma join_line (sep : string) (l : list string) :
  line_feeds sep = 0 ->
  List.Forall (fun s => line_feeds s = 0) l ->
  line_feeds (Py.join sep l) = 0.
Proof.
  intros Hsep Hall. induction Hall as [| x l Hx Hall IH]; [reflexivity |].
  destruct l as [| y l]; [exact Hx |].
  change (Py.join sep (x :: y :: l)) with (x +:+ sep +:+ Py.join sep (y :: l)).
  rewrite !line_feeds_app, Hx, Hsep, IH. reflexivity.
Qed.

Lemma insert_item_line (kv : string * string) (l : list (string * string)) :
  line_feeds (snd kv) = 0 ->
  List.Forall (fun kv => line_feeds (snd kv) = 0) l ->
  List.Forall (fun kv => line_feeds (snd kv) = 0) (Json.insert_item kv l).
Proof.
  intros Hkv Hall. induction Hall as [| kv' l Hkv' Hall IH]; cbn [Json.insert_item].
  - constructor; [exact Hkv | constructor].
  - destruct (String.leb _ _); constructor; try assumption. constructor; assumption.
Qed.

Lemma sort_items_line (l : list (string * string)) :
  List.Forall (fun kv => line_feeds (snd kv) = 0) l ->
  List.Forall (fun kv => line_feeds (snd kv) = 0) (Json.sort_items l).
Proof.
  intros Hall. unfold Json.sort_items. induction Hall as [| kv l Hkv Hall IH]; cbn [List.fold_right].
  - constructor.
  - apply insert_item_line; assumption.
Qed.

Lemma render_item_line (kv : string * string) :
  line_feeds (snd kv) = 0 -> line_feeds (Json.render_item kv) = 0.
Proof.
  intros Hkv. unfold Json.render_item. rewrite !line_feeds_app, quote_line, Hkv. reflexivity.
Qed.

(** The text of [json.dumps] holds no line feed: the one of a string is
    written as a backslash and the letter n. *)
Lemma dumps_line (sort_keys : bool) (j : Json.json) : line_feeds (Json.dumps sort_keys j) = 0.
Proof.
  induction j using json_nested_ind.
  - reflexivity.
  - destruct b; reflexivity.
  - apply str_of_Z_line.
  - apply quote_line.
  - cbn [Json.dumps]. rewrite !line_feeds_app.
    rewrite join_line; [reflexivity | reflexivity |].
    apply List.Forall_map. exact H.
  - cbn [Json.dumps]. rewrite !line_feeds_app.
    rewrite join_line; [reflexivity | reflexivity |].
    apply List.Forall_map.
    match goal with
    | |- List.Forall _ (if sort_keys then Json.sort_items ?items else ?items) =>
        assert (Hitems : List.Forall (fun kv => line_feeds (snd kv) = 0) items)
    end.
    { induction H as [| [k v] l Hv Hall IH]; [constructor |].
      constructor; [exact Hv | exact IH]. }
    destruct sort_keys; [apply sort_items_line in Hitems |];
      (eapply List.Forall_impl; [| exact Hitems]); intros kv Hkv; apply render_item_line; exact Hkv.
Qed.

Context {Callback : Type}.

(** X12.  One line for one incident.  The text that [json.dumps] gives for
    an entry holds no line feed, whatever the description, the details and
    the other strings of the incident contain, so that [export_jsonl] has
    exactly one line for each entry of the log: one line feed fewer than
    there are entries. *)
Theorem X12_export_has_one_line_per_entry :
  forall self : t Callback,
    (forall e : IncidentEntry, line_feeds (entry_line e) = 0) /\
    line_feeds (export_jsonl self) = List.length (_log self) - 1.
Proof.
  intros self. split; [intros e; apply dumps_line |].
  unfold export_jsonl. induction (_log self) as [| e log IH]; [reflexivity |].
  destruct log as [| e' log]; [apply dumps_line |].
  change (Py.join line_feed (List.map entry_line (e :: e' :: log)))
    with (entry_line e +:+ line_feed +:+ Py.join line_feed (List.map entry_line (e' :: log))).
  rewrite !line_feeds_app, IH. unfold entry_line at 1. rewrite dumps_line.
  cbn [List.length]. change (line_feeds line_feed) with 1. lia.
Qed.

End LineFacts.

(** ** More on the Constitution *)

Section ConstitutionRules.

Import Constitution.

#[local] Arguments String.eqb : simpl never.

Lemma startswith_app_sep (p a b : string) (c : ascii) :
  List.existsb (Ascii.eqb c) (Py.chars p) = false ->
  Py.startswith p (a +:+ String c b) = Py.startswith p a.
Proof.
  revert a. induction p as [| x p IH]; intros a Hc; [destruct a; reflexivity |].
  change (Py.chars (String x p)) with (x :: Py.chars p) in Hc.
  cbn [List.existsb] in Hc. apply Bool.orb_false_iff in Hc as [Hx Hp].
  destruct a as [| d a].
  - change (EmptyString +:+ String c b) with (String c b).
    cbn [Py.startswith]. rewrite Ascii.eqb_sym, Hx. reflexivity.
  - change (String d a +:+ String c b) with (String d (a +:+ String c b)).
    cbn [Py.startswith]. destruct (Ascii.eqb x d); [apply IH; exact Hp | reflexivity].
Qed.

(** A text that does not hold the separator is found in two texts joined
    by it exactly when it is found in one of them. *)
Lemma contains_app_sep (p a b : string) (c : ascii) :
  p <> EmptyString ->
  List.existsb (Ascii.eqb c) (Py.chars p) = false ->
  Py.contains p (a +:+ String c b) = Py.contains p a || Py.contains p b.
Proof.
  intros Hp Hc. induction a as [| d a IH].
  - change (EmptyString +:+ String c b) with (String c b). cbn [Py.contains].
    destruct p as [| x p]; [congruence |].
    change (Py.chars (String x p)) with (x :: Py.chars p) in Hc.
    cbn [List.existsb] in Hc. apply Bool.orb_false_iff in Hc as [Hx _].
    cbn [Py.startswith]. rewrite Ascii.eqb_sym, Hx. reflexivity.
  - change (String d a +:+ String c b) with (String d (a +:+ String c b)).
    cbn [Py.contains]. rewrite IH.
    change (String d (a +:+ String c b)) with (String d a +:+ String c b).
    rewrite (startswith_app_sep p (String d a) b c Hc).
    now rewrite Bool.orb_assoc.
Qed.

(** Where one of the harmful keywords is looked for: the skill name, the
    description and the JSON text of the parameters, in lower case. *)
Definition keyword_in_fields (op : Operation) (keyword : string) : bool :=
  Py.contains keyword (Py.lower (skill_name op))
  || Py.contains keyword (Py.lower (description op))
  || Py.contains keyword (Py.lower (Json.dumps false (parameters op))).

Lemma keyword_in_text (op : Operation) (keyword : string) :
  keyword <> EmptyString ->
  List.existsb (Ascii.eqb " "%char) (Py.chars keyword) = false ->
  Py.contains keyword (Py.lower (operation_text op)) = keyword_in_fields op keyword.
Proof.
  intros Hne Hsp. unfold operation_text, keyword_in_fields.
  rewrite !lower_append.
  change (Py.lower " ") with (String " "%char EmptyString).
  change (String " " EmptyString +:+ ?x) with (String " "%char x).
  rewrite (contains_app_sep keyword (Py.lower (skill_name op)) _ " "%char Hne Hsp).
  change (String " " EmptyString +:+ ?x) with (String " "%char x).
  rewrite (contains_app_sep keyword (Py.lower (description op)) _ " "%char Hne Hsp).
  now rewrite Bool.orb_assoc.
Qed.

(** X13.  The Prime Directive check looks for eleven words and for nothing
    else: an operation violates the Prime Directive exactly when its skill
    name, its description or the JSON text of its parameters holds one of
    them, whatever the case of the letters.  No match runs from one of the
    three texts into the next. *)
Theorem X13_prime_directive_is_a_keyword_search :
  forall op : Operation,
    _violates_prime_directive op = List.existsb (keyword_in_fields op) harmful_keywords.
Proof.
  intros op. unfold _violates_prime_directive. cbv zeta.
  unfold harmful_keywords. cbn [List.existsb].
  rewrite !keyword_in_text by first [discriminate | reflexivity]. reflexivity.
Qed.

Lemma enforce_all_raises_prime (cs : list ConstitutionalConstraint) (op : Operation)
    (v : Violation) :
  enforce_all cs op = Some v -> exists m, v = PrimeDirectiveViolation m.
Proof.
  induction cs as [| c cs IH]; cbn [enforce_all]; [discriminate |].
  assert (Hone : forall v', _enforce_constraint c op = Some v' ->
                            exists m, v' = PrimeDirectiveViolation m).
  { unfold _enforce_constraint. intros v'.
    destruct (String.eqb _ "advisory"); [discriminate |].
    destruct (String.eqb _ "logging"); [discriminate |].
    destruct (_ && _); [| discriminate]. intros H. injection H as <-. eexists. reflexivity. }
  destruct (bool_decide _); [| exact IH].
  destruct (_enforce_constraint c op) as [v' |]; [| exact IH].
  intros H. injection H as <-. apply Hone. reflexivity.
Qed.

Lemma check_prohibited_raises (op : Operation) (v : Violation) :
  _check_prohibited_operations op = Some v -> exists m, v = ProhibitedOperationViolation m.
Proof.
  unfold _check_prohibited_operations. cbv zeta.
  destruct (Py.contains "self_replicate" _); [intros H; injection H as <-; eexists; reflexivity |].
  destruct (_ && _); [intros H; injection H as <-; eexists; reflexivity | discriminate].
Qed.

Lemma validate_default (op : Operation) :
  validate_operation (make None) op
  = if _violates_prime_directive op
    then inr (PrimeDirectiveViolation
                ("Operation " +:+ operation_id op +:+ " violates Prime Directive: "
                 +:+ PRIME_DIRECTIVE))
    else match _check_prohibited_operations op with
         | Some v => inr v
         | None => inl true
         end.
Proof.
  unfold validate_operation. rewrite make_verify_immutability. cbn [negb].
  destruct (_violates_prime_directive op) eqn:Hviolates.
  - unfold make. cbn [constraints]. unfold _load_default_constraints.
    cbn [enforce_all authority_levels].
    rewrite bool_decide_eq_true_2
      by (unfold Authority.all_levels; destruct (authority_level op); set_solver).
    unfold _enforce_constraint. cbn [enforcement article constraint_description].
    change (String.eqb "strict" "advisory") with false.
    change (String.eqb "strict" "logging") with false.
    change (String.eqb "ARTICLE_I_SECTION_1" "ARTICLE_I_SECTION_1") with true.
    rewrite Hviolates. reflexivity.
  - rewrite (enforce_all_safe _ op Hviolates). reflexivity.
Qed.

(** X14.  What [validate_operation] can answer.  It returns [True] or
    raises; it never raises [InsufficientAuthorityViolation], whatever the
    Constitution and the operation.  Under the default Constitution it
    raises [PrimeDirectiveViolation] when the keyword search matches,
    otherwise [ProhibitedOperationViolation] when the skill name is a
    prohibited one, and otherwise returns [True]; the agent and the
    authority level of the operation play no part in the answer. *)
Theorem X14_validate_operation_answers :
  forall (self : t) (op : Operation),
    validate_operation self op <> inl false /\
    (forall m, validate_operation self op <> inr (InsufficientAuthorityViolation m)) /\
    validate_operation (make None) op
    = (if _violates_prime_directive op
       then inr (PrimeDirectiveViolation
                   ("Operation " +:+ operation_id op +:+ " violates Prime Directive: "
                    +:+ PRIME_DIRECTIVE))
       else match _check_prohibited_operations op with
            | Some v => inr v
            | None => inl true
            end) /\
    (forall (agent : string) (lvl : Authority.AuthorityLevel),
        validate_operation (make None)
          {| operation_id := operation_id op; agent_id := agent; skill_name := skill_name op;
             parameters := parameters op; authority_level := lvl;
             description := description op |}
        = validate_operation (make None) op).
Proof.
  intros self op.
  assert (Hshape : forall r, validate_operation self op = r ->
            r = inl true \/
            (exists m, r = inr (ConstitutionalViolation m)) \/
            (exists m, r = inr (PrimeDirectiveViolation m)) \/
            (exists m, r = inr (ProhibitedOperationViolation m))).
  { intros r <-. unfold validate_operation.
    destruct (negb _); [right; left; eexists; reflexivity |].
    destruct (enforce_all _ op) as [v |] eqn:Henforce.
    - apply enforce_all_raises_prime in Henforce as [m ->]. right; right; left. eexists. reflexivity.
    - destruct (_check_prohibited_operations op) as [v |] eqn:Hcheck; [| left; reflexivity].
      apply check_prohibited_raises in Hcheck as [m ->]. right; right; right. eexists. reflexivity. }
  split; [| split; [| split]].
  - intros H. destruct (Hshape _ H) as [H' | [[m H'] | [[m H'] | [m H']]]]; discriminate H'.
  - intros m H. destruct (Hshape _ H) as [H' | [[m' H'] | [[m' H'] | [m' H']]]]; discriminate H'.
  - apply validate_default.
  - intros agent lvl. rewrite !validate_default. reflexivity.
Qed.

(** The constraint after an assignment to its attribute [enforcement]. *)
Definition set_enforcement (c : ConstitutionalConstraint) (e : string) : ConstitutionalConstraint :=
  {| article := article c; title := title c;
     constraint_description := constraint_description c;
     authority_levels := authority_levels c; enforcement := e |}.

(** The Constitution after [c.enforcement = e] for each of its
    constraints. *)
Definition with_enforcement (self : t) (e : string) : t :=
  {| version := version self; prime_directive := prime_directive self;
     authority_hierarchy := authority_hierarchy self;
     constraints := List.map (fun c => set_enforcement c e) (constraints self);
     _immutable_hash := _immutable_hash self |}.

Lemma enforce_all_relaxed (cs : list ConstitutionalConstraint) (e : string) (op : Operation) :
  e = "advisory" \/ e = "logging" ->
  enforce_all (List.map (fun c => set_enforcement c e) cs) op = None.
Proof.
  intros He. induction cs as [| c cs IH]; [reflexivity |].
  cbn [List.map enforce_all]. rewrite IH.
  assert (Hone : _enforce_constraint (set_enforcement c e) op = None).
  { unfold _enforce_constraint, set_enforcement. cbn [enforcement].
    destruct He as [-> | ->]; reflexivity. }
  rewrite Hone. destruct (bool_decide _); reflexivity.
Qed.

(** X15.  The enforcement of a constraint is no part of what the
    integrity check covers.  The hash of the Constitution is computed from
    the version, the Prime Directive, the hierarchy and, of each constraint,
    the article, the title, the description and the levels: after the
    attribute [enforcement] of the constraints has been assigned any value,
    the hash and the result of [verify_immutability] are as before.  With
    "advisory" or "logging" assigned to the constraints of a Constitution
    just constructed, the integrity check passes and [validate_operation]
    raises [PrimeDirectiveViolation] for no operation. *)
Theorem X15_enforcement_is_outside_the_hash :
  forall (self : t) (e : string),
    _compute_hash (with_enforcement self e) = _compute_hash self /\
    verify_immutability (with_enforcement self e) = verify_immutability self /\
    (e = "advisory" \/ e = "logging" ->
     forall (cs : option (list ConstitutionalConstraint)) (op : Operation),
       verify_immutability (with_enforcement (make cs) e) = true /\
       validate_operation (with_enforcement (make cs) e) op
       = match _check_prohibited_operations op with
         | Some v => inr v
         | None => inl true
         end).
Proof.
  intros self e.
  assert (Hhash : _compute_hash (with_enforcement self e) = _compute_hash self).
  { unfold _compute_hash, with_enforcement, hash_of.
    cbn [version prime_directive authority_hierarchy constraints].
    rewrite List.map_map. reflexivity. }
  split; [exact Hhash |].
  assert (Hverify : forall s, verify_immutability (with_enforcement s e) = verify_immutability s).
  { intros s. unfold verify_immutability.
    assert (Hs : _compute_hash (with_enforcement s e) = _compute_hash s).
    { unfold _compute_hash, with_enforcement, hash_of.
      cbn [version prime_directive authority_hierarchy constraints].
      rewrite List.map_map. reflexivity. }
    rewrite Hs. reflexivity. }
  split; [apply Hverify |].
  intros He cs op.
  assert (Hok : verify_immutability (with_enforcement (make cs) e) = true)
    by (rewrite Hverify; apply make_verify_immutability).
  split; [exact Hok |].
  unfold validate_operation. rewrite Hok. cbn [negb].
  unfold with_enforcement at 1. cbn [constraints].
  rewrite (enforce_all_relaxed _ e op He). reflexivity.
Qed.

End ConstitutionRules.

(** ** More on the governance kernel *)

Section KernelBookkeeping.

Import OraKernel.

Context (lib : Gates.Lib).

#[local] Opaque Constitution.hash_of.
#[local] Arguments ImmutableAuditLog._sign_entry : simpl never.
#[local] Arguments String.eqb : simpl never.

Lemma run_gates_history (k : t) (command user : string) :
  _operation_history (snd (run_gates lib k command user)) = _operation_history k.
Proof.
  unfold run_gates. destruct (security_gates k) as [[c | run] |]; [| | reflexivity].
  - destruct (Gates.run_all_gates lib c (gate_request command user)) as [[r | kind m] c'];
      reflexivity.
  - destruct (run (gate_request command user)) as [v | kind m]; reflexivity.
Qed.

(** The world in which the operation is validated, against the world of
    the call. *)
Lemma gated_world_frame (w : World) (op : Constitution.Operation) (command user : string) :
  let g := gated_world lib w op command user in
  db g = db w /\ delivered g = delivered w /\
  constitution (kernel g) = constitution (kernel w) /\
  audit_logger (kernel g) = audit_logger (kernel w) /\
  active_interfaces (kernel g) = active_interfaces (kernel w) /\
  _metrics (kernel g) = _metrics (kernel w) /\
  _operation_history (kernel g)
  = <[Constitution.operation_id op := op]> (_operation_history (kernel w)).
Proof.
  cbv zeta. unfold gated_world.
  destruct (run_gates_keeps lib (kernel (remember w op)) command user) as (Hc & Ha & Hm & Hi).
  pose proof (run_gates_history (kernel (remember w op)) command user) as Hh.
  cbn [with_kernel kernel db delivered]. rewrite Hc, Ha, Hm, Hi, Hh. repeat split.
Qed.

(** The call of the audit logger changes the logger and the table, and
    nothing else. *)
Lemma audit_pending_frame (w : World) (env : Env) (op : Constitution.Operation)
    (command user : string) :
  let w' := audit_pending w env op command user in
  delivered w' = delivered w /\
  constitution (kernel w') = constitution (kernel w) /\
  active_interfaces (kernel w') = active_interfaces (kernel w) /\
  _metrics (kernel w') = _metrics (kernel w) /\
  _operation_history (kernel w') = _operation_history (kernel w).
Proof.
  cbv zeta. unfold audit_pending. destruct (audit_logger (kernel w)) as [logger |].
  - destruct (ImmutableAuditLog.log _ _ _ _ _ _ _ _ _ _ _) as [[sig logger'] db']. repeat split.
  - repeat split.
Qed.

(** The counters after one more operation of a kind. *)
Definition counted (m : Metrics) (executed failed rejected blocked : nat) : Metrics :=
  {| operations_executed := operations_executed m + executed;
     operations_failed := operations_failed m + failed;
     operations_rejected := operations_rejected m + rejected;
     operations_blocked := operations_blocked m + blocked |}.

Lemma counted_none (m : Metrics) : counted m 0 0 0 0 = m.
Proof. destruct m. unfold counted. cbn. rewrite !Nat.add_0_r. reflexivity. Qed.

Lemma process_operation_counts (w : World) (env : Env) (op : Constitution.Operation)
    (command user : string) :
  let out := process_operation lib w env op command user in
  let m := _metrics (kernel w) in
  let m' := _metrics (kernel (snd out)) in
  (status (fst out) = "blocked" /\ m' = counted m 0 0 0 1) \/
  (status (fst out) = "rejected" /\ m' = counted m 0 0 1 0) \/
  (status (fst out) = "pending_approval" /\ m' = m) \/
  (status (fst out) = "success" /\ m' = counted m 1 0 0 0) \/
  (status (fst out) = "error" /\ m' = counted m 0 1 0 0).
Proof.
  cbv zeta.
  destruct (gated_world_frame w op command user) as (_ & _ & _ & _ & _ & Hm & _).
  cbv zeta in Hm.
  unfold process_operation. cbv zeta. fold (gated_world lib w op command user).
  assert (Hplus : forall n, S n = n + 1) by (intros; lia).
  destruct (fst (run_gates lib (kernel (remember w op)) command user))
    as [| reason0 | kind0 m].
  - destruct (Constitution.validate_operation _ op) as [ok | [m | m | m | m]].
    + destruct (audit_pending_frame (gated_world lib w op command user) env op command user)
        as (_ & _ & _ & Hm' & _). cbv zeta in Hm'.
      destruct (Authority.approval_needed _).
      * right; right; left. cbn [fst snd status]. split; [reflexivity |]. now rewrite Hm', Hm.
      * unfold _agent_fleet_execute. destruct (completion env) as [out | kind m];
          cbn [agent_status agent_output agent_error fst snd status].
        -- right; right; right; left. split; [reflexivity |].
           change (String.eqb "success" "success") with true.
           cbn [bump_executed with_kernel with_metrics kernel _metrics].
           rewrite Hm', Hm. unfold counted. rewrite !Nat.add_0_r, <- Hplus. reflexivity.
        -- right; right; right; right. split; [reflexivity |].
           change (String.eqb "error" "success") with false.
           cbn [bump_failed with_kernel with_metrics kernel _metrics].
           rewrite Hm', Hm. unfold counted. rewrite !Nat.add_0_r, <- Hplus. reflexivity.
    + right; left. cbn [fst snd status]. split; [reflexivity |].
      cbn [bump_rejected with_kernel with_metrics kernel _metrics].
      rewrite Hm. unfold counted. rewrite !Nat.add_0_r, <- Hplus. reflexivity.
    + left. cbn [fst snd status]. split; [reflexivity |].
      cbn [_broadcast_alert bump_blocked with_kernel with_metrics kernel _metrics].
      rewrite Hm. unfold counted. rewrite !Nat.add_0_r, <- Hplus. reflexivity.
    + right; left. cbn [fst snd status]. split; [reflexivity |].
      cbn [bump_rejected with_kernel with_metrics kernel _metrics].
      rewrite Hm. unfold counted. rewrite !Nat.add_0_r, <- Hplus. reflexivity.
    + left. cbn [fst snd status]. split; [reflexivity |].
      cbn [_broadcast_alert bump_blocked with_kernel with_metrics kernel _metrics].
      rewrite Hm. unfold counted. rewrite !Nat.add_0_r, <- Hplus. reflexivity.
  - left. cbn [fst snd status]. split; [reflexivity |].
    cbn [bump_blocked with_kernel with_metrics kernel _metrics].
    rewrite Hm. unfold counted. rewrite !Nat.add_0_r, <- Hplus. reflexivity.
  - destruct (is_constitutional_violation kind0).
    + right; left. unfold on_violation. cbv zeta. cbn [fst snd status].
      split; [reflexivity |].
      cbn [_broadcast_alert bump_rejected with_kernel with_metrics kernel _metrics].
      rewrite Hm. unfold counted. rewrite !Nat.add_0_r, <- Hplus. reflexivity.
    + right; right; right; right. unfold on_exception. cbv zeta. cbn [fst snd status].
      split; [reflexivity |].
      cbn [_broadcast_alert bump_failed with_kernel with_metrics kernel _metrics].
      rewrite Hm. unfold counted. rewrite !Nat.add_0_r, <- Hplus. reflexivity.
Qed.

(** X16.  Every call of [process_command] ends in one of five statuses
    and is counted accordingly: "blocked", "rejected", "success" and
    "error" add one to [operations_blocked], [operations_rejected],
    [operations_executed] and [operations_failed] and leave the other
    counters alone; "pending_approval" changes no counter, so that the
    four counters together count the calls that did not wait for an
    approval. *)
Theorem X16_one_counter_per_call :
  forall (w : World) (env : Env) (command user : string),
    let out := process_command lib w env command user in
    let m := _metrics (kernel w) in
    let m' := _metrics (kernel (snd out)) in
    (status (fst out) = "blocked" /\ m' = counted m 0 0 0 1) \/
    (status (fst out) = "rejected" /\ m' = counted m 0 0 1 0) \/
    (status (fst out) = "pending_approval" /\ m' = m) \/
    (status (fst out) = "success" /\ m' = counted m 1 0 0 0) \/
    (status (fst out) = "error" /\ m' = counted m 0 1 0 0).
Proof.
  intros w env command user. unfold process_command. apply process_operation_counts.
Qed.

Lemma process_operation_history (w : World) (env : Env) (op : Constitution.Operation)
    (command user : string) :
  let out := process_operation lib w env op command user in
  result_operation_id (fst out) = Constitution.operation_id op /\
  _operation_history (kernel (snd out))
  = <[Constitution.operation_id op := op]> (_operation_history (kernel w)) /\
  constitution (kernel (snd out)) = constitution (kernel w) /\
  active_interfaces (kernel (snd out)) = active_interfaces (kernel w).
Proof.
  cbv zeta.
  destruct (gated_world_frame w op command user) as (_ & _ & Hc & _ & Hi & _ & Hh).
  cbv zeta in Hc, Hi, Hh.
  unfold process_operation. cbv zeta. fold (gated_world lib w op command user).
  destruct (fst (run_gates lib (kernel (remember w op)) command user))
    as [| reason0 | kind0 m].
  - destruct (Constitution.validate_operation _ op) as [ok | [m | m | m | m]];
      try (cbn [fst snd result_operation_id _broadcast_alert bump_blocked bump_rejected
                with_kernel with_metrics kernel _operation_history constitution
                active_interfaces];
           repeat split; assumption).
    destruct (audit_pending_frame (gated_world lib w op command user) env op command user)
      as (_ & Hc' & Hi' & _ & Hh'). cbv zeta in Hc', Hi', Hh'.
    destruct (Authority.approval_needed _).
    + cbn [fst snd result_operation_id]. rewrite Hh', Hc', Hi'. repeat split; assumption.
    + destruct (String.eqb _ "success");
        cbn [fst snd result_operation_id bump_executed bump_failed with_kernel with_metrics
             kernel _operation_history constitution active_interfaces];
        rewrite Hh', Hc', Hi'; repeat split; assumption.
  - cbn [fst snd result_operation_id bump_blocked with_kernel with_metrics kernel
         _operation_history constitution active_interfaces].
    repeat split; assumption.
  - destruct (is_constitutional_violation kind0);
      [unfold on_violation | unfold on_exception]; cbv zeta;
      cbn [fst snd result_operation_id _broadcast_alert bump_failed bump_rejected with_kernel
           with_metrics kernel _operation_history constitution active_interfaces];
      repeat split; assumption.
Qed.

Lemma parse_command_fields (env : Env) (command user : string) :
  Constitution.operation_id (parse_command env command user)
  = "op_" +:+ Py.take_string 12 (uuid_parse env) /\
  Constitution.agent_id (parse_command env command user) = user /\
  Constitution.description (parse_command env command user) = command.
Proof.
  unfold parse_command. cbv zeta.
  repeat match goal with
         | |- context [if ?b then _ else _] => destruct b
         end; repeat split.
Qed.

(** X17.  Every command is remembered.  Whatever the outcome of
    [process_command] (blocked, rejected, waiting for an approval, executed
    or failed), the operation parsed from the command is in the history
    afterwards under the operation id that the result carries, "op_"
    followed by the first twelve hexadecimal digits of a uuid; the
    operations stored under other ids are untouched, and an operation
    stored before under the same id is replaced. *)
Theorem X17_every_command_is_remembered :
  forall (w : World) (env : Env) (command user : string),
    let out := process_command lib w env command user in
    let oid := result_operation_id (fst out) in
    oid = "op_" +:+ Py.take_string 12 (uuid_parse env) /\
    _operation_history (kernel (snd out)) !! oid = Some (parse_command env command user) /\
    (forall other, other <> oid ->
       _operation_history (kernel (snd out)) !! other = _operation_history (kernel w) !! other).
Proof.
  intros w env command user. cbv zeta. unfold process_command.
  destruct (process_operation_history w env (parse_command env command user) command user)
    as (Hid & Hh & _). cbv zeta in Hid, Hh.
  destruct (parse_command_fields env command user) as (Hoid & _).
  rewrite Hid, Hh. split; [exact Hoid |]. split.
  - apply lookup_insert_eq.
  - intros other Hne. apply lookup_insert_ne. congruence.
Qed.

End KernelBookkeeping.

Section KernelPaths.

Import OraKernel.

Context (lib : Gates.Lib).

#[local] Opaque Constitution.hash_of.
#[local] Arguments ImmutableAuditLog._sign_entry : simpl never.
#[local] Arguments String.eqb : simpl never.

(** X18.  Nothing at FILE_WRITE or SYSTEM_EXEC is executed by
    [process_command].  When the status returned is "success", the level
    of the operation is below FILE_WRITE and no approval is asked for; the
    security gates have let the command through, the Constitution has
    validated the operation, and the output is the one assembled from the
    answer of the completion client. *)
Theorem X18_execution_only_below_file_write :
  forall (w : World) (env : Env) (command user : string),
    status (fst (process_command lib w env command user)) = "success" ->
    let out := process_command lib w env command user in
    let op := parse_command env command user in
    (Authority.value (Constitution.authority_level op)
     < Authority.value Authority.FILE_WRITE)%Z /\
    authority_required (fst out) = Constitution.authority_level op /\
    requires_approval (fst out) = false /\
    approval_id (fst out) = None /\
    fst (run_gates lib (kernel w) command user) = GatesPass /\
    Constitution.validate_operation (constitution (kernel w)) op = inl true /\
    completion env = Gates.Ok (output (fst out)).
Proof.
  intros w env command user. cbv zeta. unfold process_command.
  set (op := parse_command env command user).
  destruct (gated_world_frame lib w op command user) as (_ & _ & Hc & _).
  cbv zeta in Hc.
  unfold process_operation. cbv zeta. fold (gated_world lib w op command user).
  rewrite remember_gates, Hc.
  destruct (fst (run_gates lib (kernel w) command user)) as [| reason0 | kind0 m];
    [| cbn [fst status]; discriminate
     | destruct (is_constitutional_violation kind0);
       [unfold on_violation | unfold on_exception]; cbn [fst status]; discriminate].
  destruct (Constitution.validate_operation (constitution (kernel w)) op)
    as [ok | [m | m | m | m]] eqn:Hvalid; try (cbn [fst status]; discriminate).
  assert (Hok : ok = true).
  { destruct ok; [reflexivity |]. exfalso.
    unfold Constitution.validate_operation in Hvalid.
    destruct (negb _); [discriminate Hvalid |].
    destruct (Constitution.enforce_all _ _); [discriminate Hvalid |].
    destruct (Constitution._check_prohibited_operations _); discriminate Hvalid. }
  subst ok.
  destruct (Authority.approval_needed _) eqn:Hneeded; [cbn [fst status]; discriminate |].
  unfold _agent_fleet_execute. destruct (completion env) as [text | kind m];
    cbn [agent_status agent_output agent_error fst status output authority_required
         requires_approval approval_id]; [| discriminate].
  intros _. repeat split.
  destruct (Constitution.authority_level op); cbn in Hneeded |- *; first [lia | discriminate].
Qed.

Lemma parse_command_not_prohibited (env : Env) (command user : string) :
  Constitution._check_prohibited_operations (parse_command env command user) = None.
Proof.
  unfold parse_command. cbv zeta.
  repeat match goal with
         | |- context [if has_any ?l ?t then _ else _] => destruct (has_any l t)
         end; reflexivity.
Qed.

Lemma harmful_keyword_plain (keyword : string) :
  In keyword Constitution.harmful_keywords ->
  keyword <> EmptyString /\
  List.existsb (Ascii.eqb " "%char) (Py.chars keyword) = false.
Proof.
  unfold Constitution.harmful_keywords. cbn [In].
  intros H. repeat destruct H as [<- | H]; try (split; [discriminate | reflexivity]).
  contradiction.
Qed.

(** A command that holds a harmful keyword is parsed into an operation
    that violates the Prime Directive. *)
Lemma harmful_command_violates (env : Env) (command user keyword : string) :
  In keyword Constitution.harmful_keywords ->
  Py.contains keyword (Py.lower command) = true ->
  Constitution._violates_prime_directive (parse_command env command user) = true.
Proof.
  intros Hin Hfound. unfold Constitution._violates_prime_directive. cbv zeta.
  apply List.existsb_exists. exists keyword. split; [exact Hin |].
  destruct (harmful_keyword_plain keyword Hin) as [Hne Hsp].
  rewrite (keyword_in_text _ keyword Hne Hsp). unfold keyword_in_fields.
  destruct (parse_command_fields env command user) as (_ & _ & Hdescr).
  rewrite Hdescr, Hfound. rewrite Bool.orb_true_r. reflexivity.
Qed.

(** The alert that the kernel broadcasts for a violation of the Prime
    Directive. *)
Definition prime_directive_alert (env : Env) (message : string) : Alert :=
  {| severity := "critical"; alert_message := "Prime Directive violation: " +:+ message;
     alert_timestamp := utcnow_iso env; source := "kernel" |}.

(** X20.  A harmful word blocks the command.  On a kernel with a
    Constitution just constructed, a command that the security gates let
    through and that holds, in whatever case, one of the eleven harmful
    keywords is blocked for the Prime Directive, whatever else it says and
    whatever skill and level it is parsed into: the text of the violation
    is in the field [error], no audit row is written, the call is counted
    as blocked, and one critical alert goes to each interface that takes
    alerts. *)
Theorem X20_harmful_word_blocks_command :
  forall (w : World) (env : Env) (command user keyword : string),
    constitution (kernel w) = Constitution.make None ->
    fst (run_gates lib (kernel w) command user) = GatesPass ->
    In keyword Constitution.harmful_keywords ->
    Py.contains keyword (Py.lower command) = true ->
    let out := process_command lib w env command user in
    let message := "Operation op_" +:+ Py.take_string 12 (uuid_parse env)
                   +:+ " violates Prime Directive: " +:+ Constitution.PRIME_DIRECTIVE in
    status (fst out) = "blocked" /\
    output (fst out) = "Operation blocked: Violates Prime Directive" /\
    error (fst out) = Some message /\
    requires_approval (fst out) = false /\
    db (snd out) = db w /\
    operations_blocked (_metrics (kernel (snd out)))
    = S (operations_blocked (_metrics (kernel w))) /\
    delivered (snd out)
    = delivered w ++
      List.map (fun i => (i, prime_directive_alert env message))
        (List.filter has_notify_alert (active_interfaces (kernel w))).
Proof.
  intros w env command user keyword Hconst Hgates Hin Hfound. cbv zeta.
  unfold process_command.
  pose proof (harmful_command_violates env command user keyword Hin Hfound) as Hviolates.
  destruct (parse_command_fields env command user) as (Hoid & _).
  set (op := parse_command env command user) in *.
  destruct (gated_world_frame lib w op command user)
    as (Hdb & Hdel & Hc & _ & Hi & Hm & _).
  cbv zeta in Hdb, Hdel, Hc, Hi, Hm.
  unfold process_operation. cbv zeta. fold (gated_world lib w op command user).
  rewrite remember_gates, Hgates, Hc, Hconst, validate_default, Hviolates.
  cbn [fst snd status output error requires_approval].
  cbn [_broadcast_alert bump_blocked with_kernel with_metrics kernel db delivered _metrics
       operations_blocked active_interfaces].
  rewrite Hdb, Hdel, Hi, Hm, Hoid.
  change ("Operation " +:+ "op_" +:+ ?x) with ("Operation op_" +:+ x).
  repeat split.
Qed.

(** X21.  A block by the security gates is not broadcast.  When the
    security gates refuse a command, [process_command] returns "blocked"
    with the reason of the gates in the output and in the field [error]
    and counts the call as blocked; it delivers no alert to any interface,
    writes no audit row, and does not consult the Constitution: the
    answer is the same under every Constitution. *)
Theorem X21_gate_block_is_not_broadcast :
  forall (w : World) (env : Env) (command user reason : string),
    fst (run_gates lib (kernel w) command user) = GatesBlocked reason ->
    let out := process_command lib w env command user in
    status (fst out) = "blocked" /\
    output (fst out) = "Security gate blocked: " +:+ reason /\
    error (fst out) = Some reason /\
    authority_required (fst out)
    = Constitution.authority_level (parse_command env command user) /\
    delivered (snd out) = delivered w /\
    db (snd out) = db w /\
    operations_blocked (_metrics (kernel (snd out)))
    = S (operations_blocked (_metrics (kernel w))) /\
    (forall c : Constitution.t,
        fst (process_command lib
               (with_kernel w
                  {| constitution := c; audit_logger := audit_logger (kernel w);
                     security_gates := security_gates (kernel w);
                     active_interfaces := active_interfaces (kernel w);
                     _operation_history := _operation_history (kernel w);
                     _metrics := _metrics (kernel w) |})
               env command user)
        = fst out).
Proof.
  intros w env command user reason Hgates. cbv zeta.
  assert (Hpath : forall w0 : World,
             fst (run_gates lib (kernel w0) command user) = GatesBlocked reason ->
             process_command lib w0 env command user
             = ({| status := "blocked"; output := "Security gate blocked: " +:+ reason;
                   result_operation_id :=
                     Constitution.operation_id (parse_command env command user);
                   authority_required :=
                     Constitution.authority_level (parse_command env command user);
                   requires_approval := false; approval_id := None; error := Some reason |},
                bump_blocked
                  (gated_world lib w0 (parse_command env command user) command user))).
  { intros w0 H0. unfold process_command, process_operation. cbv zeta.
    fold (gated_world lib w0 (parse_command env command user) command user).
    rewrite remember_gates, H0. reflexivity. }
  rewrite (Hpath w Hgates).
  destruct (gated_world_frame lib w (parse_command env command user) command user)
    as (Hdb & Hdel & _ & _ & _ & Hm & _).
  cbv zeta in Hdb, Hdel, Hm.
  cbn [fst snd status output error authority_required bump_blocked with_kernel with_metrics
       kernel db delivered _metrics operations_blocked].
  rewrite Hdb, Hdel, Hm. repeat split.
  intros c. rewrite Hpath; [reflexivity |].
  unfold run_gates in *. cbn [with_kernel kernel security_gates].
  destruct (security_gates (kernel w)) as [[c0 | run] |]; [| | exact Hgates].
  - destruct (Gates.run_all_gates lib c0 (gate_request command user)) as [[r | kind m] c'];
      exact Hgates.
  - destruct (run (gate_request command user)) as [v | kind m]; exact Hgates.
Qed.

(** X22.  What [parse_command] gives.  The operation carries the command
    as its description and the user as its agent.  Its skill is one of
    eight.  Six of them are listed in the table of requirements, each in
    the [skills_allowed] of the level that [parse_command] gives it and of
    no other level; [code_analyzer] and [research] are in the
    [skills_allowed] of no level.  The first group of words
    found decides: a command that mentions "search", "web", "find", "read"
    or "file" is parsed into [web_search] or [file_read], whatever else it
    asks for, and so into a level that needs no approval. *)
Theorem X22_parse_command_levels :
  forall (env : Env) (command user : string),
    let op := parse_command env command user in
    Constitution.description op = command /\
    Constitution.agent_id op = user /\
    In (Constitution.skill_name op, Constitution.authority_level op)
       [ ("web_search", Authority.INFO_RETRIEVAL); ("file_read", Authority.FILE_READ);
         ("file_write", Authority.FILE_WRITE); ("shell_exec", Authority.SYSTEM_EXEC);
         ("math", Authority.SAFE_COMPUTE); ("file_delete", Authority.FILE_WRITE);
         ("code_analyzer", Authority.FILE_READ); ("research", Authority.INFO_RETRIEVAL) ] /\
    (forall l : Authority.AuthorityLevel,
        Constitution.skill_name op
        ∈ Authority.skills_allowed (Authority.get_authority_requirements l) ->
        l = Constitution.authority_level op) /\
    (~ In (Constitution.skill_name op) ["code_analyzer"; "research"] ->
     Constitution.skill_name op
     ∈ Authority.skills_allowed
         (Authority.get_authority_requirements (Constitution.authority_level op))) /\
    (In (Constitution.skill_name op) ["code_analyzer"; "research"] ->
     forall l : Authority.AuthorityLevel,
       Constitution.skill_name op
       ∉ Authority.skills_allowed (Authority.get_authority_requirements l)) /\
    (has_any ["search"; "web"; "find"; "read"; "file"] (Py.lower command) = true ->
     In (Constitution.skill_name op) ["web_search"; "file_read"] /\
     Authority.approval_needed
       (Authority.get_authority_requirements (Constitution.authority_level op)) = false).
Proof.
  intros env command user. cbv zeta.
  destruct (parse_command_fields env command user) as (_ & Hagent & Hdescr).
  split; [exact Hdescr |]. split; [exact Hagent |].
  assert (Hsplit : has_any ["search"; "web"; "find"; "read"; "file"] (Py.lower command)
                   = has_any ["search"; "web"; "find"] (Py.lower command)
                     || has_any ["read"; "file"] (Py.lower command)).
  { unfold has_any. cbn [List.existsb]. rewrite !Bool.orb_false_r, !Bool.orb_assoc. reflexivity. }
  rewrite Hsplit. unfold parse_command. cbv zeta.
  destruct (has_any ["search"; "web"; "find"] (Py.lower command));
    [| destruct (has_any ["read"; "file"] (Py.lower command));
       [| destruct (has_any ["write"; "save"; "create"] (Py.lower command));
          [| destruct (has_any ["execute"; "run"; "shell"] (Py.lower command));
             [| destruct (has_any ["calculate"; "compute"; "math"] (Py.lower command));
                [| destruct (has_any ["delete"; "remove"] (Py.lower command));
                   [| destruct (has_any ["analyze"; "review"] (Py.lower command))]]]]]];
    cbn [Constitution.skill_name Constitution.authority_level orb];
    (split; [cbn [In]; tauto |]);
    (split; [intros l Hl; destruct l; try reflexivity; exfalso; cbn in Hl; set_unfold;
             repeat match goal with
                    | H : _ \/ _ |- _ => destruct H
                    end; congruence |]);
    (split; [first [intros _; cbn; set_unfold; tauto
                   | intros Hnot; exfalso; apply Hnot; cbn [In]; tauto] |]);
    (split; [first [intros [H | [H | []]]; discriminate H
                   | intros _ l Hl; destruct l; cbn in Hl; set_unfold;
                     repeat match goal with
                            | H : _ \/ _ |- _ => destruct H
                            end; congruence] |]);
    first [intros _; split; [cbn [In]; tauto | reflexivity] | discriminate].
Qed.

Lemma split_last_from_absent (sep : string) (fuel : nat) :
  forall s cur : string,
    Py.contains sep s = false -> Py.split_last_from fuel sep s cur = cur.
Proof.
  induction fuel as [| fuel IH]; intros s cur Habsent; [reflexivity |].
  destruct s as [| c s]; [reflexivity |].
  cbn [Py.split_last_from]. cbn [Py.contains] in Habsent.
  apply Bool.orb_false_iff in Habsent as [Hstart Hrest].
  rewrite Hstart. apply IH. exact Hrest.
Qed.

(** X23.  The path of a [file_read].  For a command that is parsed into
    [file_read] because it mentions "file", the path is what follows the
    last "file" of the command, without the white space around it.  The
    word is looked for without regard to case, and the command is cut at
    the word in lower case only: when every "file" of the command has a
    capital letter, the path is the whole command. *)
Theorem X23_file_read_path :
  forall (env : Env) (command user : string),
    has_any ["search"; "web"; "find"] (Py.lower command) = false ->
    Py.contains "file" (Py.lower command) = true ->
    let op := parse_command env command user in
    Constitution.skill_name op = "file_read" /\
    Constitution.authority_level op = Authority.FILE_READ /\
    Constitution.parameters op
    = Json.JDict [("path", Json.JStr (Py.strip (Py.split_last "file" command)))] /\
    (Py.contains "file" command = false ->
     Constitution.parameters op = Json.JDict [("path", Json.JStr (Py.strip command))]).
Proof.
  intros env command user Hfirst Hfile. cbv zeta. unfold parse_command. cbv zeta.
  rewrite Hfirst.
  assert (Hsecond : has_any ["read"; "file"] (Py.lower command) = true).
  { unfold has_any. cbn [List.existsb]. rewrite Hfile. apply Bool.orb_true_r. }
  rewrite Hsecond, Hfile. cbn [Constitution.skill_name Constitution.authority_level
                                Constitution.parameters].
  repeat split. intros Habsent. unfold Py.split_last.
  rewrite split_last_from_absent by exact Habsent. reflexivity.
Qed.

(** X24.  The limit of [get_operation_history].  A limit above zero gives
    the newest [limit] operations, in the order of the history, and all of
    them when there are fewer.  A limit of zero gives the whole history,
    not an empty list; a negative limit drops the oldest [-limit]
    operations and gives the rest. *)
Theorem X24_history_limit :
  forall (values : list Constitution.Operation) (limit : Z),
    let all := List.map history_item values in
    let n := List.length values in
    ((0 < limit)%Z ->
     get_operation_history values limit = List.skipn (n - Z.to_nat limit) all /\
     List.length (get_operation_history values limit) = Nat.min (Z.to_nat limit) n) /\
    get_operation_history values 0 = all /\
    ((limit < 0)%Z ->
     get_operation_history values limit = List.skipn (Z.to_nat (- limit)) all) /\
    (exists older, all = older ++ get_operation_history values limit).
Proof.
  intros values limit. cbv zeta. unfold get_operation_history, slice_from. cbv zeta.
  rewrite List.length_map.
  split; [| split; [| split]].
  - intros Hpos. destruct (Z.ltb_spec (- limit) 0); [| lia].
    assert (Hfirst : Z.to_nat (Z.max 0 (Z.of_nat (List.length values) + - limit))
                     = List.length values - Z.to_nat limit) by lia.
    rewrite Hfirst. split; [reflexivity |].
    rewrite List.length_skipn, List.length_map. lia.
  - cbn [Z.opp Z.ltb Z.compare]. destruct (List.length values); reflexivity.
  - intros Hneg. destruct (Z.ltb_spec (- limit) 0); [lia |].
    destruct (Z.min_spec (Z.of_nat (List.length values)) (- limit)) as [[Hlt ->] | [Hle ->]].
    + rewrite Nat2Z.id. rewrite !List.skipn_all2; [reflexivity | |];
        rewrite List.length_map; lia.
    + reflexivity.
  - eexists. symmetry. apply List.firstn_skipn.
Qed.

End KernelPaths.

Section CoordinatorWiring.

Import OraKernel.

Context (lib : Gates.Lib).

#[local] Opaque Constitution.hash_of.
#[local] Arguments ImmutableAuditLog._sign_entry : simpl never.
#[local] Arguments String.eqb : simpl never.

(** The gates of a coordinator other than the credential guard. *)
Definition other_gates (c : Gates.SecurityGateCoordinator) :=
  (Gates.prompt_scanner c, Gates.shell_sanitizer c, Gates.sandbox_enforcer c,
   Gates.network_allowlist c, Gates.workspace_boundary c).

Lemma credential_loop_others (items : list (string * Json.json))
    (acc : gmap string Gates.SecurityCheckResult * Gates.SecurityGateCoordinator) :
  other_gates (snd (List.fold_left (Gates.credential_step lib) items acc))
  = other_gates (snd acc).
Proof.
  revert acc. induction items as [| kv items IH]; intros acc; [reflexivity |].
  cbn [List.fold_left]. rewrite IH. unfold Gates.credential_step.
  destruct (snd kv); try reflexivity.
  unfold Gates.check_credential_exposure.
  destruct (Gates.CredentialGuard.scan lib _ _) as [[is_safe reason0] g].
  cbn [fst snd Gates.passed]. destruct is_safe; reflexivity.
Qed.

Lemma gate_request_keys (command user : string) :
  gate_request command user !! "prompt" = None /\
  gate_request command user !! "shell_command" = None /\
  gate_request command user !! "operation" = None /\
  gate_request command user !! "url" = None /\
  gate_request command user !! "file_path" = None.
Proof.
  unfold gate_request. repeat split;
    rewrite !lookup_insert_ne by discriminate; apply lookup_empty.
Qed.

(** On the request that the kernel builds, [run_all_gates] returns, and
    has run the credential guard alone. *)
Lemma run_all_gates_on_command (c : Gates.SecurityGateCoordinator) (command user : string) :
  exists r c',
    Gates.run_all_gates lib c (gate_request command user) = (Gates.Ok r, c') /\
    other_gates c' = other_gates c.
Proof.
  destruct (gate_request_keys command user) as (Hp & Hs & Ho & Hu & Hf).
  unfold Gates.run_all_gates, Gates.collect_results, Gates.prompt_step, Gates.shell_step,
    Gates.sandbox_step, Gates.network_step, Gates.workspace_step.
  rewrite Hp, Hs, Ho, Hu, Hf. cbv zeta. cbn [fst snd].
  eexists. eexists. split; [reflexivity |].
  apply credential_loop_others.
Qed.

(** A kernel wired with the coordinator of [gates.py] returns "error" for
    every command: the dict returned by [run_all_gates] has no attribute
    [passed]. *)
Lemma coordinator_gates_error (w : World) (env : Env) (command user : string)
    (c : Gates.SecurityGateCoordinator) :
  security_gates (kernel w) = Some (Coordinator c) ->
  status (fst (process_command lib w env command user)) = "error".
Proof.
  intros Hgates. unfold process_command, process_operation. cbv zeta.
  rewrite remember_gates. unfold run_gates. rewrite Hgates.
  destruct (run_all_gates_on_command c command user) as (r & c' & Hrun & _).
  rewrite Hrun. reflexivity.
Qed.

(** The alert that the kernel broadcasts for an exception. *)
Definition failure_alert (env : Env) (message : string) : Alert :=
  {| severity := "error"; alert_message := "Operation failed: " +:+ message;
     alert_timestamp := utcnow_iso env; source := "kernel" |}.

(** X25.  A kernel given the coordinator of [gates.py] as its security
    gates, as [main.py] builds it, fails every command.  [run_all_gates]
    returns a dict and the kernel reads an attribute [passed] of it: every
    call of [process_command] ends in status "error" at level READ_ONLY,
    with the text of the [AttributeError]; it is counted as failed,
    broadcast as an alert of severity "error", and writes no audit row.
    Of the six gates the credential guard alone has seen the command: the
    request of the kernel holds none of the keys that the other gates
    read. *)
Theorem X25_coordinator_fails_every_command :
  forall (w : World) (env : Env) (command user : string) (c : Gates.SecurityGateCoordinator),
    security_gates (kernel w) = Some (Coordinator c) ->
    let out := process_command lib w env command user in
    let message := "'dict' object has no attribute 'passed'" in
    status (fst out) = "error" /\
    output (fst out) = "Error: " +:+ message /\
    error (fst out) = Some message /\
    authority_required (fst out) = Authority.READ_ONLY /\
    db (snd out) = db w /\
    operations_failed (_metrics (kernel (snd out)))
    = S (operations_failed (_metrics (kernel w))) /\
    delivered (snd out)
    = delivered w ++
      List.map (fun i => (i, failure_alert env message))
        (List.filter has_notify_alert (active_interfaces (kernel w))) /\
    exists c',
      security_gates (kernel (snd out)) = Some (Coordinator c') /\
      other_gates c' = other_gates c.
Proof.
  intros w env command user c Hgates. cbv zeta.
  unfold process_command.
  set (op := parse_command env command user).
  destruct (run_all_gates_on_command c command user) as (r & c' & Hrun & Hothers).
  assert (Hgated : run_gates lib (kernel (remember w op)) command user
                   = (GatesRaise "AttributeError" "'dict' object has no attribute 'passed'",
                      with_gates (kernel (remember w op)) (Some (Coordinator c')))).
  { unfold run_gates. cbn [remember with_kernel kernel security_gates].
    rewrite Hgates, Hrun. reflexivity. }
  unfold process_operation. cbv zeta. rewrite Hgated. cbn [fst snd].
  change (is_constitutional_violation "AttributeError") with false. cbv iota.
  unfold on_exception. cbv zeta.
  cbn [fst snd status output error authority_required _broadcast_alert bump_failed with_kernel
       with_metrics with_gates remember kernel db delivered _metrics operations_failed
       active_interfaces security_gates].
  repeat split. exists c'. split; [reflexivity | exact Hothers].
Qed.

(** What the security gates of a kernel do with a command. *)
Lemma run_gates_cases (k : t) (command user : string) :
  match fst (run_gates lib k command user) with
  | GatesPass =>
      security_gates k = None \/
      exists run v, security_gates k = Some (OtherGates run) /\
                    run (gate_request command user) = Gates.Ok v /\ verdict_passed v = true
  | GatesBlocked reason =>
      exists run v, security_gates k = Some (OtherGates run) /\
                    run (gate_request command user) = Gates.Ok v /\
                    verdict_passed v = false /\ blocked_reason v = reason
  | GatesRaise kind m =>
      (exists c, security_gates k = Some (Coordinator c) /\ kind = "AttributeError") \/
      exists run, security_gates k = Some (OtherGates run) /\
                  run (gate_request command user) = Gates.Raise kind m
  end.
Proof.
  unfold run_gates. destruct (security_gates k) as [[c | run] |].
  - destruct (run_all_gates_on_command c command user) as (r & c' & Hrun & _).
    rewrite Hrun. cbn [fst]. left. exists c. split; reflexivity.
  - destruct (run (gate_request command user)) as [v | kind m] eqn:Hrun; cbn [fst].
    + destruct (verdict_passed v) eqn:Hv.
      * right. exists run, v. repeat split; assumption.
      * exists run, v. repeat split; assumption.
    + right. exists run. split; [reflexivity | exact Hrun].
  - cbn [fst]. left. reflexivity.
Qed.

(** X19.  The Constitution rejects no command.  On a kernel whose
    Constitution passes its integrity check, as the constructor of the
    kernel requires, [process_command] returns "rejected" in one case only:
    the object given as security gates, which is then not the coordinator
    of [gates.py], raises a [ConstitutionalViolation] or an exception of a
    class derived from it.  The call is then counted as rejected and
    broadcast as a critical alert, and the result carries the level
    READ_ONLY.  In every other case the count of rejected operations stays
    as it was.  A command that is blocked is blocked by the security gates
    or for the Prime Directive, never as a prohibited operation: none of
    the eight skills that [parse_command] assigns is a prohibited one. *)
Theorem X19_only_the_gates_reject :
  forall (w : World) (env : Env) (command user : string),
    Constitution.verify_immutability (constitution (kernel w)) = true ->
    let out := process_command lib w env command user in
    Constitution._check_prohibited_operations (parse_command env command user) = None /\
    (status (fst out) = "rejected" <->
     exists run kind m,
       security_gates (kernel w) = Some (OtherGates run) /\
       run (gate_request command user) = Gates.Raise kind m /\
       is_constitutional_violation kind = true) /\
    (status (fst out) = "rejected" ->
     authority_required (fst out) = Authority.READ_ONLY /\
     operations_rejected (_metrics (kernel (snd out)))
     = S (operations_rejected (_metrics (kernel w))) /\
     exists m,
       error (fst out) = Some m /\
       delivered (snd out)
       = delivered w ++
         List.map (fun i => (i, {| severity := "critical";
                                   alert_message := "Constitutional violation: " +:+ m;
                                   alert_timestamp := utcnow_iso env; source := "kernel" |}))
           (List.filter has_notify_alert (active_interfaces (kernel w)))) /\
    (status (fst out) <> "rejected" ->
     operations_rejected (_metrics (kernel (snd out)))
     = operations_rejected (_metrics (kernel w))) /\
    (status (fst out) = "blocked" ->
     (exists reason, fst (run_gates lib (kernel w) command user) = GatesBlocked reason) \/
     output (fst out) = "Operation blocked: Violates Prime Directive").
Proof.
  intros w env command user Hverify. cbv zeta.
  split; [apply parse_command_not_prohibited |].
  unfold process_command.
  pose proof (parse_command_not_prohibited env command user) as Hallowed.
  set (op := parse_command env command user) in *.
  destruct (gated_world_frame lib w op command user) as (_ & Hdel & Hc & _ & Hi & Hm & _).
  cbv zeta in Hdel, Hc, Hi, Hm.
  pose proof (run_gates_cases (kernel w) command user) as Hcases.
  assert (Hnone : forall run kind m,
             security_gates (kernel w) = Some (OtherGates run) ->
             run (gate_request command user) = Gates.Raise kind m ->
             fst (run_gates lib (kernel w) command user) = GatesRaise kind m).
  { intros run kind m Hg Hr. unfold run_gates. rewrite Hg, Hr. reflexivity. }
  unfold process_operation. cbv zeta. fold (gated_world lib w op command user).
  rewrite remember_gates, Hc.
  destruct (fst (run_gates lib (kernel w) command user)) as [| reason0 | kind0 m0].
  - assert (Hno : ~ exists run kind m,
               security_gates (kernel w) = Some (OtherGates run) /\
               run (gate_request command user) = Gates.Raise kind m /\
               is_constitutional_violation kind = true).
    { intros (run & kind & m & Hg & Hr & _). discriminate (Hnone run kind m Hg Hr). }
    unfold Constitution.validate_operation. rewrite Hverify. cbn [negb].
    destruct (Constitution.enforce_all _ op) as [v |] eqn:Henforce.
    + apply enforce_all_raises_prime in Henforce as [m ->].
      cbn [fst snd status output _broadcast_alert bump_blocked with_kernel with_metrics kernel
           _metrics operations_rejected].
      rewrite Hm. split; [split; [discriminate | intros H; contradiction] |].
      split; [discriminate |]. split; [reflexivity |].
      intros _. right. reflexivity.
    + rewrite Hallowed.
      destruct (audit_pending_frame (gated_world lib w op command user) env op command user)
        as (_ & _ & _ & Hm' & _). cbv zeta in Hm'.
      destruct (Authority.approval_needed _).
      * cbn [fst snd status output]. rewrite Hm', Hm.
        split; [split; [discriminate | intros H; contradiction] |].
        split; [discriminate |]. split; [reflexivity | discriminate].
      * unfold _agent_fleet_execute. destruct (completion env) as [text | kind m];
          cbn [agent_status agent_output agent_error fst snd status output].
        -- change (String.eqb "success" "success") with true.
           cbn [bump_executed with_kernel with_metrics kernel _metrics operations_rejected].
           rewrite Hm', Hm. split; [split; [discriminate | intros H; contradiction] |].
           split; [discriminate |]. split; [reflexivity | discriminate].
        -- change (String.eqb "error" "success") with false.
           cbn [bump_failed with_kernel with_metrics kernel _metrics operations_rejected].
           rewrite Hm', Hm. split; [split; [discriminate | intros H; contradiction] |].
           split; [discriminate |]. split; [reflexivity | discriminate].
  - assert (Hno : ~ exists run kind m,
               security_gates (kernel w) = Some (OtherGates run) /\
               run (gate_request command user) = Gates.Raise kind m /\
               is_constitutional_violation kind = true).
    { intros (run & kind & m & Hg & Hr & _). discriminate (Hnone run kind m Hg Hr). }
    cbn [fst snd status output bump_blocked with_kernel with_metrics kernel _metrics
         operations_rejected].
    rewrite Hm. split; [split; [discriminate | intros H; contradiction] |].
    split; [discriminate |]. split; [reflexivity |].
    intros _. left. exists reason0. reflexivity.
  - destruct (is_constitutional_violation kind0) eqn:Hkind.
    + unfold on_violation. cbv zeta.
      cbn [fst snd status output error authority_required _broadcast_alert bump_rejected
           with_kernel with_metrics kernel _metrics operations_rejected delivered
           active_interfaces].
      rewrite Hm, Hdel, Hi.
      split.
      { split; [intros _ | reflexivity].
        destruct Hcases as [(c & _ & ->) | (run & Hg & Hr)]; [discriminate Hkind |].
        exists run, kind0, m0. repeat split; assumption. }
      split; [intros _; split; [reflexivity |]; split; [reflexivity |];
              exists m0; split; reflexivity |].
      split; [intros H; contradiction H; reflexivity | discriminate].
    + unfold on_exception. cbv zeta.
      cbn [fst snd status output _broadcast_alert bump_failed with_kernel with_metrics kernel
           _metrics operations_rejected].
      rewrite Hm. split.
      { split; [discriminate |]. intros (run & kind & m & Hg & Hr & Hv).
        pose proof (Hnone run kind m Hg Hr) as Heq. injection Heq as <- <-.
        rewrite Hv in Hkind. discriminate Hkind. }
      split; [discriminate |]. split; [reflexivity | discriminate].
Qed.

End CoordinatorWiring.

(** ** More on the security gates *)

Section GateRules.

Import Gates.

Context (lib : Lib).

#[local] Arguments String.eqb : simpl never.

Lemma is_parent_or_equal (a b : list string) :
  WorkspaceBoundaryEnforcer.is_parent a b || bool_decide (b = a) = true <-> a `prefix_of` b.
Proof.
  revert b. induction a as [| x a IH]; intros b.
  - split; [intros _; apply prefix_nil |]. intros _.
    destruct b; [apply bool_decide_eq_true_2; reflexivity | reflexivity].
  - destruct b as [| y b].
    + cbn [WorkspaceBoundaryEnforcer.is_parent orb]. rewrite bool_decide_eq_true.
      split; [discriminate |]. intros [k Hk]. discriminate Hk.
    + cbn [WorkspaceBoundaryEnforcer.is_parent].
      destruct (String.eqb_spec x y) as [<- | Hne]; cbn [andb].
      * specialize (IH b). rewrite Bool.orb_true_iff, bool_decide_eq_true in *.
        split.
        -- intros [Hp | Heq]; [apply prefix_cons, IH; left; exact Hp |].
           injection Heq as ->. reflexivity.
        -- intros Hpre. apply prefix_cons_inv_2 in Hpre. apply IH in Hpre as [Hp | ->];
             [left; exact Hp | right; reflexivity].
      * cbn [orb]. rewrite bool_decide_eq_true. split; [congruence |].
        intros Hpre. apply prefix_cons_inv_1 in Hpre. congruence.
Qed.

(** X26.  The workspace boundary is a test on path components.  A path
    that resolves is within the workspace exactly when the components of
    the resolved root are the first components of the resolved path: the
    root itself is within, and a sibling directory whose name only starts
    like that of the root is not.  A path within the workspace leaves the
    gate as it was; a path outside adds one to its threat count; a path
    that does not resolve is refused as invalid and is not counted. *)
Theorem X26_workspace_boundary_is_a_prefix_test :
  forall (self : WorkspaceBoundaryEnforcer.t) (p : string),
    let out := WorkspaceBoundaryEnforcer.is_within_workspace lib self (Json.JStr p) in
    WorkspaceBoundaryEnforcer.workspace_root (snd out)
    = WorkspaceBoundaryEnforcer.workspace_root self /\
    (forall target,
        path_resolve lib p = Ok target ->
        (fst (fst out) = true
         <-> WorkspaceBoundaryEnforcer.workspace_root self `prefix_of` target) /\
        (fst (fst out) = true -> snd (fst out) = None /\ snd out = self) /\
        (fst (fst out) = false ->
         snd (fst out)
         = Some ("Path '" +:+ p +:+ "' is outside workspace '"
                 +:+ WorkspaceBoundaryEnforcer.path_str
                       (WorkspaceBoundaryEnforcer.workspace_root self) +:+ "'") /\
         WorkspaceBoundaryEnforcer.threat_count (snd out)
         = S (WorkspaceBoundaryEnforcer.threat_count self))) /\
    (forall kind m,
        path_resolve lib p = Raise kind m ->
        fst out = (false, Some ("Invalid path: " +:+ m)) /\ snd out = self).
Proof.
  intros self p. cbv zeta. unfold WorkspaceBoundaryEnforcer.is_within_workspace.
  destruct (path_resolve lib p) as [target | kind m].
  - pose proof (is_parent_or_equal (WorkspaceBoundaryEnforcer.workspace_root self) target) as Hpre.
    destruct (_ || _); cbn [fst snd WorkspaceBoundaryEnforcer.threat
                            WorkspaceBoundaryEnforcer.workspace_root
                            WorkspaceBoundaryEnforcer.threat_count].
    + split; [reflexivity |]. split; [| discriminate].
      intros t Ht. injection Ht as <-. split; [tauto |]. split; [tauto | discriminate].
    + split; [reflexivity |]. split; [| discriminate].
      intros t Ht. injection Ht as <-. split; [rewrite <- Hpre; tauto |].
      split; [discriminate | tauto].
  - cbn [fst snd]. split; [reflexivity |]. split; [discriminate |].
    intros kind' m' H. injection H as <- <-. split; reflexivity.
Qed.

(** A sequence of calls of [is_allowed] on one gate, one after the other. *)
Definition is_allowed_each (self : NetworkAllowlist.t) (urls : list Json.json)
  : NetworkAllowlist.t :=
  List.fold_left (fun gate url => snd (NetworkAllowlist.is_allowed lib gate url)) urls self.

Lemma is_allowed_keeps (self : NetworkAllowlist.t) (url : Json.json) :
  NetworkAllowlist.allowlist (snd (NetworkAllowlist.is_allowed lib self url))
  = NetworkAllowlist.allowlist self /\
  NetworkAllowlist.threat_count self
  <= NetworkAllowlist.threat_count (snd (NetworkAllowlist.is_allowed lib self url)).
Proof.
  unfold NetworkAllowlist.is_allowed.
  destruct url as [| b | z | u | l | l];
    try (destruct (urlparse_other lib _) as [domain | kind m];
         cbn [fst snd NetworkAllowlist.refused NetworkAllowlist.threat
              NetworkAllowlist.allowlist NetworkAllowlist.threat_count];
         split; first [reflexivity | lia]).
  destruct (urlparse_domain lib u) as [domain | kind m];
    [| cbn [fst snd]; split; [reflexivity | lia]].
  destruct (bool_decide _);
    cbn [fst snd NetworkAllowlist.refused NetworkAllowlist.threat
         NetworkAllowlist.allowlist NetworkAllowlist.threat_count];
    split; first [reflexivity | lia].
Qed.

Lemma is_allowed_each_keeps (urls : list Json.json) :
  forall self : NetworkAllowlist.t,
    NetworkAllowlist.allowlist (is_allowed_each self urls) = NetworkAllowlist.allowlist self /\
    NetworkAllowlist.threat_count self <= NetworkAllowlist.threat_count (is_allowed_each self urls).
Proof.
  induction urls as [| url urls IH]; intros self; [split; [reflexivity | apply Nat.le_refl] |].
  unfold is_allowed_each. cbn [List.fold_left].
  destruct (IH (snd (NetworkAllowlist.is_allowed lib self url))) as [Hlist Hcount].
  destruct (is_allowed_keeps self url) as [Hlist1 Hcount1].
  unfold is_allowed_each in Hlist, Hcount. rewrite Hlist, Hlist1. split; [reflexivity | lia].
Qed.

(** X27.  The network allowlist holds the eight default hosts and the
    custom ones, and nothing else, and its threat count starts at 0.  On a
    gate in whatever state, a URL whose domain is parsed is allowed exactly
    when the domain is in the allowlist; the comparison is by equality, so
    that a subdomain of an allowed host is refused.  A URL allowed leaves
    the gate as it was, and a refusal adds one to the threat count.  No
    call changes the allowlist or lowers the count: after any sequence of
    calls, with whatever arguments, the allowlist is the one constructed. *)
Theorem X27_network_allowlist_membership :
  forall (self : NetworkAllowlist.t) (url domain : string),
    urlparse_domain lib url = Ok domain ->
    let out := NetworkAllowlist.is_allowed lib self (Json.JStr url) in
    (fst (fst out) = true <-> domain ∈ NetworkAllowlist.allowlist self) /\
    (fst (fst out) = true -> snd (fst out) = None /\ snd out = self) /\
    (fst (fst out) = false ->
     snd (fst out) = Some ("Domain '" +:+ domain +:+ "' not in network allowlist") /\
     NetworkAllowlist.threat_count (snd out) = S (NetworkAllowlist.threat_count self)) /\
    NetworkAllowlist.allowlist (snd out) = NetworkAllowlist.allowlist self /\
    (forall urls : list Json.json,
        NetworkAllowlist.allowlist (is_allowed_each self urls) = NetworkAllowlist.allowlist self /\
        NetworkAllowlist.threat_count self
        <= NetworkAllowlist.threat_count (is_allowed_each self urls)) /\
    (forall (custom : list string) (urls : list Json.json) (host : string),
        NetworkAllowlist.threat_count (NetworkAllowlist.make custom) = 0 /\
        (host ∈ NetworkAllowlist.allowlist (is_allowed_each (NetworkAllowlist.make custom) urls)
         <-> In host NetworkAllowlist.DEFAULT_ALLOWLIST \/ In host custom)).
Proof.
  intros self url domain Hparse. cbv zeta.
  assert (Hmake : forall (custom : list string) (urls : list Json.json) (host : string),
             NetworkAllowlist.threat_count (NetworkAllowlist.make custom) = 0 /\
             (host ∈ NetworkAllowlist.allowlist
                       (is_allowed_each (NetworkAllowlist.make custom) urls)
              <-> In host NetworkAllowlist.DEFAULT_ALLOWLIST \/ In host custom)).
  { intros custom urls host. split; [reflexivity |].
    rewrite (proj1 (is_allowed_each_keeps urls (NetworkAllowlist.make custom))).
    unfold NetworkAllowlist.make. cbn [NetworkAllowlist.allowlist].
    rewrite elem_of_list_to_set, elem_of_app, !list_elem_of_In. reflexivity. }
  unfold NetworkAllowlist.is_allowed. rewrite Hparse.
  destruct (bool_decide_reflect (domain ∈ NetworkAllowlist.allowlist self)) as [Hin | Hout];
    cbn [fst snd NetworkAllowlist.refused NetworkAllowlist.threat NetworkAllowlist.allowlist
         NetworkAllowlist.threat_count].
  - split; [tauto |]. split; [tauto |]. split; [discriminate |]. split; [reflexivity |].
    split; [intros urls; apply is_allowed_each_keeps | exact Hmake].
  - split; [split; [discriminate | tauto] |]. split; [discriminate |].
    split; [intros _; split; reflexivity |]. split; [reflexivity |].
    split; [intros urls; apply is_allowed_each_keeps | exact Hmake].
Qed.

Lemma in_safe_commands (base : string) :
  List.existsb (String.eqb base) ShellCommandSanitizer.SAFE_COMMANDS = true
  <-> In base ShellCommandSanitizer.SAFE_COMMANDS.
Proof.
  rewrite List.existsb_exists. split.
  - intros (x & Hin & Heq). apply String.eqb_eq in Heq. subst. exact Hin.
  - intros Hin. exists base. split; [exact Hin | apply String.eqb_refl].
Qed.

(** X28.  In allowlist mode the first word decides.  Whatever the patterns
    match, the shell sanitizer lets a command through only when it is
    blank or its first word is one of the safe commands, and it refuses
    every other command.  A command whose first word is safe passes when
    no dangerous pattern is found in it: what follows the first word is
    held against those patterns and against nothing else.  A command let
    through leaves the gate as it was, and so does one refused for its
    first word: the threat count rises for a dangerous pattern only. *)
Theorem X28_allowlist_checks_first_word :
  forall (self : ShellCommandSanitizer.t) (command : string),
    ShellCommandSanitizer.mode self = "allowlist" ->
    let out := ShellCommandSanitizer.validate lib self (Json.JStr command) in
    let base := Py.split_ws_first (Py.strip command) in
    (exists verdict, fst out = Ok verdict) /\
    (fst out = Ok (true, None) ->
     (Py.strip command = EmptyString \/ In base ShellCommandSanitizer.SAFE_COMMANDS) /\
     snd out = self) /\
    (Py.strip command <> EmptyString ->
     ~ In base ShellCommandSanitizer.SAFE_COMMANDS ->
     exists reason, fst out = Ok (false, Some reason)) /\
    (In base ShellCommandSanitizer.SAFE_COMMANDS ->
     (forall pattern, In pattern ShellCommandSanitizer.DANGEROUS_COMMANDS ->
                      re_search lib pattern false command = false) ->
     fst out = Ok (true, None)) /\
    (ShellCommandSanitizer.threat_count (snd out) <> ShellCommandSanitizer.threat_count self ->
     exists pattern,
       In pattern ShellCommandSanitizer.DANGEROUS_COMMANDS /\
       re_search lib pattern false command = true /\
       fst out = Ok (false, Some ("Blocked: Dangerous pattern detected: " +:+ pattern))).
Proof.
  intros self command Hmode. cbv zeta. unfold ShellCommandSanitizer.validate.
  destruct (String.eqb_spec command EmptyString) as [-> | Hne]; cbn [orb].
  - cbn [fst snd]. split; [eexists; reflexivity |].
    split; [intros _; split; [left |]; reflexivity |].
    split; [intros H; exfalso; apply H; reflexivity |].
    split; [reflexivity |]. intros H. congruence.
  - destruct (String.eqb_spec (Py.strip command) EmptyString) as [Hblank | Hsome].
    + cbn [fst snd]. split; [eexists; reflexivity |].
      split; [intros _; split; [left; exact Hblank | reflexivity] |].
      split; [contradiction |]. split; [reflexivity |]. intros H. congruence.
    + destruct (List.find _ ShellCommandSanitizer.DANGEROUS_COMMANDS) as [pattern |] eqn:Hfind.
      * apply List.find_some in Hfind as [Hin Hmatch].
        cbn [fst snd]. split; [eexists; reflexivity |].
        split; [discriminate |]. split; [intros _ _; eexists; reflexivity |].
        split; [intros _ Hnone; rewrite (Hnone pattern Hin) in Hmatch; discriminate Hmatch |].
        intros _. exists pattern. repeat split; assumption.
      * rewrite Hmode. change (String.eqb "allowlist" "allowlist") with true.
        destruct (List.existsb _ ShellCommandSanitizer.SAFE_COMMANDS) eqn:Hsafe; cbn [fst snd].
        -- apply in_safe_commands in Hsafe.
           split; [eexists; reflexivity |].
           split; [intros _; split; [right; exact Hsafe | reflexivity] |].
           split; [intros _ Hout; contradiction |].
           split; [reflexivity |]. intros H. congruence.
        -- assert (Hout : ~ In (Py.split_ws_first (Py.strip command))
                            ShellCommandSanitizer.SAFE_COMMANDS).
           { intros Hin. apply in_safe_commands in Hin. congruence. }
           split; [eexists; reflexivity |]. split; [discriminate |].
           split; [intros _ _; eexists; reflexivity |].
           split; [intros Hin; contradiction |]. intros H. congruence.
Qed.

End GateRules.

(** ** The authority kernel *)

Section EscalationFacts.

Import AuthorityKernel.

Local Open Scope Z_scope.

#[local] Arguments ImmutableAuditLog._sign_entry : simpl never.
#[local] Arguments String.eqb : simpl never.

Lemma getitem_setitem {A : Type} (k k' : string) (v : A) (d : list (string * A)) :
  PyDict.getitem k' (PyDict.setitem k v d)
  = if String.eqb k k' then Some v else PyDict.getitem k' d.
Proof.
  induction d as [| [k0 v0] d IH]; cbn [PyDict.setitem PyDict.getitem].
  - destruct (String.eqb k k'); reflexivity.
  - destruct (String.eqb_spec k0 k) as [-> | Hne]; cbn [PyDict.getitem].
    + destruct (String.eqb k k'); reflexivity.
    + rewrite IH. destruct (String.eqb_spec k0 k') as [-> | Hne'].
      * destruct (String.eqb_spec k k'); [congruence | reflexivity].
      * reflexivity.
Qed.

Lemma security_log_frame (self : t) (db : ImmutableAuditLog.Database)
    (env : ImmutableAuditLog.Env) (act : string) (params : Json.json) (auth res : string)
    (sid : option string) :
  let logged := security_log self db env act params auth res sid in
  current_authority (fst logged) = current_authority self /\
  _session_escalations (fst logged) = _session_escalations self /\
  (snd logged = db \/
   exists row, snd logged = db ++ [row] /\
               ImmutableAuditLog.level row = "SECURITY" /\
               ImmutableAuditLog.action row = act /\
               ImmutableAuditLog.tool row = "authority_kernel" /\
               ImmutableAuditLog.authority row = auth /\
               ImmutableAuditLog.result row = res).
Proof.
  cbv zeta. unfold security_log, ImmutableAuditLog.log. cbv zeta.
  destruct (ImmutableAuditLog.insert_ok env); cbn [fst snd with_audit_log current_authority
                                                   _session_escalations].
  - split; [reflexivity |]. split; [reflexivity |]. right. eexists. repeat split.
  - split; [reflexivity |]. split; [reflexivity |]. left. reflexivity.
Qed.

Lemma filter_keys {A : Type} (f : string * A -> bool) (k : string) (d : list (string * A)) :
  ~ In k (List.map fst d) -> ~ In k (List.map fst (List.filter f d)).
Proof.
  intros Hout Hin. apply Hout. apply List.in_map_iff in Hin as (kv & Hk & Hkv).
  apply List.filter_In in Hkv as [Hkv _]. apply List.in_map_iff. exists kv. tauto.
Qed.

(** A request marked approved is not among the pending ones. *)
Lemma approved_not_pending (k : string) (r : Escalation) (d : list (string * Escalation)) :
  List.NoDup (List.map fst d) ->
  PyDict.getitem k d = Some r ->
  ~ In k (List.map fst
            (List.filter (fun kv => String.eqb (status (snd kv)) "pending")
               (PyDict.setitem k (with_status r "approved") d))).
Proof.
  induction d as [| [k0 v0] d IH]; cbn [PyDict.getitem PyDict.setitem List.map fst];
    [discriminate |].
  intros Hnodup Hget. apply List.NoDup_cons_iff in Hnodup as [Hfresh Hnodup].
  destruct (String.eqb_spec k0 k) as [-> | Hne].
  - cbn [List.filter snd status with_status].
    change (String.eqb "approved" "pending") with false.
    apply filter_keys. exact Hfresh.
  - cbn [List.filter snd]. destruct (String.eqb (status v0) "pending"); cbn [List.map fst In].
    + intros [H | H]; [congruence | exact (IH Hnodup Hget H)].
    + exact (IH Hnodup Hget).
Qed.

(** The id under which [escalate] stores a request. *)
Definition escalation_id_of (env : EscalateEnv) (session_id : option string) : string :=
  Py.take_string 16
    (SHA256.hexdigest (Py.encode (none_text session_id +:+ ":" +:+ time_text env))).

Lemma escalate_step (self : t) (db : ImmutableAuditLog.Database) (env : EscalateEnv)
    (new_level : AuthorityLevel) (reason0 : string) (auth_code0 session_id : option string) :
  let out := escalate self db env new_level reason0 auth_code0 session_id in
  let self' := snd (fst out) in
  (value new_level <= value (current_authority self) ->
   out = ([ ("success", Json.JBool true);
            ("message", Json.JStr ("Already at " +:+ str new_level +:+ " or higher")) ],
          self, db)) /\
  (value (current_authority self) < value new_level -> value new_level < value SENIOR ->
   current_authority self' = new_level /\
   _session_escalations self' = _session_escalations self /\
   PyDict.getitem "success" (fst (fst out)) = Some (Json.JBool true)) /\
  (value (current_authority self) < value new_level -> value SENIOR <= value new_level ->
   current_authority self' = current_authority self /\
   PyDict.getitem "success" (fst (fst out)) = Some (Json.JBool false) /\
   PyDict.getitem "requires_approval" (fst (fst out)) = Some (Json.JBool true) /\
   PyDict.getitem "escalation_id" (fst (fst out))
   = Some (Json.JStr (escalation_id_of env session_id)) /\
   _session_escalations self'
   = PyDict.setitem (escalation_id_of env session_id)
       {| requested_level := new_level; current_level := current_authority self;
          reason := reason0; timestamp := escalation_now env; status := "pending";
          auth_code := auth_code0 |}
       (_session_escalations self)).
Proof.
  cbv zeta. unfold escalate. cbv zeta.
  destruct (Z.leb_spec (value new_level) (value (current_authority self))) as [Hle | Hgt].
  - split; [reflexivity |]. split; intros; lia.
  - split; [intros; lia |].
    match goal with
    | |- context [security_log self db ?e ?a ?p ?au ?r ?s] =>
        destruct (security_log_frame self db e a p au r s) as (Hcur & Hesc & _)
    end.
    cbv zeta in Hcur, Hesc.
    destruct (Z.leb_spec (value SENIOR) (value new_level)) as [Hhigh | Hlow].
    + split; [intros; lia |]. intros _ _.
      cbn [fst snd with_escalations current_authority _session_escalations].
      rewrite Hcur, Hesc. repeat split.
    + split; [| intros; lia]. intros _ _.
      match goal with
      | |- context [security_log ?s0 ?d0 ?e ?a ?p ?au ?r ?s] =>
          destruct (security_log_frame s0 d0 e a p au r s) as (Hcur2 & Hesc2 & _)
      end.
      cbv zeta in Hcur2, Hesc2. cbn [fst snd].
      rewrite Hcur2, Hesc2. cbn [with_current current_authority _session_escalations].
      rewrite Hesc. repeat split.
Qed.

Lemma escalate_bound (self : t) (db : ImmutableAuditLog.Database) (c : EscalateCall) :
  let st := escalate_call (self, db) c in
  value (current_authority self) <= value (current_authority (fst st))
  <= Z.max (value (current_authority self)) (value DEVELOPER).
Proof.
  cbv zeta. unfold escalate_call. cbn [fst snd].
  destruct (escalate_step self db (call_env c) (call_new_level c) (call_reason c)
              (call_auth_code c) (call_session_id c)) as (Hsame & Hlow & Hhigh).
  cbv zeta in Hsame, Hlow, Hhigh.
  destruct (Z.le_gt_cases (value (call_new_level c)) (value (current_authority self)))
    as [Hle | Hgt].
  - rewrite (Hsame Hle). cbn [fst snd]. lia.
  - destruct (Z.lt_ge_cases (value (call_new_level c)) (value SENIOR)) as [Hlt | Hge].
    + destruct (Hlow Hgt Hlt) as (-> & _). cbn in Hlt |- *. lia.
    + destruct (Hhigh Hgt Hge) as (-> & _). lia.
Qed.

(** X29.  [escalate] alone does not reach SENIOR.  A request for a level
    at or below the current one succeeds and changes nothing, not even the
    audit table.  A request for a higher level below SENIOR is granted at
    once.  A request for SENIOR or above, when that is above the current
    level, is not granted: the level stays, the answer says that an
    approval is required, and the request is stored as pending under the
    id returned.  Hence over any sequence of calls of [escalate] the level
    never falls and never rises above DEVELOPER, unless it was above
    before: from the USER level of a new kernel, it stays at or below
    DEVELOPER. *)
Theorem X29_escalate_stops_below_senior :
  forall (calls : list EscalateCall) (self : t) (db : ImmutableAuditLog.Database),
    let st := escalate_each (self, db) calls in
    value (current_authority self) <= value (current_authority (fst st))
    <= Z.max (value (current_authority self)) (value DEVELOPER) /\
    (forall db0 : ImmutableAuditLog.Database,
        value (current_authority (fst (escalate_each (init db0, db0) calls)))
        <= value DEVELOPER) /\
    (forall (env : EscalateEnv) (new_level : AuthorityLevel) (reason0 : string)
            (auth_code0 session_id : option string),
        let out := escalate self db env new_level reason0 auth_code0 session_id in
        (value new_level <= value (current_authority self) ->
         snd (fst out) = self /\ snd out = db /\
         PyDict.getitem "success" (fst (fst out)) = Some (Json.JBool true)) /\
        (value (current_authority self) < value new_level -> value SENIOR <= value new_level ->
         current_authority (snd (fst out)) = current_authority self /\
         PyDict.getitem "success" (fst (fst out)) = Some (Json.JBool false) /\
         PyDict.getitem "requires_approval" (fst (fst out)) = Some (Json.JBool true) /\
         exists request,
           PyDict.getitem (escalation_id_of env session_id) (_session_escalations (snd (fst out)))
           = Some request /\
           requested_level request = new_level /\ status request = "pending")).
Proof.
  assert (Hseq : forall calls self db,
             value (current_authority self)
             <= value (current_authority (fst (escalate_each (self, db) calls)))
             <= Z.max (value (current_authority self)) (value DEVELOPER)).
  { induction calls as [| c calls IH]; intros self db.
    - cbn [escalate_each List.fold_left fst]. lia.
    - unfold escalate_each. cbn [List.fold_left].
      pose proof (escalate_bound self db c) as Hstep. cbv zeta in Hstep.
      destruct (escalate_call (self, db) c) as [self1 db1]. cbn [fst] in Hstep.
      specialize (IH self1 db1). unfold escalate_each in IH. lia. }
  intros calls self db. cbv zeta. split; [apply Hseq |]. split.
  - intros db0. specialize (Hseq calls (init db0) db0). cbn in Hseq |- *. lia.
  - intros env new_level reason0 auth_code0 session_id.
    destruct (escalate_step self db env new_level reason0 auth_code0 session_id)
      as (Hsame & _ & Hhigh). cbv zeta in Hsame, Hhigh.
    split.
    + intros Hle. rewrite (Hsame Hle). repeat split.
    + intros Hgt Hge. destruct (Hhigh Hgt Hge) as (Hcur & Hs & Hr & _ & Hstored).
      split; [exact Hcur |]. split; [exact Hs |]. split; [exact Hr |].
      eexists. rewrite Hstored, getitem_setitem, String.eqb_refl.
      split; [reflexivity |]. split; reflexivity.
Qed.

(** X30.  The approval decides, and it is not held against the state of
    the request.  [approve_escalation] answers
    an unknown id with an error and changes nothing.  For a known id, an
    approval sets the current level to the level requested, whether that
    is above or below the current one and whatever the status of the
    request, and marks the request approved; a denial keeps the level and
    marks it denied.  So a request stored by [escalate] is granted by its
    approval and is then no longer listed as pending, and a request that
    has been denied is granted by a later approval all the same. *)
Theorem X30_approval_sets_requested_level :
  forall (self : t) (db : ImmutableAuditLog.Database) (env : ImmutableAuditLog.Env)
         (escalation_id : string) (approver_id : option string),
    (PyDict.getitem escalation_id (_session_escalations self) = None ->
     forall approved,
       approve_escalation self db env escalation_id approved approver_id
       = ([ ("success", Json.JBool false); ("error", Json.JStr "Escalation not found") ],
          self, db)) /\
    (forall request,
        PyDict.getitem escalation_id (_session_escalations self) = Some request ->
        let granted := approve_escalation self db env escalation_id true approver_id in
        let denied := approve_escalation self db env escalation_id false approver_id in
        current_authority (snd (fst granted)) = requested_level request /\
        PyDict.getitem escalation_id (_session_escalations (snd (fst granted)))
        = Some (with_status request "approved") /\
        PyDict.getitem "success" (fst (fst granted)) = Some (Json.JBool true) /\
        (List.NoDup (List.map fst (_session_escalations self)) ->
         ~ In escalation_id
             (List.map fst (get_escalation_requests (snd (fst granted)) "pending"))) /\
        current_authority (snd (fst denied)) = current_authority self /\
        PyDict.getitem escalation_id (_session_escalations (snd (fst denied)))
        = Some (with_status request "denied") /\
        PyDict.getitem "success" (fst (fst denied)) = Some (Json.JBool false) /\
        (forall env' approver',
            current_authority
              (snd (fst (approve_escalation (snd (fst denied)) (snd denied) env' escalation_id
                           true approver')))
            = requested_level request)).
Proof.
  intros self db env escalation_id approver_id. split.
  - intros Hnone approved. unfold approve_escalation. rewrite Hnone. reflexivity.
  - intros request Hsome. cbv zeta.
    assert (Hgranted : forall s d e a r,
               PyDict.getitem escalation_id (_session_escalations s) = Some r ->
               current_authority (snd (fst (approve_escalation s d e escalation_id true a)))
               = requested_level r /\
               _session_escalations (snd (fst (approve_escalation s d e escalation_id true a)))
               = PyDict.setitem escalation_id (with_status r "approved") (_session_escalations s) /\
               PyDict.getitem "success" (fst (fst (approve_escalation s d e escalation_id true a)))
               = Some (Json.JBool true)).
    { intros s d e a r Hr. unfold approve_escalation. rewrite Hr. cbv zeta.
      match goal with
      | |- context [security_log ?s0 ?d0 ?e0 ?a0 ?p ?au ?re ?si] =>
          destruct (security_log_frame s0 d0 e0 a0 p au re si) as (Hcur & Hesc & _)
      end.
      cbv zeta in Hcur, Hesc. cbn [fst snd]. rewrite Hcur, Hesc. repeat split. }
    assert (Hdenied :
               current_authority
                 (snd (fst (approve_escalation self db env escalation_id false approver_id)))
               = current_authority self /\
               _session_escalations
                 (snd (fst (approve_escalation self db env escalation_id false approver_id)))
               = PyDict.setitem escalation_id (with_status request "denied")
                   (_session_escalations self) /\
               PyDict.getitem "success"
                 (fst (fst (approve_escalation self db env escalation_id false approver_id)))
               = Some (Json.JBool false)).
    { unfold approve_escalation. rewrite Hsome. cbv zeta.
      match goal with
      | |- context [security_log ?s0 ?d0 ?e0 ?a0 ?p ?au ?re ?si] =>
          destruct (security_log_frame s0 d0 e0 a0 p au re si) as (Hcur & Hesc & _)
      end.
      cbv zeta in Hcur, Hesc. cbn [fst snd]. rewrite Hcur, Hesc. repeat split. }
    destruct (Hgranted self db env approver_id request Hsome) as (Hg1 & Hg2 & Hg3).
    destruct Hdenied as (Hd1 & Hd2 & Hd3).
    split; [exact Hg1 |].
    split; [rewrite Hg2, getitem_setitem, String.eqb_refl; reflexivity |].
    split; [exact Hg3 |].
    split.
    { intros Hnodup. unfold get_escalation_requests. rewrite Hg2.
      apply approved_not_pending; assumption. }
    split; [exact Hd1 |].
    split; [rewrite Hd2, getitem_setitem, String.eqb_refl; reflexivity |].
    split; [exact Hd3 |].
    intros env' approver'.
    apply (Hgranted _ _ env' approver' (with_status request "denied")).
    rewrite Hd2, getitem_setitem, String.eqb_refl. reflexivity.
Qed.

End EscalationFacts.

(** ** The statements above on inputs *)

(** X1 on FILE_READ and FILE_WRITE. *)
Lemma X1_requirements_witness :
  (Authority.value Authority.FILE_READ <= Authority.value Authority.FILE_WRITE)%Z /\
  (Authority.consensus_required (Authority.get_authority_requirements Authority.FILE_READ)
   <= Authority.consensus_required (Authority.get_authority_requirements Authority.FILE_WRITE))%Z.
Proof.
  assert (H : (Authority.value Authority.FILE_READ <= Authority.value Authority.FILE_WRITE)%Z)
    by (vm_compute; discriminate).
  split; [exact H |].
  exact (proj1 (proj2 (proj2 (proj2
           (X1_requirements_tighten_with_level Authority.FILE_READ Authority.FILE_WRITE H))))).
Defined.

(** Two calls of [log] in one hour on one machine. *)
Definition sample_log_call (ts command : string) : ImmutableAuditLog.LogCall :=
  {| ImmutableAuditLog.log_env := sample_env ts true;
     ImmutableAuditLog.log_level := "OPERATION";
     ImmutableAuditLog.log_action := "web_search";
     ImmutableAuditLog.log_tool := "web";
     ImmutableAuditLog.log_parameters := sample_params command;
     ImmutableAuditLog.log_authority := "AuthorityLevel.INFO_RETRIEVAL";
     ImmutableAuditLog.log_result := ImmutableAuditLog.default_result;
     ImmutableAuditLog.log_session_id := Some "Randall";
     ImmutableAuditLog.log_user_id := None |}.

Definition sample_log_calls : list ImmutableAuditLog.LogCall :=
  [ sample_log_call "2026-01-05T10:00:00.000001" "search x";
    sample_log_call "2026-01-05T10:00:01.000002" "search y" ].

(** X2 on the first entry of an empty table. *)
Lemma X2_log_witness :
  let env := sample_env "2026-01-05T10:00:00.000001" true in
  let after := ImmutableAuditLog.log (ImmutableAuditLog.init []) [] env
                 "OPERATION" "web_search" "web" (sample_params "search x")
                 "AuthorityLevel.INFO_RETRIEVAL" ImmutableAuditLog.default_result
                 (Some "Randall") None in
  ImmutableAuditLog.insert_ok env = true /\
  exists row,
    snd after = [] ++ [row] /\
    ImmutableAuditLog.session_id row = "Randall" /\
    ImmutableAuditLog.user_id row = "anonymous" /\
    String.length (ImmutableAuditLog.signature row) = 64.
Proof.
  cbv zeta. split; [reflexivity |].
  destruct (X2_log_appends_signed_row (ImmutableAuditLog.init []) []
              (sample_env "2026-01-05T10:00:00.000001" true)
              "OPERATION" "web_search" "web" (sample_params "search x")
              "AuthorityLevel.INFO_RETRIEVAL" ImmutableAuditLog.default_result
              (Some "Randall") None eq_refl)
    as (row & Hdb & _ & _ & _ & _ & _ & _ & _ & _ & _ & _ & Hsid & Huid & Hlen & _).
  exists row. split; [exact Hdb |]. split; [exact Hsid |]. split; [exact Huid | exact Hlen].
Defined.

(** X5 on those two calls, from an empty table. *)
Lemma X5_log_chain_witness :
  let env' := sample_env "2026-01-05T10:05:00.000000" true in
  List.Forall (fun c => ImmutableAuditLog.insert_ok (ImmutableAuditLog.log_env c) = true /\
                        ImmutableAuditLog.machine_id (ImmutableAuditLog.log_env c)
                        = ImmutableAuditLog.machine_id env' /\
                        ImmutableAuditLog.epoch_hour (ImmutableAuditLog.log_env c)
                        = ImmutableAuditLog.epoch_hour env') sample_log_calls /\
  exists rows,
    snd (ImmutableAuditLog.log_each (ImmutableAuditLog.init [], []) sample_log_calls)
    = [] ++ rows /\
    List.length rows = 2 /\
    chained env' ImmutableAuditLog.genesis rows = true.
Proof.
  cbv zeta.
  assert (Hall : List.Forall
            (fun c => ImmutableAuditLog.insert_ok (ImmutableAuditLog.log_env c) = true /\
                      ImmutableAuditLog.machine_id (ImmutableAuditLog.log_env c)
                      = ImmutableAuditLog.machine_id (sample_env "2026-01-05T10:05:00.000000" true) /\
                      ImmutableAuditLog.epoch_hour (ImmutableAuditLog.log_env c)
                      = ImmutableAuditLog.epoch_hour (sample_env "2026-01-05T10:05:00.000000" true))
            sample_log_calls).
  { repeat constructor. }
  split; [exact Hall |].
  destruct (X5_log_builds_chain sample_log_calls (ImmutableAuditLog.init []) []
              (sample_env "2026-01-05T10:05:00.000000" true) Hall)
    as (rows & Hdb & Hlen & Hchain & _).
  exists rows. split; [exact Hdb |]. split; [exact Hlen | exact Hchain].
Defined.

(** A callback is registered, then two deployment failures are recorded. *)
Definition sample_calls : list (IncidentTracker.Call unit) :=
  [ IncidentTracker.CallOnEscalation tt;
    IncidentTracker.CallRecord (sample_record_env "a1b2c3d4e5f60718293a4b5c6d7e8f90")
      "deployment_failure" "failed" None None None;
    IncidentTracker.CallRecord (sample_record_env "d4e5f6a7b8c90123456789abcdef0123")
      "deployment_failure" "failed" None None None ].

(** X9 on those calls: the flag is set, and the callback has been called
    once, for an incident of the log. *)
Lemma X9_escalation_witness :
  let self := IncidentTracker.call_each new_tracker sample_calls in
  List.forallb (fun c => negb (is_resolve c)) sample_calls = true /\
  IncidentTracker.two_strike_triggered self = true /\
  exists (first later : list unit) (e : IncidentTracker.IncidentEntry),
    IncidentTracker._escalation_callbacks self = first ++ later /\
    In e (IncidentTracker._log self) /\
    IncidentTracker.called self
    = List.map (fun cb => (cb, IncidentTracker.incident_type (IncidentTracker.incident e),
                           IncidentTracker.id (IncidentTracker.incident e))) first.
Proof.
  cbv zeta. split; [reflexivity |]. split; [reflexivity |].
  exact (proj1 (proj2 (X9_escalation_made_once no_entry EmptyString sample_calls eq_refl))
           eq_refl).
Defined.

(** An incident of the day before, the file that holds its line, and a
    reading of lines that knows that line. *)
Definition sample_entry : IncidentTracker.IncidentEntry :=
  {| IncidentTracker.incident :=
       {| IncidentTracker.id := "INC-20260104-0A1B2C";
          IncidentTracker.timestamp := "2026-01-04T09:00:00.000000+00:00";
          IncidentTracker.incident_type := "agent_error";
          IncidentTracker.description := "timeout";
          IncidentTracker.agent := Some "builder";
          IncidentTracker.operation := None;
          IncidentTracker.details := Json.JDict [];
          IncidentTracker.status := "open" |};
     IncidentTracker.resolution := None;
     IncidentTracker.closed_at := None |}.

Definition sample_file : string := IncidentTracker.file_text [sample_entry].

Definition read_sample (line : string) : option IncidentTracker.IncidentEntry :=
  if String.eqb line (IncidentTracker.entry_line sample_entry) then Some sample_entry else None.

(** X10 on that file and those calls, whose writes are completed. *)
Lemma X10_file_witness :
  let self := IncidentTracker.call_each
                (IncidentTracker.init read_sample sample_file) sample_calls in
  sample_file = IncidentTracker.file_text (IncidentTracker._load read_sample sample_file) /\
  List.forallb written sample_calls = true /\
  List.length (IncidentTracker._log self) = 3 /\
  IncidentTracker.jsonl self = IncidentTracker.file_text (IncidentTracker._log self).
Proof.
  cbv zeta.
  assert (Hfile : sample_file
                  = IncidentTracker.file_text (IncidentTracker._load read_sample sample_file))
    by (vm_compute; reflexivity).
  split; [exact Hfile |]. split; [reflexivity |]. split; [vm_compute; reflexivity |].
  exact (proj1 (X10_file_follows_log read_sample sample_file sample_calls Hfile eq_refl)).
Defined.

(** X18 on a search, which the sample kernel executes. *)
Lemma X18_execution_witness :
  let out := OraKernel.process_command literal_lib sample_world sample_kernel_env
               "search the web for papers" "Randall" in
  OraKernel.status (fst out) = "success" /\
  (Authority.value
     (Constitution.authority_level
        (OraKernel.parse_command sample_kernel_env "search the web for papers" "Randall"))
   < Authority.value Authority.FILE_WRITE)%Z /\
  OraKernel.requires_approval (fst out) = false.
Proof.
  cbv zeta.
  assert (Hsuccess : OraKernel.status
            (fst (OraKernel.process_command literal_lib sample_world sample_kernel_env
                    "search the web for papers" "Randall")) = "success")
    by (vm_compute; reflexivity).
  split; [exact Hsuccess |].
  destruct (X18_execution_only_below_file_write literal_lib sample_world sample_kernel_env
              "search the web for papers" "Randall" Hsuccess)
    as (Hlevel & _ & Happroval & _).
  split; [exact Hlevel | exact Happroval].
Defined.

(** The sample kernel behind security gates that raise a
    [ConstitutionalViolation] for every request. *)
Definition objecting_world : OraKernel.World :=
  {| OraKernel.kernel :=
       {| OraKernel.constitution := Constitution.make None;
          OraKernel.audit_logger := Some (ImmutableAuditLog.init []);
          OraKernel.security_gates :=
            Some (OraKernel.OtherGates
                    (fun _ => Gates.Raise "ConstitutionalViolation" "request refused by policy"));
          OraKernel.active_interfaces := OraKernel.active_interfaces sample_kernel;
          OraKernel._operation_history := ∅;
          OraKernel._metrics := OraKernel._metrics sample_kernel |};
     OraKernel.db := []; OraKernel.delivered := [] |}.

(** X19 on that kernel, which rejects the command, and on the sample
    kernel, which has no security gates and does not. *)
Lemma X19_rejection_witness :
  Constitution.verify_immutability (OraKernel.constitution (OraKernel.kernel objecting_world))
  = true /\
  OraKernel.status
    (fst (OraKernel.process_command literal_lib objecting_world sample_kernel_env
            "modify the kernel" "Randall")) = "rejected" /\
  OraKernel.status
    (fst (OraKernel.process_command literal_lib sample_world sample_kernel_env
            "modify the kernel" "Randall")) <> "rejected".
Proof.
  assert (Hverify : Constitution.verify_immutability (Constitution.make None) = true)
    by (apply make_verify_immutability).
  split; [exact Hverify |]. split.
  - apply (proj1 (proj2 (X19_only_the_gates_reject literal_lib objecting_world
                           sample_kernel_env "modify the kernel" "Randall" Hverify))).
    eexists _, "ConstitutionalViolation", "request refused by policy".
    split; [reflexivity |]. split; reflexivity.
  - intros Hrejected.
    apply (proj1 (proj2 (X19_only_the_gates_reject literal_lib sample_world
                           sample_kernel_env "modify the kernel" "Randall" Hverify)))
      in Hrejected.
    destruct Hrejected as (run & kind & m & Hgates & _). discriminate Hgates.
Defined.

(** X20 on a command with the word in capitals. *)
Lemma X20_harmful_word_witness :
  let out := OraKernel.process_command literal_lib sample_world sample_kernel_env
               "Please WIPE the cache" "Randall" in
  OraKernel.constitution (OraKernel.kernel sample_world) = Constitution.make None /\
  fst (OraKernel.run_gates literal_lib (OraKernel.kernel sample_world)
         "Please WIPE the cache" "Randall") = OraKernel.GatesPass /\
  In "wipe" Constitution.harmful_keywords /\
  Py.contains "wipe" (Py.lower "Please WIPE the cache") = true /\
  OraKernel.status (fst out) = "blocked" /\
  OraKernel.db (snd out) = [].
Proof.
  cbv zeta.
  assert (Hin : In "wipe" Constitution.harmful_keywords)
    by (unfold Constitution.harmful_keywords; cbn [In]; tauto).
  assert (Hfound : Py.contains "wipe" (Py.lower "Please WIPE the cache") = true)
    by (vm_compute; reflexivity).
  split; [reflexivity |]. split; [reflexivity |]. split; [exact Hin |]. split; [exact Hfound |].
  destruct (X20_harmful_word_blocks_command literal_lib sample_world sample_kernel_env
              "Please WIPE the cache" "Randall" "wipe" eq_refl eq_refl Hin Hfound)
    as (Hstatus & _ & _ & _ & Hdb & _).
  split; [exact Hstatus | exact Hdb].
Defined.

(** X21 on the kernel behind gates that refuse every request. *)
Lemma X21_gate_block_witness :
  let out := OraKernel.process_command literal_lib guarded_world sample_kernel_env
               "search the web for papers" "Randall" in
  fst (OraKernel.run_gates literal_lib (OraKernel.kernel guarded_world)
         "search the web for papers" "Randall") = OraKernel.GatesBlocked "prompt injection" /\
  OraKernel.status (fst out) = "blocked" /\
  OraKernel.delivered (snd out) = [].
Proof.
  cbv zeta. split; [reflexivity |].
  destruct (X21_gate_block_is_not_broadcast literal_lib guarded_world sample_kernel_env
              "search the web for papers" "Randall" "prompt injection" eq_refl)
    as (Hstatus & _ & _ & _ & Hdelivered & _).
  split; [exact Hstatus | exact Hdelivered].
Defined.

(** X23 on a command whose only "file" is in capitals. *)
Lemma X23_file_path_witness :
  let command := "open the FILE notes.txt " in
  OraKernel.has_any ["search"; "web"; "find"] (Py.lower command) = false /\
  Py.contains "file" (Py.lower command) = true /\
  Py.contains "file" command = false /\
  Constitution.parameters (OraKernel.parse_command sample_kernel_env command "Randall")
  = Json.JDict [("path", Json.JStr (Py.strip command))].
Proof.
  cbv zeta.
  assert (H1 : OraKernel.has_any ["search"; "web"; "find"]
                 (Py.lower "open the FILE notes.txt ") = false) by (vm_compute; reflexivity).
  assert (H2 : Py.contains "file" (Py.lower "open the FILE notes.txt ") = true)
    by (vm_compute; reflexivity).
  assert (H3 : Py.contains "file" "open the FILE notes.txt " = false)
    by (vm_compute; reflexivity).
  split; [exact H1 |]. split; [exact H2 |]. split; [exact H3 |].
  exact (proj2 (proj2 (proj2 (X23_file_read_path sample_kernel_env "open the FILE notes.txt "
                                "Randall" H1 H2))) H3).
Defined.

(** The sample kernel with the coordinator of [gates.py] as its security
    gates, as [main.py] builds it. *)
Definition wired_world : OraKernel.World :=
  {| OraKernel.kernel :=
       {| OraKernel.constitution := Constitution.make None;
          OraKernel.audit_logger := Some (ImmutableAuditLog.init []);
          OraKernel.security_gates := Some (OraKernel.Coordinator sample_coordinator);
          OraKernel.active_interfaces := OraKernel.active_interfaces sample_kernel;
          OraKernel._operation_history := ∅;
          OraKernel._metrics := OraKernel._metrics sample_kernel |};
     OraKernel.db := []; OraKernel.delivered := [] |}.

(** X25 on that kernel and a search. *)
Lemma X25_coordinator_witness :
  let out := OraKernel.process_command literal_lib wired_world sample_kernel_env
               "search the web for papers" "Randall" in
  OraKernel.security_gates (OraKernel.kernel wired_world)
  = Some (OraKernel.Coordinator sample_coordinator) /\
  OraKernel.status (fst out) = "error" /\
  OraKernel.output (fst out) = "Error: 'dict' object has no attribute 'passed'" /\
  OraKernel.db (snd out) = [].
Proof.
  cbv zeta. split; [reflexivity |].
  destruct (X25_coordinator_fails_every_command literal_lib wired_world sample_kernel_env
              "search the web for papers" "Randall" sample_coordinator eq_refl)
    as (Hstatus & Houtput & _ & _ & Hdb & _).
  split; [exact Hstatus |]. split; [exact Houtput | exact Hdb].
Defined.

(** X27 on a custom host, and on a host that is refused by a gate that
    has counted four threats. *)
Lemma X27_allowlist_witness :
  let gate := {| Gates.NetworkAllowlist.allowlist :=
                   Gates.NetworkAllowlist.allowlist
                     (Gates.NetworkAllowlist.make ["files.example.org"]);
                 Gates.NetworkAllowlist.threat_count := 4 |} in
  Gates.urlparse_domain literal_lib "files.example.org" = Gates.Ok "files.example.org" /\
  fst (fst (Gates.NetworkAllowlist.is_allowed literal_lib gate
              (Json.JStr "files.example.org"))) = true /\
  Gates.urlparse_domain literal_lib "evil.example.org" = Gates.Ok "evil.example.org" /\
  Gates.NetworkAllowlist.threat_count
    (snd (Gates.NetworkAllowlist.is_allowed literal_lib gate (Json.JStr "evil.example.org")))
  = 5.
Proof.
  cbv zeta. split; [reflexivity |]. split; [| split; [reflexivity |]].
  - apply (proj1 (X27_network_allowlist_membership literal_lib _
                    "files.example.org" "files.example.org" eq_refl)).
    apply (bool_decide_unpack _). vm_compute. exact I.
  - refine (proj2 (proj1 (proj2 (proj2 (X27_network_allowlist_membership literal_lib
              {| Gates.NetworkAllowlist.allowlist :=
                   Gates.NetworkAllowlist.allowlist
                     (Gates.NetworkAllowlist.make ["files.example.org"]);
                 Gates.NetworkAllowlist.threat_count := 4 |}
              "evil.example.org" "evil.example.org" eq_refl))) _)).
    vm_compute. reflexivity.
Defined.

(** X28 on a listing, in allowlist mode. *)
Lemma X28_first_word_witness :
  let self := {| Gates.ShellCommandSanitizer.mode := "allowlist";
                 Gates.ShellCommandSanitizer.threat_count := 0 |} in
  Gates.ShellCommandSanitizer.mode self = "allowlist" /\
  exists verdict,
    fst (Gates.ShellCommandSanitizer.validate literal_lib self (Json.JStr "ls -la /workspace"))
    = Gates.Ok verdict.
Proof.
  cbv zeta. split; [reflexivity |].
  exact (proj1 (X28_allowlist_checks_first_word literal_lib
                  {| Gates.ShellCommandSanitizer.mode := "allowlist";
                     Gates.ShellCommandSanitizer.threat_count := 0 |}
                  "ls -la /workspace" eq_refl)).
Defined.
